(** * weather.py: temperature reports over daily min/max readings

    A shallow embedding of [weather.py] and of the host-language primitives it
    calls: [float], [round], [min], [max], [sum], [list.index], [str.join],
    the printing of numbers in f-strings, [datetime.fromisoformat] and
    [strftime].  Floats are the binary64 floats of the kernel, texts are
    byte strings in UTF-8, exceptions are the [Raise] of a result.  The
    primitives follow CPython 3.11 on Linux, down to the C code of
    [fromisoformat] and to the year [strftime] prints without zeros in front;
    where another interpreter or platform is known to differ, the comment of
    the primitive says so.
    [load_data_from_csv] is embedded on the text of the file it opens, with
    the lines of a file, [csv.reader] and [int]; opening the file and decoding
    its bytes are not: the text is the content of a file that exists, in
    UTF-8.  The rows the loader builds are the [day] records the reports
    take. *)

From Stdlib Require Import ZArith List String Ascii Bool Lia.
From Stdlib Require Import Floats DecimalString.
From Stdlib Require DecimalFacts DecimalPos.
Import ListNotations.

Local Open Scope string_scope.
Local Open Scope list_scope.
Local Open Scope Z_scope.

(** ** Exceptions and results *)

Inductive exn : Type :=
| ValueError      (* a text that is not a number, or not an ISO date *)
| OverflowError.  (* an integer too large for a float *)

Inductive result (A : Type) : Type :=
| Ok (a : A)
| Raise (e : exn).

Arguments Ok {A} a.
Arguments Raise {A} e.

Definition bind {A B : Type} (r : result A) (k : A -> result B) : result B :=
  match r with
  | Ok a => k a
  | Raise e => Raise e
  end.

Notation "x <- r ;; k" := (bind r (fun x => k))
  (at level 61, r at next level, right associativity).

(** [[f(x) for x in xs]]: left to right, the first exception wins. *)
Fixpoint mapM {A B : Type} (f : A -> result B) (xs : list A) : result (list B) :=
  match xs with
  | [] => Ok []
  | x :: xs' => y <- f x ;; ys <- mapM f xs' ;; Ok (y :: ys)
  end.

(** ** Host values *)

(** The values the functions of [weather.py] receive where a number is
    expected: integers, floats (binary64) and text. *)
Inductive pyval : Type :=
| PyInt (n : Z)
| PyFloat (x : float)
| PyStr (s : string).

Module Py.

(** *** binary64 helpers *)

(** The float nearest to the integer [n] (ties to even); an infinity when [n]
    is out of range. *)
Definition float_of_Z (n : Z) : float :=
  SF2Prim (binary_normalize prec emax n 0 false).

(** The float nearest to [p / q], for positive [p] and [q] of any size. *)
Definition SF_of_ratio (s : bool) (p q : positive) : spec_float :=
  let '(mz, ez, lz) := SFdiv_core_binary prec emax (Zpos p) 0 (Zpos q) 0 in
  binary_round_aux prec emax s mz ez lz.

(** The float nearest to [(-1)^s * m * 10^e]. *)
Definition SF_of_decimal (s : bool) (m : Z) (e : Z) : spec_float :=
  match m with
  | Zpos p =>
      match e with
      | Zneg k => SF_of_ratio s p (Pos.pow 10 k)
      | _ => binary_normalize prec emax (if s then - (m * 10 ^ e) else m * 10 ^ e) 0 s
      end
  | _ => S754_zero s
  end.

(** *** [float(v)] *)

Definition code (c : ascii) : Z := Z.of_N (N_of_ascii c).

Definition is_digit (c : ascii) : bool := (48 <=? code c) && (code c <=? 57).

Definition digit_val (c : ascii) : Z := code c - 48.

(** The white space [float] strips: space, and the controls 9 to 13. *)
Definition is_space (c : ascii) : bool :=
  (code c =? 32) || ((9 <=? code c) && (code c <=? 13)).

Definition lower (c : ascii) : ascii :=
  if (65 <=? code c) && (code c <=? 90)
  then ascii_of_N (N_of_ascii c + 32) else c.

Fixpoint lstrip (cs : list ascii) : list ascii :=
  match cs with
  | c :: r => if is_space c then lstrip r else cs
  | [] => []
  end.

Definition strip (cs : list ascii) : list ascii :=
  rev (lstrip (rev (lstrip cs))).

(** The integer a run of decimal digits denotes. *)
Definition digits_value (ds : list ascii) : Z :=
  fold_left (fun acc c => 10 * acc + digit_val c) ds 0.

(** [(["_"] digit)*]: the digits read and the text left. *)
Fixpoint digits_tail (cs : list ascii) : list ascii * list ascii :=
  match cs with
  | c :: r =>
      if is_digit c then
        let '(ds, r') := digits_tail r in (c :: ds, r')
      else if Ascii.eqb c "_" then
        match r with
        | d :: r2 =>
            if is_digit d then
              let '(ds, r') := digits_tail r2 in (d :: ds, r')
            else ([], cs)
        | [] => ([], cs)
        end
      else ([], cs)
  | [] => ([], [])
  end.

(** [digitpart ::= digit (["_"] digit)*] *)
Definition digitpart (cs : list ascii) : option (list ascii * list ascii) :=
  match cs with
  | c :: r =>
      if is_digit c then
        let '(ds, r') := digits_tail r in Some (c :: ds, r')
      else None
  | [] => None
  end.

(** [exponent ::= ("e" | "E") [sign] digitpart], or nothing; then the end of
    the text. *)
Definition exponent (cs : list ascii) : option Z :=
  match cs with
  | [] => Some 0
  | c :: r =>
      if Ascii.eqb (lower c) "e" then
        let '(neg, r1) :=
          match r with
          | "+"%char :: r1 => (false, r1)
          | "-"%char :: r1 => (true, r1)
          | _ => (false, r)
          end in
        match digitpart r1 with
        | Some (ds, []) => Some (if neg then - digits_value ds else digits_value ds)
        | _ => None
        end
      else None
  end.

(** [number ::= [digitpart] "." digitpart | digitpart ["."]], then the
    exponent: the digits of the mantissa and the power of ten. *)
Definition floatnumber (cs : list ascii) : option (Z * Z) :=
  match digitpart cs with
  | Some (ip, "."%char :: r) =>
      match digitpart r with
      | Some (fp, r') =>
          match exponent r' with
          | Some e => Some (digits_value (ip ++ fp), e - Z.of_nat (List.length fp))
          | None => None
          end
      | None =>
          match exponent r with
          | Some e => Some (digits_value ip, e)
          | None => None
          end
      end
  | Some (ip, r) =>
      match exponent r with
      | Some e => Some (digits_value ip, e)
      | None => None
      end
  | None =>
      match cs with
      | "."%char :: r =>
          match digitpart r with
          | Some (fp, r') =>
              match exponent r' with
              | Some e => Some (digits_value fp, e - Z.of_nat (List.length fp))
              | None => None
              end
          | None => None
          end
      | _ => None
      end
  end.

(** [float(s)] for a text [s]: white space around, a sign, then a decimal
    number, [inf], [infinity] or [nan] in any case.  Text outside ASCII is not
    a number here (the interpreter also reads the decimal digits and spaces of
    other scripts). *)
Definition float_of_string (s : string) : option float :=
  let cs := strip (list_ascii_of_string s) in
  let '(neg, body) :=
    match cs with
    | "+"%char :: r => (false, r)
    | "-"%char :: r => (true, r)
    | _ => (false, cs)
    end in
  let word := string_of_list_ascii (map lower body) in
  if String.eqb word "inf" || String.eqb word "infinity" then
    Some (if neg then neg_infinity else infinity)
  else if String.eqb word "nan" then Some nan
  else
    match floatnumber body with
    | Some (m, e) => Some (SF2Prim (SF_of_decimal neg m e))
    | None => None
    end.

(** [float(v)]: an integer is rounded to the nearest float and is an
    [OverflowError] when out of range, a float is itself, a text is parsed
    and is a [ValueError] when it is not a number. *)
Definition to_float (v : pyval) : result float :=
  match v with
  | PyInt n =>
      let x := float_of_Z n in
      if is_infinity x then Raise OverflowError else Ok x
  | PyFloat x => Ok x
  | PyStr s =>
      match float_of_string s with
      | Some x => Ok x
      | None => Raise ValueError
      end
  end.

(** *** [round(x, ndigits)] *)

(** The integer nearest to [a / b], ties to even, for [0 <= a]. *)
Definition div_half_even (a : Z) (b : Z) : Z :=
  let q := a / b in
  match 2 * (a mod b) ?= b with
  | Lt => q
  | Gt => q + 1
  | Eq => if Z.even q then q else q + 1
  end.

(** [round(x, ndigits)] for [0 <= ndigits]: the exact value of [x] is rounded
    to [ndigits] decimals, ties to even, and the decimal is read back as the
    nearest float; the sign is kept; infinities and nan round to themselves. *)
Definition round (x : float) (ndigits : Z) : float :=
  match Prim2SF x with
  | S754_finite s m e =>
      let d := div_half_even (Zpos m * 2 ^ Z.max e 0 * 10 ^ ndigits)
                             (2 ^ Z.max (- e) 0) in
      SF2Prim (SF_of_decimal s d (- ndigits))
  | _ => x
  end.

(** *** [str(n)] and [repr(x)] *)

(** [str(n)] for an integer. *)
Definition str_int (n : Z) : string := NilZero.string_of_int (Z.to_int n).

(** The number of decimal digits of a positive integer. *)
Definition ndigits10 (n : Z) : Z := Z.of_nat (String.length (str_int n)).

(** The decimal exponent of the positive rational [a / b]: the largest [E]
    with [10 ^ E <= a / b]. *)
Definition decimal_exponent (a b : Z) : Z :=
  if b <=? a then ndigits10 (a / b) - 1
  else
    let j := ndigits10 (b / a) in
    if b <=? a * 10 ^ (j - 1) then - (j - 1) else - j.

Fixpoint repeat_string (n : nat) (s : string) : string :=
  match n with
  | O => ""
  | S n' => s ++ repeat_string n' s
  end.

Fixpoint strip_zeros_rev (cs : list ascii) : list ascii :=
  match cs with
  | "0"%char :: r => strip_zeros_rev r
  | _ => cs
  end.

(** The digits of [d] without the zeros at the end. *)
Definition significant_digits (d : Z) : string :=
  string_of_list_ascii
    (rev (strip_zeros_rev (rev (list_ascii_of_string (str_int d))))).

Section Shortest.
(** A positive finite float [m * 2 ^ e]. *)
Variables (m : positive) (e : Z).

Let a : Z := Zpos m * 2 ^ Z.max e 0.
Let b : Z := 2 ^ Z.max (- e) 0.

(** Does the decimal [d * 10 ^ k] read back as the float? *)
Definition reads_back (d k : Z) : bool :=
  SFeqb (SF_of_decimal false d k) (S754_finite false m e).

(** With [n] significant digits: the decimal below and the decimal above
    the float, and the one to print when one of them reads back (the
    nearer one when both do). *)
Definition candidate (n : Z) : option (Z * Z) :=
  let k := decimal_exponent a b - (n - 1) in
  let num := a * 10 ^ Z.max (- k) 0 in
  let den := b * 10 ^ Z.max k 0 in
  let lo := num / den in
  let hi := lo + 1 in
  let nearer_lo :=
    match 2 * (num mod den) ?= den with
    | Lt => true
    | Eq => Z.even lo
    | Gt => false
    end in
  match reads_back lo k, reads_back hi k with
  | true, true => Some (if nearer_lo then lo else hi, k)
  | true, false => Some (lo, k)
  | false, true => Some (hi, k)
  | false, false => None
  end.

(** The shortest decimal that reads back as the float, from [n] digits on;
    seventeen digits always do. *)
Fixpoint shortest (fuel : nat) (n : Z) : Z * Z :=
  match fuel with
  | O =>
      let k := decimal_exponent a b - (n - 1) in
      (div_half_even (a * 10 ^ Z.max (- k) 0) (b * 10 ^ Z.max k 0), k)
  | S fuel' =>
      match candidate n with
      | Some dk => dk
      | None => shortest fuel' (n + 1)
      end
  end.
End Shortest.

(** [repr] of a positive finite float: the shortest digits, laid out with a
    decimal point when the point falls within [-4 < decpt <= 16] and with an
    exponent otherwise. *)
Definition repr_finite (m : positive) (e : Z) : string :=
  let '(d, k) := shortest m e 16 1 in
  let ds := significant_digits d in
  let n := Z.of_nat (String.length ds) in
  let decpt := k + ndigits10 d in
  if (decpt <=? -4) || (16 <? decpt) then
    let x := decpt - 1 in
    let mant :=
      match ds with
      | String c EmptyString => String c EmptyString
      | String c r => String c ("." ++ r)
      | EmptyString => ""
      end in
    let xs := str_int (Z.abs x) in
    mant ++ "e" ++ (if x <? 0 then "-" else "+")
         ++ (if Z.abs x <? 10 then "0" ++ xs else xs)
  else if decpt <=? 0 then
    "0." ++ repeat_string (Z.to_nat (- decpt)) "0" ++ ds
  else if n <=? decpt then
    ds ++ repeat_string (Z.to_nat (decpt - n)) "0" ++ ".0"
  else
    substring 0 (Z.to_nat decpt) ds ++ "."
      ++ substring (Z.to_nat decpt) (Z.to_nat (n - decpt)) ds.

(** [repr(x)], which is also [str(x)] and what an f-string prints for a
    float. *)
Definition repr_float (x : float) : string :=
  match Prim2SF x with
  | S754_zero s => if s then "-0.0" else "0.0"
  | S754_infinity s => if s then "-inf" else "inf"
  | S754_nan => "nan"
  | S754_finite s m e => (if s then "-" else "") ++ repr_finite m e
  end.

(** What [f"{v}"] prints. *)
Definition str (v : pyval) : string :=
  match v with
  | PyInt n => str_int n
  | PyFloat x => repr_float x
  | PyStr s => s
  end.

(** [sep.join(parts)] *)
Fixpoint join (sep : string) (parts : list string) : string :=
  match parts with
  | [] => ""
  | [p] => p
  | p :: rest => p ++ sep ++ join sep rest
  end.

(** *** [datetime.fromisoformat] and [strftime] *)

(** The calendar date of a [datetime]; the time of day and the offset of the
    text are read, checked and dropped, [weather.py] prints the date only. *)
Record datetime : Type := mkdate { year : Z; month : Z; day : Z }.

Definition is_leap (y : Z) : bool :=
  (y mod 4 =? 0) && (negb (y mod 100 =? 0) || (y mod 400 =? 0)).

Definition days_in_month (y m : Z) : Z :=
  if m =? 2 then (if is_leap y then 29 else 28)
  else if (m =? 4) || (m =? 6) || (m =? 9) || (m =? 11) then 30
  else 31.

Definition valid_date (y m d : Z) : bool :=
  (1 <=? y) && (y <=? 9999) && (1 <=? m) && (m <=? 12)
  && (1 <=? d) && (d <=? days_in_month y m).

(** The days before January 1st of year [y], from 0001-01-01. *)
Definition days_before_year (y : Z) : Z :=
  let y1 := y - 1 in y1 * 365 + y1 / 4 - y1 / 100 + y1 / 400.

(** The days of year [y] before the first of month [m]. *)
Definition days_before_month (y m : Z) : Z :=
  fold_left (fun acc k => acc + days_in_month y (Z.of_nat k))
            (seq 1 (Z.to_nat (m - 1))) 0.

(** The day number, 0001-01-01 being day 1. *)
Definition toordinal (dt : datetime) : Z :=
  days_before_year (year dt) + days_before_month (year dt) (month dt) + day dt.

(** Monday is 0. *)
Definition weekday (dt : datetime) : Z := (toordinal dt + 6) mod 7.

Definition day_name (w : Z) : string :=
  nth (Z.to_nat w)
      ["Monday"; "Tuesday"; "Wednesday"; "Thursday"; "Friday"; "Saturday";
       "Sunday"] "".

Definition month_name (m : Z) : string :=
  nth (Z.to_nat (m - 1))
      ["January"; "February"; "March"; "April"; "May"; "June"; "July";
       "August"; "September"; "October"; "November"; "December"] "".

(** [n] in decimal, with zeros in front up to [width] characters. *)
Definition zero_pad (width : nat) (n : Z) : string :=
  let ds := str_int n in
  repeat_string (width - String.length ds) "0" ++ ds.

(** [dt.strftime(fmt)] for the directives [weather.py] uses, in the default
    locale: [%A] the full name of the day of the week, [%d] the day of the
    month on two digits, [%B] the full name of the month, [%Y] the year in
    decimal as the C library of Linux prints it, without zeros in front: 999
    for the year 999, four digits from the year 1000 on (the documentation
    of the library has 0001 to 9999, which other platforms print); other
    characters are copied. *)
Fixpoint strftime (dt : datetime) (fmt : string) : string :=
  match fmt with
  | String "%" (String c r) =>
      (if Ascii.eqb c "A" then day_name (weekday dt)
       else if Ascii.eqb c "d" then zero_pad 2 (day dt)
       else if Ascii.eqb c "B" then month_name (month dt)
       else if Ascii.eqb c "Y" then str_int (year dt)
       else if Ascii.eqb c "%" then "%"
       else String "%" (String c ""))
      ++ strftime dt r
  | String c r => String c (strftime dt r)
  | EmptyString => ""
  end.

(** [datetime.fromisoformat] is the C code of the library, function by
    function: the text is a C string, the bytes of its UTF-8 form with a NUL
    after them, and a pointer into it is a position.  It reads the calendar
    date [YYYY-MM-DD] or [YYYYMMDD], the week date [YYYY-Www[-D]] or
    [YYYYWww[D]], then, after any one character, a time of day and an offset
    from UTC.  (The versions before 3.11 read [YYYY-MM-DD] and what follows
    it only; a text cannot hold the surrogate the C code replaces at the
    place of the separator, being in UTF-8.) *)

Definition NUL : ascii := "000"%char.

(** The byte at position [i] of a C string: NUL at its end. *)
Definition char_at (b : list ascii) (i : nat) : ascii := nth i b NUL.

(** [parse_digits]: [num_digits] decimal digits from position [p], added to
    [var]; the position after them. *)
Fixpoint parse_digits (b : list ascii) (p : nat) (var : Z) (num_digits : nat)
  : option (nat * Z) :=
  match num_digits with
  | O => Some (p, var)
  | S n =>
      let c := char_at b p in
      if is_digit c then parse_digits b (S p) (10 * var + digit_val c) n
      else None
  end.

(** The characters of a text: the bytes that do not continue a character. *)
Definition code_points (b : list ascii) : nat :=
  List.length (filter (fun c => negb ((128 <=? code c) && (code c <? 192))) b).

(** The first position from [idx] on that holds no digit, [len] at most. *)
Fixpoint scan_digits (b : list ascii) (len : nat) (idx : nat) (fuel : nat) : nat :=
  match fuel with
  | O => idx
  | S f =>
      if (idx <? len)%nat && is_digit (char_at b idx)
      then scan_digits b len (S idx) f else idx
  end.

(** [_find_isoformat_datetime_separator]: where the date ends. *)
Definition find_separator (b : list ascii) : option nat :=
  let len := List.length b in
  if (len =? 7)%nat then Some 7%nat
  else if Ascii.eqb (char_at b 4) "-" then
    if Ascii.eqb (char_at b 5) "W" then
      if (len <? 8)%nat then None
      else if (8 <? len)%nat && Ascii.eqb (char_at b 8) "-" then
        if (len =? 9)%nat then None
        else if (10 <? len)%nat && is_digit (char_at b 10) then Some 8%nat
        else Some 10%nat
      else Some 8%nat
    else Some 10%nat
  else if Ascii.eqb (char_at b 4) "W" then
    let idx := scan_digits b len 7 len in
    if (idx <? 9)%nat then Some idx
    else if Nat.even idx then Some 7%nat else Some 8%nat
  else Some 8%nat.

Definition DI4Y : Z := 1461.
Definition DI100Y : Z := 36524.
Definition DI400Y : Z := 146097.

Definition days_before_month_table (m : Z) : Z :=
  nth (Z.to_nat m) [0; 0; 31; 59; 90; 120; 151; 181; 212; 243; 273; 304; 334] 0.

(** [ord_to_ymd], for a day number from 1 on. *)
Definition ord_to_ymd (ordinal : Z) : Z * Z * Z :=
  let o := ordinal - 1 in
  let n400 := o / DI400Y in
  let n := o mod DI400Y in
  let n100 := n / DI100Y in
  let n := n mod DI100Y in
  let n4 := n / DI4Y in
  let n := n mod DI4Y in
  let n1 := n / 365 in
  let n := n mod 365 in
  let y := n400 * 400 + 1 + n100 * 100 + n4 * 4 + n1 in
  if (n1 =? 4) || (n100 =? 4) then (y - 1, 12, 31)
  else
    let leapyear := (n1 =? 3) && (negb (n4 =? 24) || (n100 =? 3)) in
    let month := Z.shiftr (n + 50) 5 in
    let preceding :=
      days_before_month_table month
      + (if (2 <? month) && leapyear then 1 else 0) in
    if n <? preceding then
      let month' := month - 1 in
      let preceding' := preceding - days_in_month y month' in
      (y, month', n - preceding' + 1)
    else (y, month, n - preceding + 1).

(** The day number of January 1st of year [y], and its day of the week. *)
Definition first_day (y : Z) : Z := days_before_year y + 1.

(** [iso_to_ymd]: the day [iso_day] of the week [iso_week] of the year
    [iso_year] of the ISO calendar.  For the year 0 the C code computes a day
    before 0001-01-01, which is no date: [None] at once. *)
Definition iso_to_ymd (iso_year iso_week iso_day : Z) : option (Z * Z * Z) :=
  if iso_year <? 1 then None else
  let first_weekday := (first_day iso_year + 6) mod 7 in
  let week_ok :=
    ((0 <? iso_week) && (iso_week <? 53))
    || ((iso_week =? 53)
        && ((first_weekday =? 3)
            || ((first_weekday =? 2) && is_leap iso_year))) in
  if negb week_ok then None
  else if (iso_day <=? 0) || (8 <=? iso_day) then None
  else
    let week1_monday :=
      first_day iso_year - first_weekday
      + (if 3 <? first_weekday then 7 else 0) in
    Some (ord_to_ymd (week1_monday + (iso_week - 1) * 7 + iso_day - 1)).

(** [parse_isoformat_date], the date ending at [len]. *)
Definition parse_isoformat_date (b : list ascii) (len : nat) : option (Z * Z * Z) :=
  match parse_digits b 0 0 4 with
  | None => None
  | Some (p, year) =>
      let uses_separator := Ascii.eqb (char_at b p) "-" in
      let p := if uses_separator then S p else p in
      if Ascii.eqb (char_at b p) "W" then
        match parse_digits b (S p) 0 2 with
        | None => None
        | Some (p, iso_week) =>
            if (p <? len)%nat then
              if uses_separator && negb (Ascii.eqb (char_at b p) "-") then None
              else
                let p := if uses_separator then S p else p in
                match parse_digits b p 0 1 with
                | None => None
                | Some (_, iso_day) => iso_to_ymd year iso_week iso_day
                end
            else iso_to_ymd year iso_week 1
        end
      else
        match parse_digits b p 0 2 with
        | None => None
        | Some (p, month) =>
            if uses_separator && negb (Ascii.eqb (char_at b p) "-") then None
            else
              let p := if uses_separator then S p else p in
              match parse_digits b p 0 2 with
              | None => None
              | Some (_, day) => Some (year, month, day)
              end
        end
  end.

(** What [parse_hh_mm_ss_ff] returns: the fields, and whether it stopped
    before the end of the text. *)
Record hms : Type := mkhms {
  hour : Z; minute : Z; second : Z; microsecond : Z; more : bool
}.

Definition set_field (i : nat) (v : Z) (t : hms) : hms :=
  match i with
  | 0%nat => mkhms v (minute t) (second t) (microsecond t) (more t)
  | 1%nat => mkhms (hour t) v (second t) (microsecond t) (more t)
  | _ => mkhms (hour t) (minute t) v (microsecond t) (more t)
  end.

Fixpoint skip_digits (b : list ascii) (p : nat) (fuel : nat) : nat :=
  match fuel with
  | O => p
  | S f => if is_digit (char_at b p) then skip_digits b (S p) f else p
  end.

(** The fraction of a second, from [p] to [p_end] at most. *)
Definition parse_fraction (b : list ascii) (p p_end : nat) (t : hms) : option hms :=
  let len_remains := (p_end - p)%nat in
  let to_parse := Nat.min 6 len_remains in
  match parse_digits b p 0 to_parse with
  | None => None
  | Some (p, us) =>
      let us := us * 10 ^ (6 - Z.of_nat to_parse) in
      let p := skip_digits b p (List.length b) in
      Some (mkhms (hour t) (minute t) (second t) us
              (negb (Ascii.eqb (char_at b p) NUL)))
  end.

(** The loop of [parse_hh_mm_ss_ff] from its round [i], [n] rounds left. *)
Fixpoint parse_fields (b : list ascii) (p_end : nat) (n i : nat) (p : nat)
  (has_separator : bool) (t : hms) : option hms :=
  match n with
  | O => parse_fraction b p p_end t
  | S n' =>
      match parse_digits b p 0 2 with
      | None => None
      | Some (p, v) =>
          let t := set_field i v t in
          let c := char_at b p in
          let p := S p in
          let has_separator :=
            if (i =? 0)%nat then Ascii.eqb c ":" else has_separator in
          if (p_end <=? p)%nat then
            Some (mkhms (hour t) (minute t) (second t) (microsecond t)
                    (negb (Ascii.eqb c NUL)))
          else if has_separator && Ascii.eqb c ":" then
            parse_fields b p_end n' (S i) p has_separator t
          else if Ascii.eqb c "." || Ascii.eqb c "," then
            parse_fraction b p p_end t
          else if negb has_separator then
            parse_fields b p_end n' (S i) (p - 1) has_separator t
          else None
      end
  end.

Definition parse_hh_mm_ss_ff (b : list ascii) (tstr tstr_end : nat) : option hms :=
  parse_fields b tstr_end 3 0 tstr true (mkhms 0 0 0 0 false).

Definition is_tz_char (c : ascii) : bool :=
  Ascii.eqb c "Z" || Ascii.eqb c "+" || Ascii.eqb c "-".

(** The position of the offset from UTC, in a do-while loop. *)
Fixpoint find_tz (b : list ascii) (p_end : nat) (pos : nat) (fuel : nat) : nat :=
  if is_tz_char (char_at b pos) then pos
  else
    match fuel with
    | O => S pos
    | S f => if (S pos <? p_end)%nat then find_tz b p_end (S pos) f else S pos
    end.

(** [parse_isoformat_time] from [p] to the end of the text, with the checks
    of the constructors of [time] and [timezone]: whether the time is one. *)
Definition parse_isoformat_time (b : list ascii) (p : nat) : bool :=
  let p_end := List.length b in
  let tzinfo_pos := find_tz b p_end p (List.length b) in
  match parse_hh_mm_ss_ff b p tzinfo_pos with
  | None => false
  | Some t =>
      let time_ok := (hour t <? 24) && (minute t <? 60) && (second t <? 60) in
      if (tzinfo_pos =? p_end)%nat then negb (more t) && time_ok
      else if Ascii.eqb (char_at b tzinfo_pos) "Z" then
        Ascii.eqb (char_at b (S tzinfo_pos)) NUL && time_ok
      else
        let tzsign := if Ascii.eqb (char_at b tzinfo_pos) "-" then -1 else 1 in
        match parse_hh_mm_ss_ff b (S tzinfo_pos) p_end with
        | None => false
        | Some tz =>
            let tzoffset :=
              tzsign * (hour tz * 3600 + minute tz * 60 + second tz) in
            let total := tzoffset * 1000000 + tzsign * microsecond tz in
            negb (more tz) && time_ok
            && ((tzoffset =? 0)
                || ((- 86400000000 <? total) && (total <? 86400000000)))
        end
  end.

(** The bytes of the character at [p]. *)
Definition char_width (c : ascii) : nat :=
  if code c <? 128 then 1%nat
  else if (224 <=? code c) && (code c <? 240) then 3%nat
  else if 240 <=? code c then 4%nat
  else 2%nat.

(** [datetime.fromisoformat(s)]: the date, [None] for a text that is not
    read; the fields are checked as the constructors of [datetime] and
    [timezone] check them. *)
Definition parse_isoformat (s : string) : option datetime :=
  let b := list_ascii_of_string s in
  let len := List.length b in
  if (code_points b <? 7)%nat then None
  else
    match find_separator b with
    | None => None
    | Some sep =>
        match parse_isoformat_date b sep with
        | None => None
        | Some (y, m, d) =>
            let time_ok :=
              if (sep <? len)%nat then
                let p := (sep + char_width (char_at b sep))%nat in
                (p <=? len)%nat && parse_isoformat_time b p
              else true in
            if time_ok && valid_date y m d then Some (mkdate y m d)
            else None
        end
    end.

(** [datetime.fromisoformat(s)]: a [ValueError] when the text is not a date. *)
Definition fromisoformat (s : string) : result datetime :=
  match parse_isoformat s with
  | Some dt => Ok dt
  | None => Raise ValueError
  end.

(** [min(xs)] for a list with an element: the first element that no later
    one is below. *)
Definition min (x : float) (xs : list float) : float :=
  fold_left (fun best y => if (y <? best)%float then y else best) xs x.

(** [max(xs)] *)
Definition max (x : float) (xs : list float) : float :=
  fold_left (fun best y => if (best <? y)%float then y else best) xs x.

(** [xs.index(v)]: the position of the first element equal to [v], a
    [ValueError] when there is none.  (The interpreter also takes an element
    that is the very object [v]; this differs for nan only.) *)
Fixpoint index (v : float) (xs : list float) : result Z :=
  match xs with
  | [] => Raise ValueError
  | y :: r => if (y =? v)%float then Ok 0 else i <- index v r ;; Ok (i + 1)
  end.

(** [sum(xs)]: from the integer 0, left to right.  (From version 3.12 on the
    interpreter adds floats with a compensated sum, which can differ from
    this one in the last place.) *)
Definition sum (xs : list float) : float :=
  fold_left (fun acc y => (acc + y)%float) xs (float_of_Z 0).

End Py.

(** ** weather.py *)

Module Weather.

Local Open Scope float_scope.

Definition nl : string := String "010"%char EmptyString.

Definition DEGREE_SYMBOL : string := "°C".

(** The text the mean and the two reports return on empty input. *)
Definition NO_DATA : string := "No daily weather data available.".

Definition format_temperature (temp : pyval) : string :=
  (Py.str temp ++ DEGREE_SYMBOL)%string.

Definition convert_date (iso_string : string) : result string :=
  dt <- Py.fromisoformat iso_string ;;
  Ok (Py.strftime dt "%A %d %B %Y").

Definition convert_f_to_c (temp_in_fahrenheit : pyval) : result float :=
  x <- Py.to_float temp_in_fahrenheit ;;
  let temp_in_celsius := (x - 32) * 5 / 9 in
  Ok (Py.round temp_in_celsius 1).

(** [len(xs)] as the float a division takes it for. *)
Definition len_float {A : Type} (xs : list A) : float :=
  Py.float_of_Z (Z.of_nat (List.length xs)).

Definition calculate_mean (weather_data : list pyval) : result pyval :=
  match weather_data with
  | [] => Ok (PyStr NO_DATA)
  | _ =>
      numeric_data <- mapM Py.to_float weather_data ;;
      Ok (PyFloat (Py.sum numeric_data / len_float numeric_data))
  end.

(** The empty tuple is [None], a pair is [Some]. *)
Definition find_min (weather_data : list pyval) : result (option (float * Z)) :=
  numeric_data <- mapM Py.to_float weather_data ;;
  match numeric_data with
  | [] => Ok None
  | x :: xs =>
      let min_value := Py.min x xs in
      i <- Py.index min_value (rev numeric_data) ;;
      let last_index := (Z.of_nat (List.length numeric_data) - 1 - i)%Z in
      Ok (Some (min_value, last_index))
  end.

Definition find_max (weather_data : list pyval) : result (option (float * Z)) :=
  numeric_data <- mapM Py.to_float weather_data ;;
  match numeric_data with
  | [] => Ok None
  | x :: xs =>
      let max_value := Py.max x xs in
      i <- Py.index max_value (rev numeric_data) ;;
      let last_index := (Z.of_nat (List.length numeric_data) - 1 - i)%Z in
      Ok (Some (max_value, last_index))
  end.

(** One row of weather data: [[date, min, max]]. *)
Record day : Type := mkday { date_str : string; min_f : pyval; max_f : pyval }.

(** The variables of the loop of [generate_summary]. *)
Record summary_state : Type := mkstate {
  min_temp : float;
  max_temp : float;
  min_day : string;
  max_day : string;
  total_min : float;
  total_max : float
}.

Definition summary_init : summary_state :=
  mkstate infinity neg_infinity "" "" (Py.float_of_Z 0) (Py.float_of_Z 0).

(** The body of the loop, for one day. *)
Definition summary_step (st : summary_state) (d : day) : result summary_state :=
  min_c <- convert_f_to_c (min_f d) ;;
  max_c <- convert_f_to_c (max_f d) ;;
  let total_min' := total_min st + min_c in
  let total_max' := total_max st + max_c in
  let '(min_temp', min_day') :=
    if min_c <? min_temp st then (min_c, date_str d)
    else (min_temp st, min_day st) in
  let '(max_temp', max_day') :=
    if max_temp st <? max_c then (max_c, date_str d)
    else (max_temp st, max_day st) in
  Ok (mkstate min_temp' max_temp' min_day' max_day' total_min' total_max').

Fixpoint summary_loop (st : summary_state) (days : list day) : result summary_state :=
  match days with
  | [] => Ok st
  | d :: rest => st' <- summary_step st d ;; summary_loop st' rest
  end.

Definition generate_summary (weather_data : list day) : result string :=
  match weather_data with
  | [] => Ok NO_DATA
  | _ =>
      st <- summary_loop summary_init weather_data ;;
      let avg_min := Py.round (total_min st / len_float weather_data) 1 in
      let avg_max := Py.round (total_max st / len_float weather_data) 1 in
      dt_min <- Py.fromisoformat (min_day st) ;;
      let min_day_formatted := Py.strftime dt_min "%A %d %B %Y" in
      dt_max <- Py.fromisoformat (max_day st) ;;
      let max_day_formatted := Py.strftime dt_max "%A %d %B %Y" in
      Ok (Py.str_int (Z.of_nat (List.length weather_data)) ++ " Day Overview" ++ nl
          ++ "  The lowest temperature will be "
          ++ format_temperature (PyFloat (min_temp st))
          ++ ", and will occur on " ++ min_day_formatted ++ "." ++ nl
          ++ "  The highest temperature will be "
          ++ format_temperature (PyFloat (max_temp st))
          ++ ", and will occur on " ++ max_day_formatted ++ "." ++ nl
          ++ "  The average low this week is "
          ++ format_temperature (PyFloat avg_min) ++ "." ++ nl
          ++ "  The average high this week is "
          ++ format_temperature (PyFloat avg_max) ++ "." ++ nl)%string
  end.

(** The body of the loop of [generate_daily_summary], for the day at
    position [i] of [n]. *)
Definition daily_block (n i : Z) (d : day) : result string :=
  dt <- Py.fromisoformat (date_str d) ;;
  let date := Py.strftime dt "%A %d %B %Y" in
  c_min <- convert_f_to_c (min_f d) ;;
  let min_c := Py.round c_min 1 in
  c_max <- convert_f_to_c (max_f d) ;;
  let max_c := Py.round c_max 1 in
  let line1 := ("---- " ++ date ++ " ----")%string in
  let line2 := ("  Minimum Temperature: " ++ format_temperature (PyFloat min_c))%string in
  let line3 := ("  Maximum Temperature: " ++ format_temperature (PyFloat max_c))%string in
  let summary_lines :=
    if (i =? n - 1)%Z then [line1; line2; (line3 ++ "-")%string]
    else [line1; line2; line3] in
  Ok (Py.join nl summary_lines).

Fixpoint daily_loop (n i : Z) (days : list day) (daily_summaries : list string)
  : result (list string) :=
  match days with
  | [] => Ok daily_summaries
  | d :: rest =>
      b <- daily_block n i d ;;
      daily_loop n (i + 1)%Z rest (daily_summaries ++ [b])
  end.

Definition generate_daily_summary (weather_data : list day) : result string :=
  match weather_data with
  | [] => Ok NO_DATA
  | _ =>
      let n := Z.of_nat (List.length weather_data) in
      daily_summaries <- daily_loop n 0%Z weather_data [] ;;
      Ok (Py.str_int n ++ " Day Overview" ++ nl ++ nl
          ++ Py.join (nl ++ nl) daily_summaries)%string
  end.

End Weather.

(** ** Order of floats *)

(** An integer that orders the floats as [<?] does: sign, then exponent, then
    mantissa; the infinities lie beyond every finite float. *)
Definition SFkey (x : spec_float) : Z :=
  match x with
  | S754_zero _ => 0
  | S754_infinity s => if s then - 2 ^ 64 else 2 ^ 64
  | S754_nan => 0
  | S754_finite s m e =>
      let k := (e + 1075) * 2 ^ 53 + Zpos m in
      if s then - k else k
  end.

Definition fkey (x : float) : Z := SFkey (Prim2SF x).

Definition not_nan (x : float) : bool := (x =? x)%float.

(** Neither an infinity nor nan. *)
Definition finite (x : float) : bool :=
  ((neg_infinity <? x) && (x <? infinity))%float.

(** ** Vocabulary of the statements *)

Import Weather.

(** The running extremum of a loop that replaces its best value, and the tag
    kept with it, when the value of an element is [better] than the best so
    far. *)
Definition scan {T : Type} (better : float -> float -> bool)
  (val : T -> float) (tag : T -> string) (b : float * string) (l : list T)
  : float * string :=
  fold_left (fun b d => if better (val d) (fst b) then (val d, tag d) else b) l b.

Definition below (x y : float) : bool := (x <? y)%float.
Definition above (x y : float) : bool := (y <? x)%float.

(** The float of a number, and whether a value is a number: [float] takes
    it, and not to nan. *)
Definition number (v : pyval) : float :=
  match Py.to_float v with
  | Ok x => x
  | Raise _ => nan
  end.

Definition is_number (v : pyval) : bool :=
  match Py.to_float v with
  | Ok x => not_nan x
  | Raise _ => false
  end.

(** The Celsius value of a Fahrenheit reading, and the date of a day as the
    reports print it. *)
Definition celsius (v : pyval) : float :=
  match convert_f_to_c v with
  | Ok c => c
  | Raise _ => nan
  end.

Definition human (iso_string : string) : string :=
  match convert_date iso_string with
  | Ok h => h
  | Raise _ => ""
  end.

(** A day whose date reads as a date and whose two readings are numbers. *)
Definition convertible (d : day) : bool :=
  match convert_date (date_str d), convert_f_to_c (min_f d), convert_f_to_c (max_f d) with
  | Ok _, Ok _, Ok _ => true
  | _, _, _ => false
  end.

(** A day record of the data model: convertible, with finite temperatures. *)
Definition valid_day (d : day) : bool :=
  convertible d && finite (celsius (min_f d)) && finite (celsius (max_f d)).

Definition valid_series (days : list day) : bool := forallb valid_day days.

(** The day records the loader builds from weather of this world: a date
    that reads as a date, and two integer readings between -1000 and 1000
    degrees Fahrenheit. *)
Definition plain_reading (v : pyval) : bool :=
  match v with
  | PyInt n => (-1000 <=? n) && (n <=? 1000)
  | _ => false
  end.

Definition date_reads (d : day) : bool :=
  match convert_date (date_str d) with
  | Ok _ => true
  | Raise _ => false
  end.

Definition plain_day (d : day) : bool :=
  date_reads d && plain_reading (min_f d) && plain_reading (max_f d).

(** The five lines of the overview. *)
Definition summary_text (n : nat) (lo : float) (lo_day : string) (hi : float)
  (hi_day : string) (avg_lo avg_hi : float) : string :=
  (Py.str_int (Z.of_nat n) ++ " Day Overview" ++ nl
   ++ "  The lowest temperature will be " ++ Py.repr_float lo ++ "°C"
   ++ ", and will occur on " ++ lo_day ++ "." ++ nl
   ++ "  The highest temperature will be " ++ Py.repr_float hi ++ "°C"
   ++ ", and will occur on " ++ hi_day ++ "." ++ nl
   ++ "  The average low this week is " ++ Py.repr_float avg_lo ++ "°C" ++ "." ++ nl
   ++ "  The average high this week is " ++ Py.repr_float avg_hi ++ "°C" ++ "." ++ nl)%string.

(** The three lines of one day of the daily summary. *)
Definition block_text (d : day) : string :=
  ("---- " ++ human (date_str d) ++ " ----" ++ nl
   ++ "  Minimum Temperature: "
   ++ Py.repr_float (Py.round (celsius (min_f d)) 1) ++ "°C" ++ nl
   ++ "  Maximum Temperature: "
   ++ Py.repr_float (Py.round (celsius (max_f d)) 1) ++ "°C")%string.

(** The ISO 8601 text of a calendar date, [YYYY-MM-DD]. *)
Definition iso_date (y m d : Z) : string :=
  (Py.zero_pad 4 y ++ "-" ++ Py.zero_pad 2 m ++ "-" ++ Py.zero_pad 2 d)%string.

(** A date in words: the day of the week, the day of the month, the month
    and the year. *)
Definition long_date (dt : Py.datetime) : string :=
  (Py.day_name (Py.weekday dt) ++ " " ++ Py.zero_pad 2 (Py.day dt) ++ " "
   ++ Py.month_name (Py.month dt) ++ " " ++ Py.str_int (Py.year dt))%string.

(** The integers from [lo] to [hi]. *)
Definition Zrange (lo hi : Z) : list Z :=
  map (fun k => lo + Z.of_nat k) (seq 0 (Z.to_nat (hi - lo + 1))).

(** The character of a decimal digit. *)
Definition digit_char (v : Z) : ascii := ascii_of_N (Z.to_N (v + 48)).

(** The Celsius value in exact arithmetic: the tenths of a degree nearest
    to [(f - 32) * 5 / 9], and the float nearest to a number of tenths. *)
Definition celsius_tenths (f : Z) : Z :=
  let a := 50 * (f - 32) in
  if 0 <=? a then Py.div_half_even a 9 else - Py.div_half_even (- a) 9.

Definition decimal1 (t : Z) : float :=
  SF2Prim (Py.SF_of_decimal (t <? 0) (Z.abs t) (-1)).

Definition exact_on (f : Z) : bool :=
  match convert_f_to_c (PyInt f) with
  | Ok c => PrimFloat.Leibniz.eqb c (decimal1 (celsius_tenths f))
  | Raise _ => false
  end.

(** Three days, the lowest and the highest reading both occurring twice. *)
Definition three_days : list day :=
  [mkday "2021-07-02T07:00:00+08:00" (PyInt 49) (PyInt 67);
   mkday "2021-07-03T07:00:00+08:00" (PyInt 57) (PyInt 68);
   mkday "2021-07-04T07:00:00+08:00" (PyInt 49) (PyInt 68)].

(** Two days whose average low depends on when the rounding is done. *)
Definition two_days : list day :=
  [mkday "2021-07-05" (PyInt 30) (PyInt 50);
   mkday "2021-07-06" (PyInt 31) (PyInt 60)].

(** The blocks of the daily summary, the last one with its hyphen. *)
Fixpoint hyphen_last (blocks : list string) : list string :=
  match blocks with
  | [] => []
  | [b] => [(b ++ "-")%string]
  | b :: rest => b :: hyphen_last rest
  end.

(** [min] and [max] are one loop, up to the comparison. *)
Definition pick (better : float -> float -> bool) (x : float) (xs : list float)
  : float :=
  fold_left (fun best y => if better y best then y else best) xs x.

(** [find_min] and [find_max], up to the choice of the extremum. *)
Definition find_last (choose : float -> list float -> float)
  (weather_data : list pyval) : result (option (float * Z)) :=
  numeric_data <- mapM Py.to_float weather_data ;;
  match numeric_data with
  | [] => Ok None
  | x :: xs =>
      let value := choose x xs in
      i <- Py.index value (rev numeric_data) ;;
      Ok (Some (value, Z.of_nat (List.length numeric_data) - 1 - i))
  end.

(** ** Reading the file: [int], the lines of a file, [csv.reader] *)

(** What [load_data_from_csv] can raise besides the exceptions of the
    conversions. *)
Inductive io_exn : Type :=
| StopIteration   (* [next] on a reader with no row *)
| IndexError      (* a row with too few fields *)
| CsvError        (* [csv.Error]: a field longer than the limit *)
| Conversion (e : exn).

Inductive io_result (A : Type) : Type :=
| Loaded (a : A)
| Failed (e : io_exn).

Arguments Loaded {A} a.
Arguments Failed {A} e.

Definition io_bind {A B : Type} (r : io_result A) (k : A -> io_result B)
  : io_result B :=
  match r with
  | Loaded a => k a
  | Failed e => Failed e
  end.

Notation "x <~ r ;; k" := (io_bind r (fun x => k))
  (at level 61, r at next level, right associativity).

Module PyIO.

(** [int(s)] for a text [s]: white space around, a sign, then decimal digits,
    single underscores allowed between digits; more than 4300 digits are
    refused (the limit of Python 3.11 and of the security releases of 3.7 to
    3.10; older interpreters have none).  [None] is the [ValueError].  As for
    [float], text outside ASCII is not a number here: the digits of other
    scripts, which [int] takes, are not modelled, and the statements on what
    [int] refuses are about ASCII text. *)
Definition int_of_string (s : string) : option Z :=
  let cs := Py.strip (list_ascii_of_string s) in
  let '(neg, body) :=
    match cs with
    | "+"%char :: r => (false, r)
    | "-"%char :: r => (true, r)
    | _ => (false, cs)
    end in
  match Py.digitpart body with
  | Some (ds, []) =>
      if (4300 <? Z.of_nat (List.length ds)) then None
      else Some (if neg then - Py.digits_value ds else Py.digits_value ds)
  | _ => None
  end.

Definition LF : ascii := "010"%char.
Definition CR : ascii := "013"%char.

(** The lines of a file opened with [newline='']: a line ends after a line
    feed, after a carriage return, or after the two in this order, and keeps
    its ending. *)
Fixpoint lines_from (cur : list ascii) (cs : list ascii) : list (list ascii) :=
  match cs with
  | [] => match cur with [] => [] | _ => [rev cur] end
  | c :: r =>
      if Ascii.eqb c LF then rev (c :: cur) :: lines_from [] r
      else if Ascii.eqb c CR then
        match r with
        | c' :: r' =>
            if Ascii.eqb c' LF then rev (c' :: c :: cur) :: lines_from [] r'
            else rev (c :: cur) :: lines_from [] r
        | [] => rev (c :: cur) :: lines_from [] r
        end
      else lines_from (c :: cur) r
  end.

Definition readlines (text : string) : list (list ascii) :=
  lines_from [] (list_ascii_of_string text).

(** The states of the reader of [csv], for the default dialect: fields
    separated by commas, quoted with double quotes, a quote in a quoted field
    written twice, not strict.  A NUL character is a character like another,
    as from Python 3.11 on; older interpreters raise [csv.Error] on it. *)
Inductive csv_state : Type :=
| START_RECORD | START_FIELD | IN_FIELD | IN_QUOTED_FIELD
| QUOTE_IN_QUOTED_FIELD | EAT_CRNL.

Record parser : Type := mkparser {
  state : csv_state;
  fields : list string;     (* the fields of the record so far *)
  field : list ascii;       (* the field being read, last character first *)
  field_len : Z             (* its number of characters *)
}.

Definition parse_reset : parser := mkparser START_RECORD [] [] 0.

Definition field_limit : Z := 131072.

Definition parse_save_field (p : parser) (s : csv_state) : parser :=
  mkparser s (fields p ++ [string_of_list_ascii (rev (field p))]) [] 0.

(** A byte that continues a character of several bytes. *)
Definition continuation (c : ascii) : bool :=
  (128 <=? Py.code c) && (Py.code c <? 192).

(** [None] is the [csv.Error] of a field longer than the limit. *)
Definition parse_add_char (p : parser) (s : csv_state) (c : ascii) : option parser :=
  if continuation c then
    Some (mkparser s (fields p) (c :: field p) (field_len p))
  else if field_limit <=? field_len p then None
  else Some (mkparser s (fields p) (c :: field p) (field_len p + 1)).

Definition QUOTE : ascii := "034"%char.
Definition COMMA : ascii := ","%char.

Definition is_newline (c : ascii) : bool := Ascii.eqb c LF || Ascii.eqb c CR.

(** One character of a line. *)
Definition parse_process_char (p : parser) (c : ascii) : option parser :=
  match state p with
  | START_RECORD | START_FIELD =>
      if is_newline c then
        match state p with
        | START_RECORD => Some (mkparser EAT_CRNL (fields p) (field p) (field_len p))
        | _ => Some (parse_save_field p EAT_CRNL)
        end
      else if Ascii.eqb c QUOTE then
        Some (mkparser IN_QUOTED_FIELD (fields p) (field p) (field_len p))
      else if Ascii.eqb c COMMA then Some (parse_save_field p START_FIELD)
      else parse_add_char p IN_FIELD c
  | IN_FIELD =>
      if is_newline c then Some (parse_save_field p EAT_CRNL)
      else if Ascii.eqb c COMMA then Some (parse_save_field p START_FIELD)
      else parse_add_char p IN_FIELD c
  | IN_QUOTED_FIELD =>
      if Ascii.eqb c QUOTE then
        Some (mkparser QUOTE_IN_QUOTED_FIELD (fields p) (field p) (field_len p))
      else parse_add_char p IN_QUOTED_FIELD c
  | QUOTE_IN_QUOTED_FIELD =>
      if Ascii.eqb c QUOTE then parse_add_char p IN_QUOTED_FIELD c
      else if Ascii.eqb c COMMA then Some (parse_save_field p START_FIELD)
      else if is_newline c then Some (parse_save_field p EAT_CRNL)
      else parse_add_char p IN_FIELD c
  | EAT_CRNL =>
      if is_newline c then Some p else None
  end.

(** The end of a line. *)
Definition parse_end_of_line (p : parser) : parser :=
  match state p with
  | START_RECORD | IN_QUOTED_FIELD => p
  | START_FIELD | IN_FIELD | QUOTE_IN_QUOTED_FIELD => parse_save_field p START_RECORD
  | EAT_CRNL => mkparser START_RECORD (fields p) (field p) (field_len p)
  end.

Fixpoint parse_line (p : parser) (line : list ascii) : option parser :=
  match line with
  | [] => Some (parse_end_of_line p)
  | c :: r =>
      match parse_process_char p c with
      | Some p' => parse_line p' r
      | None => None
      end
  end.

(** The rows the reader yields for the lines of a file, and whether it then
    raises [csv.Error].  A record is complete when the end of a line is met
    outside a quoted field; at the end of the file a record left open is
    closed. *)
Fixpoint rows_from (p : parser) (lines : list (list ascii))
  : list (list string) * bool :=
  match lines with
  | [] =>
      match state p with
      | IN_QUOTED_FIELD => ([fields (parse_save_field p START_RECORD)], false)
      | _ =>
          if 0 <? field_len p
          then ([fields (parse_save_field p START_RECORD)], false)
          else ([], false)
      end
  | line :: rest =>
      match parse_line p line with
      | None => ([], true)
      | Some p' =>
          match state p' with
          | START_RECORD =>
              let '(rows, err) := rows_from parse_reset rest in
              (fields p' :: rows, err)
          | _ => rows_from p' rest
          end
      end
  end.

(** [csv.reader(file)] on the text of the file. *)
Definition reader (text : string) : list (list string) * bool :=
  rows_from parse_reset (readlines text).

End PyIO.

(** ** weather.py: load_data_from_csv *)

Module Loader.

(** [row[i]] *)
Definition item (row : list string) (i : nat) : io_result string :=
  match nth_error row i with
  | Some x => Loaded x
  | None => Failed IndexError
  end.

(** [int(text)] *)
Definition to_int (text : string) : io_result Z :=
  match PyIO.int_of_string text with
  | Some n => Loaded n
  | None => Failed (Conversion ValueError)
  end.

(** The loop over the rows after the header: [data] is the list built so
    far. *)
Fixpoint load_rows (rows : list (list string)) (data : list day)
  : io_result (list day) :=
  match rows with
  | [] => Loaded data
  | row :: rest =>
      match row with
      | [] => load_rows rest data
      | _ =>
          date <~ item row 0 ;;
          t1 <~ item row 1 ;;
          min_temp <~ to_int t1 ;;
          t2 <~ item row 2 ;;
          max_temp <~ to_int t2 ;;
          load_rows rest (data ++ [mkday date (PyInt min_temp) (PyInt max_temp)])
      end
  end.

(** [load_data_from_csv], on the text of the file and on what the reader
    yields for it: the first row is dropped, [StopIteration] when there is
    none; an exception of the reader comes after the rows read before it. *)
Definition load_from_reader (yielded : list (list string) * bool)
  : io_result (list day) :=
  match yielded with
  | ([], err) => Failed (if err then CsvError else StopIteration)
  | (_ :: rows, err) =>
      data <~ load_rows rows [] ;;
      if err then Failed CsvError else Loaded data
  end.

Definition load_data_from_csv (text : string) : io_result (list day) :=
  load_from_reader (PyIO.reader text).

End Loader.

(** ** Vocabulary of the further properties *)

(** A day whose two readings convert, to finite temperatures; its date is
    not looked at. *)
Definition readings_convert (d : day) : bool :=
  match convert_f_to_c (min_f d), convert_f_to_c (max_f d) with
  | Ok a, Ok b => finite a && finite b
  | _, _ => false
  end.

(** What the conversion of the readings of a day raises: the minimum is
    converted first. *)
Definition reading_error (d : day) : option exn :=
  match convert_f_to_c (min_f d) with
  | Raise e => Some e
  | Ok _ =>
      match convert_f_to_c (max_f d) with
      | Raise e => Some e
      | Ok _ => None
      end
  end.

(** What the block of a day of the daily summary raises: the date is read
    before the readings are converted. *)
Definition day_error (d : day) : option exn :=
  match Py.fromisoformat (date_str d) with
  | Raise e => Some e
  | Ok _ => reading_error d
  end.

(** A number of tenths in decimal notation, with one digit after the
    point. *)
Definition tenths_text (t : Z) : string :=
  ((if (t <? 0)%Z then "-" else "") ++ Py.str_int (Z.abs t / 10)%Z ++ "."
   ++ Py.str_int (Z.abs t mod 10)%Z)%string.

(** Checks on one integer reading, run over the readings from -1000 to 1000:
    the temperature is printed as its tenths; rounding it again keeps it; the
    next reading is warmer; the mean of the one value, rounded, is the
    value. *)
Definition prints_tenths (f : Z) : bool :=
  String.eqb (format_temperature (PyFloat (celsius (PyInt f))))
             (tenths_text (celsius_tenths f) ++ "°C").

Definition round_keeps (f : Z) : bool :=
  PrimFloat.Leibniz.eqb (Py.round (celsius (PyInt f)) 1) (celsius (PyInt f)).

Definition next_warmer (f : Z) : bool :=
  (celsius (PyInt f) <? celsius (PyInt (f + 1)))%float.

Definition single_mean_keeps (f : Z) : bool :=
  PrimFloat.Leibniz.eqb
    (Py.round (Py.sum [celsius (PyInt f)] / Py.float_of_Z 1) 1)
    (celsius (PyInt f)).

(** Three days, the date of the second of which is no date. *)
Definition patchy_days : list day :=
  [mkday "2021-07-02" (PyInt 49) (PyInt 67);
   mkday "a day in between" (PyInt 57) (PyInt 68);
   mkday "2021-07-04" (PyInt 50) (PyInt 70)].

(** The day a row of the file holds, if it holds one: a date, two integers,
    and whatever follows. *)
Definition row_day (row : list string) : option day :=
  match row with
  | date :: t1 :: t2 :: _ =>
      match PyIO.int_of_string t1, PyIO.int_of_string t2 with
      | Some a, Some b => Some (mkday date (PyInt a) (PyInt b))
      | _, _ => None
      end
  | _ => None
  end.

(** The days of the rows that hold one, in the order of the rows. *)
Definition days_of_rows (rows : list (list string)) : list day :=
  flat_map (fun row => match row_day row with Some d => [d] | None => [] end) rows.

(** The row of a blank line. *)
Definition is_blank (row : list string) : bool :=
  match row with [] => true | _ => false end.

(** A character that stands for itself in a line of the file, on every
    interpreter: ASCII, not NUL, no quote, no end of line; in a field, no
    comma either. *)
Definition plain_char (c : ascii) : bool :=
  (0 <? Py.code c) && (Py.code c <? 128)
  && negb (Ascii.eqb c PyIO.QUOTE) && negb (PyIO.is_newline c).

Definition field_char (c : ascii) : bool :=
  plain_char c && negb (Ascii.eqb c PyIO.COMMA).

(** A header, and a field, of such characters, within the limit of the
    reader. *)
Definition header_line (s : string) : bool :=
  forallb plain_char (list_ascii_of_string s)
  && (Z.of_nat (String.length s) <=? PyIO.field_limit).

Definition plain_field (s : string) : bool :=
  forallb field_char (list_ascii_of_string s)
  && (Z.of_nat (String.length s) <=? PyIO.field_limit).

(** The ends of a line: line feed, carriage return and line feed, carriage
    return. *)
Definition lf : string := String PyIO.LF EmptyString.
Definition crlf : string := String PyIO.CR (String PyIO.LF EmptyString).
Definition cr : string := String PyIO.CR EmptyString.

Definition line_end (eol : string) : bool :=
  String.eqb eol lf || String.eqb eol crlf || String.eqb eol cr.

(** A day as a line of the file, and a file of days under a header. *)
Definition csv_line (d : day) : string :=
  (date_str d ++ "," ++ Py.str (min_f d) ++ "," ++ Py.str (max_f d))%string.

Definition body_text (eol : string) (days : list day) : string :=
  fold_right (fun d rest => (csv_line d ++ eol ++ rest)%string) "" days.

Definition file_text (header eol : string) (days : list day) : string :=
  (header ++ eol ++ body_text eol days)%string.

(** An integer [int] reads back from its decimal notation, and a day that
    can be stored in a file. *)
Definition int_reading (v : pyval) : bool :=
  match v with
  | PyInt n => Z.abs n <? 10 ^ 4300
  | _ => false
  end.

Definition storable (d : day) : bool :=
  plain_field (date_str d) && int_reading (min_f d) && int_reading (max_f d).

(** The characters of a decimal number, and the step of [digits_value]. *)
Definition uint_chars (d : Decimal.uint) : list ascii :=
  list_ascii_of_string (NilEmpty.string_of_uint d).

Definition read_step (acc : Z) (c : ascii) : Z := 10 * acc + Py.digit_val c.

(** The states of the reader outside quotes and before the end of a line. *)
Definition unquoted (s : PyIO.csv_state) : bool :=
  match s with
  | PyIO.START_RECORD | PyIO.START_FIELD | PyIO.IN_FIELD => true
  | _ => false
  end.

(** The row of a day in the file, and the characters of a text. *)
Definition row_of_day (d : day) : list string :=
  [date_str d; Py.str (min_f d); Py.str (max_f d)].

Definition chars (s : string) : list ascii := list_ascii_of_string s.

(** Text in ASCII of at most 4300 characters: what [int] makes of it is the
    same on every interpreter, and is modelled exactly. *)
Definition ascii_text (s : string) : bool :=
  forallb (fun c => Py.code c <? 128) (chars s)
  && (Z.of_nat (String.length s) <=? 4300).

Definition ascii_rows (rows : list (list string)) : bool :=
  forallb (forallb ascii_text) rows.

(** What a row that is not blank and holds no day raises: the fields are
    taken, and the numbers read, from the left. *)
Definition row_error (row : list string) : io_exn :=
  match row with
  | _ :: t1 :: r =>
      match PyIO.int_of_string t1, r with
      | None, _ => Conversion ValueError
      | Some _, [] => IndexError
      | Some _, _ :: _ => Conversion ValueError
      end
  | _ => IndexError
  end.

(** A file of two lines under a header and the days the loader reads in it;
    three rows, one of them blank and one with a fourth field. *)
Definition small_file : string :=
  ("date,min,max" ++ crlf
   ++ "2021-07-02T07:00:00+08:00,49,67" ++ crlf
   ++ "2021-07-03T07:00:00+08:00,57,68" ++ crlf)%string.

Definition small_days : list day :=
  [mkday "2021-07-02T07:00:00+08:00" (PyInt 49) (PyInt 67);
   mkday "2021-07-03T07:00:00+08:00" (PyInt 57) (PyInt 68)].

Definition small_rows : list (list string) :=
  [["2021-07-02"; "49"; "67"]; []; ["2021-07-03"; " 57"; "+6_8"; "sunny"]].

(** The days of the Gregorian calendar from the year 1 to the year 9999,
    written out: thirty days has September, April, June and November,
    February has twenty-eight, and twenty-nine in the years that 4 divides
    and 100 does not, or that 400 divides. *)
Definition calendar_day (y m d : Z) : Prop :=
  1 <= y <= 9999 /\ 1 <= m <= 12 /\ 1 <= d <= 31
  /\ (m = 4 \/ m = 6 \/ m = 9 \/ m = 11 -> d <= 30)
  /\ (m = 2 -> d <= 29)
  /\ (m = 2 -> d = 29 -> y mod 4 = 0 /\ (y mod 100 <> 0 \/ y mod 400 = 0)).

(** The names of the days of the week, from Monday, and of the months. *)
Definition day_names : list string :=
  ["Monday"; "Tuesday"; "Wednesday"; "Thursday"; "Friday"; "Saturday"; "Sunday"].

Definition month_names : list string :=
  ["January"; "February"; "March"; "April"; "May"; "June"; "July"; "August";
   "September"; "October"; "November"; "December"].

(** A number below 100 on two digits. *)
Definition two_digits (v : Z) : string :=
  String (digit_char (v / 10)) (String (digit_char (v mod 10)) EmptyString).

Definition four_digit_year (y : Z) : bool :=
  Nat.eqb (String.length (Py.str_int y)) 4.


Definition four_digits (v : Z) : string :=
  String (digit_char (v / 1000))
    (String (digit_char (v / 100 mod 10))
       (String (digit_char (v / 10 mod 10))
          (String (digit_char (v mod 10)) EmptyString))).

(** A date in words, from the tables above: day [w] of the week, Monday
    being 0, day [d] of month [m] of year [y]. *)
Definition date_in_words (w y m d : Z) : string :=
  (nth (Z.to_nat w) day_names "" ++ " " ++ two_digits d ++ " "
   ++ nth (Z.to_nat (m - 1)) month_names "" ++ " " ++ Py.str_int y)%string.

(** A time of day with an offset from UTC, as it follows the day in the
    dates of the data: [Thh:mm:ss+hh:mm]. *)
Definition time_stamp (hh mi ss : Z) (sign : ascii) (oh om : Z) : string :=
  ("T" ++ two_digits hh ++ ":" ++ two_digits mi ++ ":" ++ two_digits ss
   ++ String sign (two_digits oh ++ ":" ++ two_digits om))%string.

(** One day of the year 999. *)
Definition year_999 : list day := [mkday "0999-12-31" (PyInt 32) (PyInt 68)].

(** ** Lemmas on the order of floats *)

Lemma digits2_pos_bound (m : positive) : Zpos m < 2 ^ Zpos (digits2_pos m).
Proof.
  induction m as [m IH | m IH | ]; simpl digits2_pos.
  - rewrite Pos2Z.inj_succ, Z.pow_succ_r by lia. lia.
  - rewrite Pos2Z.inj_succ, Z.pow_succ_r by lia. lia.
  - reflexivity.
Qed.

Lemma bounded_key (m : positive) (e : Z) :
  bounded prec emax m e = true ->
  0 < (e + 1075) * 2 ^ 53 + Zpos m < 2 ^ 64
  /\ Zpos m < 2 ^ 53 /\ -1074 <= e.
Proof.
  unfold bounded, canonical_mantissa, fexp, emin, prec, emax.
  intros H. apply andb_true_iff in H. destruct H as [Hc He].
  apply Z.eqb_eq in Hc. apply Z.leb_le in He.
  assert (Hd : Zpos (digits2_pos m) <= 53) by lia.
  assert (Hm : Zpos m < 2 ^ 53).
  { eapply Z.lt_le_trans; [apply digits2_pos_bound|].
    apply Z.pow_le_mono_r; lia. }
  change (2 ^ 53) with 9007199254740992 in *.
  change (2 ^ 64) with 18446744073709551616.
  lia.
Qed.

Lemma SFcompare_key (x y : spec_float) :
  SpecFloat.valid_binary prec emax x = true ->
  SpecFloat.valid_binary prec emax y = true ->
  x <> S754_nan -> y <> S754_nan ->
  SFcompare x y = Some (SFkey x ?= SFkey y).
Proof.
  intros Vx Vy Nx Ny.
  destruct x as [sx | sx | | sx mx ex]; try congruence;
  destruct y as [sy | sy | | sy my ey]; try congruence;
  simpl in Vx, Vy;
  try (apply bounded_key in Vx; destruct Vx as (Kx & Mx & Ex));
  try (apply bounded_key in Vy; destruct Vy as (Ky & My & Ey));
  unfold SFcompare, SFkey; f_equal;
  change (2 ^ 53) with 9007199254740992 in *;
  change (2 ^ 64) with 18446744073709551616 in *;
  destruct sx, sy; try reflexivity;
  try (symmetry; apply Z.compare_lt_iff; lia);
  try (symmetry; apply Z.compare_gt_iff; lia).
  - destruct (Z.compare_spec ey ex) as [E | E | E]; symmetry.
    + subst. rewrite Z.compare_refl.
      change (Pos.compare_cont Eq mx my) with (Zpos mx ?= Zpos my).
      rewrite <- (Z.compare_antisym (Zpos mx) (Zpos my)).
      destruct (Z.compare_spec (Zpos my) (Zpos mx)) as [F | F | F].
      * apply Z.compare_eq_iff; lia.
      * apply Z.compare_lt_iff; lia.
      * apply Z.compare_gt_iff; lia.
    + rewrite (proj2 (Z.compare_gt_iff ex ey)) by lia. apply Z.compare_lt_iff; lia.
    + rewrite (proj2 (Z.compare_lt_iff ex ey)) by lia. apply Z.compare_gt_iff; lia.
  - destruct (Z.compare_spec ex ey) as [E | E | E]; symmetry.
    + subst.
      change (Pos.compare_cont Eq mx my) with (Zpos mx ?= Zpos my).
      destruct (Z.compare_spec (Zpos mx) (Zpos my)) as [F | F | F].
      * apply Z.compare_eq_iff; lia.
      * apply Z.compare_lt_iff; lia.
      * apply Z.compare_gt_iff; lia.
    + apply Z.compare_lt_iff; lia.
    + apply Z.compare_gt_iff; lia.
Qed.

Lemma not_nan_spec (x : float) :
  not_nan x = true <-> Prim2SF x <> S754_nan.
Proof.
  unfold not_nan. rewrite eqb_spec. unfold SFeqb.
  split.
  - intros H E. rewrite E in H. discriminate.
  - intros H. rewrite SFcompare_key by (auto using Prim2SF_valid).
    now rewrite Z.compare_refl.
Qed.

Lemma ltb_key (x y : float) :
  not_nan x = true -> not_nan y = true ->
  (x <? y)%float = (fkey x <? fkey y).
Proof.
  intros Hx Hy. apply not_nan_spec in Hx. apply not_nan_spec in Hy.
  rewrite ltb_spec. unfold SFltb.
  rewrite SFcompare_key by (auto using Prim2SF_valid).
  reflexivity.
Qed.

Lemma eqb_key (x y : float) :
  not_nan x = true -> not_nan y = true ->
  (x =? y)%float = (fkey x =? fkey y).
Proof.
  intros Hx Hy. apply not_nan_spec in Hx. apply not_nan_spec in Hy.
  rewrite eqb_spec. unfold SFeqb, fkey.
  rewrite SFcompare_key by (auto using Prim2SF_valid).
  destruct (Z.compare_spec (SFkey (Prim2SF x)) (SFkey (Prim2SF y)));
    symmetry; [apply Z.eqb_eq | apply Z.eqb_neq | apply Z.eqb_neq]; lia.
Qed.

Lemma ltb_nan_l (x y : float) : not_nan x = false -> (x <? y)%float = false.
Proof.
  unfold not_nan. rewrite eqb_spec, ltb_spec. unfold SFeqb, SFltb.
  destruct (Prim2SF x) as [s | s | | s m e]; simpl; try reflexivity.
  - discriminate.
  - destruct s; discriminate.
  - destruct s; rewrite Z.compare_refl, Pos.compare_cont_refl; discriminate.
Qed.

Lemma finite_key (x : float) :
  finite x = true <-> not_nan x = true /\ - 2 ^ 64 < fkey x < 2 ^ 64.
Proof.
  unfold finite.
  destruct (not_nan x) eqn:N.
  - rewrite !ltb_key by (try assumption; reflexivity).
    change (fkey neg_infinity) with (- 2 ^ 64).
    change (fkey infinity) with (2 ^ 64).
    rewrite andb_true_iff, !Z.ltb_lt. intuition lia.
  - rewrite (ltb_nan_l x infinity N), andb_false_r.
    split; [discriminate | intros [H _]; discriminate].
Qed.

Lemma finite_not_nan (x : float) : finite x = true -> not_nan x = true.
Proof. intros H. now apply finite_key in H. Qed.

Lemma below_key (x y : float) :
  not_nan x = true -> not_nan y = true -> below x y = (fkey x <? fkey y).
Proof. apply ltb_key. Qed.

Lemma above_key (x y : float) :
  not_nan x = true -> not_nan y = true -> above x y = (- fkey x <? - fkey y).
Proof.
  intros Hx Hy. unfold above. rewrite ltb_key by assumption.
  destruct (Z.ltb_spec (fkey y) (fkey x)); symmetry;
    [apply Z.ltb_lt | apply Z.ltb_ge]; lia.
Qed.

(** ** The first extremum of a scan *)

Section FirstExtreme.

Variables (T : Type) (better : float -> float -> bool) (key : float -> Z).
Variables (val : T -> float) (tag : T -> string).

Hypothesis better_key : forall x y,
  not_nan x = true -> not_nan y = true -> better x y = (key x <? key y).

Lemma better_true (x y : float) :
  not_nan x = true -> not_nan y = true ->
  better x y = true <-> key x < key y.
Proof. intros Hx Hy. rewrite better_key by assumption. apply Z.ltb_lt. Qed.

Lemma better_false (x y : float) :
  not_nan x = true -> not_nan y = true ->
  better x y = false <-> key y <= key x.
Proof. intros Hx Hy. rewrite better_key by assumption. apply Z.ltb_ge. Qed.

(** Either nothing in the list beats the start, or the scan ends on the
    first element that nothing in the list beats. *)
Lemma scan_first (l : list T) :
  forall b : float * string,
  not_nan (fst b) = true ->
  (forall d, In d l -> not_nan (val d) = true) ->
  (scan better val tag b l = b
   /\ forall d, In d l -> better (val d) (fst b) = false)
  \/ (exists before d after,
        l = before ++ d :: after
        /\ scan better val tag b l = (val d, tag d)
        /\ better (val d) (fst b) = true
        /\ (forall x, In x before -> better (val d) (val x) = true)
        /\ (forall x, In x after -> better (val x) (val d) = false)).
Proof.
  induction l as [| a l IH]; intros b Hb Hl.
  - left. split; [reflexivity | intros d []].
  - assert (Ha : not_nan (val a) = true) by (apply Hl; now left).
    assert (Hl' : forall d, In d l -> not_nan (val d) = true)
      by (intros d Hd; apply Hl; now right).
    unfold scan. simpl fold_left.
    destruct (better (val a) (fst b)) eqn:E.
    + right.
      destruct (IH (val a, tag a) Ha Hl')
        as [[Hs Hn] | (before & d & after & Hd & Hs & Hbt & Hbef & Haft)].
      * exists [], a, l.
        split; [reflexivity |]. split; [exact Hs |]. split; [exact E |].
        split; [intros x [] | exact Hn].
      * assert (Nd : not_nan (val d) = true)
          by (apply Hl'; rewrite Hd; apply in_elt).
        exists (a :: before), d, after. simpl fst in Hbt.
        split; [now rewrite Hd |]. split; [exact Hs |].
        split; [| split; [| exact Haft]].
        -- apply better_true in E, Hbt; auto. apply better_true; auto. lia.
        -- intros x [<- | Hx]; auto.
    + destruct (IH b Hb Hl')
        as [[Hs Hn] | (before & d & after & Hd & Hs & Hbt & Hbef & Haft)].
      * left. split; [exact Hs |]. intros d [<- | Hd]; auto.
      * assert (Nd : not_nan (val d) = true)
          by (apply Hl'; rewrite Hd; apply in_elt).
        right. exists (a :: before), d, after.
        split; [now rewrite Hd |]. split; [exact Hs |].
        split; [exact Hbt |]. split; [| exact Haft].
        intros x [<- | Hx]; auto.
        apply better_false in E; auto. apply better_true in Hbt; auto.
        apply better_true; auto. lia.
Qed.

End FirstExtreme.

(** ** Lemmas on lists, texts and results *)

Lemma string_app_assoc (a b c : string) :
  ((a ++ b) ++ c = a ++ (b ++ c))%string.
Proof. induction a as [| x a IH]; simpl; [reflexivity | now rewrite IH]. Qed.

Lemma fold_left_map_add {A : Type} (f : A -> float) (l : list A) :
  forall acc,
  fold_left (fun a d => (a + f d)%float) l acc
  = fold_left (fun a y => (a + y)%float) (map f l) acc.
Proof. induction l as [| x l IH]; intros acc; simpl; [reflexivity | apply IH]. Qed.

Lemma mapM_ok {A B : Type} (f : A -> result B) (g : A -> B) (l : list A) :
  (forall x, In x l -> f x = Ok (g x)) -> mapM f l = Ok (map g l).
Proof.
  induction l as [| x l IH]; intros H; simpl; [reflexivity |].
  rewrite (H x) by now left. simpl.
  rewrite IH by (intros y Hy; apply H; now right). reflexivity.
Qed.

(** The first element that raises decides the exception of a comprehension. *)
Lemma mapM_raise {A B : Type} (f : A -> result B) (pre : list A) (x : A)
  (post : list A) (ys : list B) (e : exn) :
  mapM f pre = Ok ys -> f x = Raise e -> mapM f (pre ++ x :: post) = Raise e.
Proof.
  revert ys. induction pre as [| p pre IH]; intros ys Hp Hx; simpl.
  - now rewrite Hx.
  - simpl in Hp. destruct (f p) as [y | e']; simpl in *; [| discriminate].
    destruct (mapM f pre) as [ys' | e']; simpl in *; [| discriminate].
    now rewrite (IH ys' eq_refl Hx).
Qed.

(** ** The loop of generate_summary *)

Lemma convertible_inv (d : day) :
  convertible d = true ->
  convert_date (date_str d) = Ok (human (date_str d))
  /\ convert_f_to_c (min_f d) = Ok (celsius (min_f d))
  /\ convert_f_to_c (max_f d) = Ok (celsius (max_f d)).
Proof.
  unfold convertible, human, celsius.
  destruct (convert_date (date_str d)); [| discriminate].
  destruct (convert_f_to_c (min_f d)); [| discriminate].
  destruct (convert_f_to_c (max_f d)); [| discriminate].
  auto.
Qed.

Lemma valid_day_inv (d : day) :
  valid_day d = true ->
  convertible d = true
  /\ finite (celsius (min_f d)) = true /\ finite (celsius (max_f d)) = true.
Proof.
  unfold valid_day. rewrite !andb_true_iff. tauto.
Qed.

(** The loop is three scans side by side: the lowest reading with its day,
    the highest with its day, and the two running totals. *)
Lemma summary_loop_scan (days : list day) :
  forall st,
  (forall d, In d days -> convertible d = true) ->
  summary_loop st days
  = Ok (mkstate
          (fst (scan below (fun d => celsius (min_f d)) date_str (min_temp st, min_day st) days))
          (fst (scan above (fun d => celsius (max_f d)) date_str (max_temp st, max_day st) days))
          (snd (scan below (fun d => celsius (min_f d)) date_str (min_temp st, min_day st) days))
          (snd (scan above (fun d => celsius (max_f d)) date_str (max_temp st, max_day st) days))
          (fold_left (fun a d => (a + celsius (min_f d))%float) days (total_min st))
          (fold_left (fun a d => (a + celsius (max_f d))%float) days (total_max st))).
Proof.
  induction days as [| d days IH]; intros st H.
  - destruct st; reflexivity.
  - destruct (convertible_inv d) as (_ & Hmin & Hmax); [apply H; now left |].
    simpl summary_loop. unfold summary_step. rewrite Hmin, Hmax. simpl bind.
    unfold scan. simpl fold_left. unfold below at 2 4, above at 2 4. simpl fst.
    destruct (celsius (min_f d) <? min_temp st)%float;
    destruct (max_temp st <? celsius (max_f d))%float;
    simpl bind; rewrite IH by (intros x Hx; apply H; now right); reflexivity.
Qed.

Lemma finite_below_infinity (x : float) :
  finite x = true -> below x infinity = true.
Proof. unfold finite, below. intros H. now apply andb_true_iff in H. Qed.

Lemma finite_above_neg_infinity (x : float) :
  finite x = true -> above x neg_infinity = true.
Proof. unfold finite, above. intros H. now apply andb_true_iff in H. Qed.

Lemma fromisoformat_human (d : day) :
  convertible d = true ->
  exists dt, Py.fromisoformat (date_str d) = Ok dt
             /\ Py.strftime dt "%A %d %B %Y" = human (date_str d).
Proof.
  intros H. destruct (convertible_inv d H) as (Hd & _).
  unfold convert_date in Hd.
  destruct (Py.fromisoformat (date_str d)) as [dt | e]; cbn [bind] in Hd;
    [| discriminate].
  exists dt. split; [reflexivity | now injection Hd].
Qed.

(** What generate_summary returns on a series of valid days: the day of the
    lowest reading is the first that no day undercuts, the day of the highest
    the first that no day exceeds, the averages are the rounded quotients of
    the totals by the number of days. *)
Lemma generate_summary_spec (days : list day) :
  days <> [] -> valid_series days = true ->
  exists before d after before' d' after',
    days = before ++ d :: after
    /\ (forall x, In x before ->
          (celsius (min_f d) <? celsius (min_f x))%float = true)
    /\ (forall x, In x after ->
          (celsius (min_f x) <? celsius (min_f d))%float = false)
    /\ days = before' ++ d' :: after'
    /\ (forall x, In x before' ->
          (celsius (max_f x) <? celsius (max_f d'))%float = true)
    /\ (forall x, In x after' ->
          (celsius (max_f d') <? celsius (max_f x))%float = false)
    /\ summary_loop summary_init days
       = Ok (mkstate (celsius (min_f d)) (celsius (max_f d'))
                     (date_str d) (date_str d')
                     (Py.sum (map (fun x => celsius (min_f x)) days))
                     (Py.sum (map (fun x => celsius (max_f x)) days)))
    /\ generate_summary days
       = Ok (summary_text (List.length days)
               (celsius (min_f d)) (human (date_str d))
               (celsius (max_f d')) (human (date_str d'))
               (Py.round (Py.sum (map (fun x => celsius (min_f x)) days)
                          / len_float days) 1)
               (Py.round (Py.sum (map (fun x => celsius (max_f x)) days)
                          / len_float days) 1)).
Proof.
  intros Hne Hv. unfold generate_summary.
  destruct days as [| d0 rest]; [congruence |]. cbv iota.
  remember (d0 :: rest) as days eqn:Ed.
  assert (H0 : In d0 days) by (rewrite Ed; now left).
  unfold valid_series in Hv. rewrite forallb_forall in Hv.
  assert (Hc : forall x, In x days -> convertible x = true)
    by (intros x Hx; apply (valid_day_inv x (Hv x Hx))).
  assert (Hlo : forall x, In x days -> finite (celsius (min_f x)) = true)
    by (intros x Hx; apply (valid_day_inv x (Hv x Hx))).
  assert (Hhi : forall x, In x days -> finite (celsius (max_f x)) = true)
    by (intros x Hx; apply (valid_day_inv x (Hv x Hx))).
  destruct (scan_first day below fkey (fun x => celsius (min_f x)) date_str
              below_key days (infinity, ""))
    as [[_ Hn] | (before & d & after & Hd & Hs & _ & Hbef & Haft)];
    [reflexivity | intros x Hx; apply finite_not_nan; auto | |].
  { specialize (Hn d0 H0). simpl fst in Hn.
    rewrite finite_below_infinity in Hn by auto. discriminate. }
  destruct (scan_first day above (fun x => - fkey x) (fun x => celsius (max_f x))
              date_str above_key days (neg_infinity, ""))
    as [[_ Hn] | (before' & d' & after' & Hd' & Hs' & _ & Hbef' & Haft')];
    [reflexivity | intros x Hx; apply finite_not_nan; auto | |].
  { specialize (Hn d0 H0). simpl fst in Hn.
    rewrite finite_above_neg_infinity in Hn by auto. discriminate. }
  assert (Hloop : summary_loop summary_init days
       = Ok (mkstate (celsius (min_f d)) (celsius (max_f d'))
                     (date_str d) (date_str d')
                     (Py.sum (map (fun x => celsius (min_f x)) days))
                     (Py.sum (map (fun x => celsius (max_f x)) days)))).
  { rewrite summary_loop_scan by exact Hc.
    unfold summary_init. cbn [min_temp max_temp min_day max_day total_min total_max].
    rewrite Hs, Hs'. cbn [fst snd].
    rewrite (fold_left_map_add (fun x => celsius (min_f x))).
    rewrite (fold_left_map_add (fun x => celsius (max_f x))).
    reflexivity. }
  exists before, d, after, before', d', after'.
  split; [exact Hd |]. split; [exact Hbef |]. split; [exact Haft |].
  split; [exact Hd' |]. split; [exact Hbef' |]. split; [exact Haft' |].
  split; [exact Hloop |].
  rewrite Hloop. cbn [bind min_temp max_temp min_day max_day total_min total_max].
  destruct (fromisoformat_human d) as (dt & Hdt & Hh);
    [apply Hc; rewrite Hd; apply in_elt |].
  destruct (fromisoformat_human d') as (dt' & Hdt' & Hh');
    [apply Hc; rewrite Hd'; apply in_elt |].
  rewrite Hdt. cbn [bind]. rewrite Hdt'. cbn [bind].
  rewrite <- Hh, <- Hh'. unfold summary_text, format_temperature, Py.str.
  rewrite !string_app_assoc. reflexivity.
Qed.

(** ** The last occurrence of the extremum *)

Lemma find_min_find_last (l : list pyval) :
  find_min l = find_last (pick below) l.
Proof. reflexivity. Qed.

Lemma find_max_find_last (l : list pyval) :
  find_max l = find_last (pick above) l.
Proof. reflexivity. Qed.

Lemma is_number_inv (v : pyval) :
  is_number v = true ->
  Py.to_float v = Ok (number v) /\ not_nan (number v) = true.
Proof.
  unfold is_number, number. destruct (Py.to_float v); [auto | discriminate].
Qed.

(** [index] finds the first element equal to the value, when there is one. *)
Lemma index_first (v : float) (l : list float) :
  (exists y, In y l /\ (y =? v)%float = true) ->
  exists pre y post,
    l = pre ++ y :: post
    /\ (y =? v)%float = true
    /\ (forall z, In z pre -> (z =? v)%float = false)
    /\ Py.index v l = Ok (Z.of_nat (List.length pre)).
Proof.
  induction l as [| a l IH]; intros (y & Hy & E).
  - destruct Hy.
  - simpl Py.index. destruct (a =? v)%float eqn:Ea.
    + exists [], a, l. repeat split; auto. intros z [].
    + destruct Hy as [-> | Hy]; [congruence |].
      destruct IH as (pre & y' & post & Hl & Ey & Hpre & Hi); [eauto |].
      exists (a :: pre), y', post. rewrite Hi. cbn [bind List.length].
      split; [now rewrite Hl |]. split; [exact Ey |].
      split; [intros z [<- | Hz]; auto |].
      f_equal. lia.
Qed.

Section LastExtreme.

Variables (better : float -> float -> bool) (key : float -> Z).

Hypothesis better_key : forall x y,
  not_nan x = true -> not_nan y = true -> better x y = (key x <? key y).

Hypothesis key_fkey : forall x y, key x = key y <-> fkey x = fkey y.

Lemma pick_scan (xs : list float) :
  forall x t,
  pick better x xs = fst (scan better (fun y => y) (fun _ => t) (x, t) xs).
Proof.
  induction xs as [| a xs IH]; intros x t; [reflexivity |].
  unfold pick, scan. simpl fold_left. cbn [fst].
  destruct (better a x); apply IH.
Qed.

(** The value [pick] returns is an element that no element beats. *)
Lemma pick_extreme (x : float) (xs : list float) :
  (forall y, In y (x :: xs) -> not_nan y = true) ->
  In (pick better x xs) (x :: xs)
  /\ forall y, In y (x :: xs) -> better y (pick better x xs) = false.
Proof.
  intros Hn.
  assert (Nx : not_nan x = true) by (apply Hn; now left).
  assert (Hxs : forall y, In y xs -> not_nan y = true)
    by (intros y Hy; apply Hn; now right).
  rewrite (pick_scan xs x "").
  destruct (scan_first float better key (fun y => y) (fun _ => "") better_key
              xs (x, "") Nx Hxs)
    as [[Hs Hno] | (before & d & after & Hd & Hs & Hbt & Hbef & Haft)];
    rewrite Hs; cbn [fst] in *.
  - split; [now left |]. intros y [<- | Hy]; auto.
    apply (better_false better key better_key); auto. lia.
  - assert (Nd : not_nan d = true) by (apply Hxs; rewrite Hd; apply in_elt).
    split; [right; rewrite Hd; apply in_elt |].
    intros y Hy. assert (Ny : not_nan y = true) by auto.
    apply (better_false better key better_key); auto.
    apply (better_true better key better_key) in Hbt; auto.
    destruct Hy as [<- | Hy]; [lia |].
    rewrite Hd in Hy. apply in_app_or in Hy. destruct Hy as [Hy | [<- | Hy]].
    + apply Hbef in Hy. apply (better_true better key better_key) in Hy; auto. lia.
    + lia.
    + apply Haft in Hy. apply (better_false better key better_key) in Hy; auto.
Qed.

(** On numbers, [find_last] returns the extremum and the position of its
    last occurrence. *)
Lemma find_last_spec (l : list pyval) :
  l <> [] -> forallb is_number l = true ->
  exists x xs before y after,
    map number l = x :: xs
    /\ find_last (pick better) l
       = Ok (Some (pick better x xs, Z.of_nat (List.length before)))
    /\ x :: xs = before ++ y :: after
    /\ (y =? pick better x xs)%float = true
    /\ In (pick better x xs) (x :: xs)
    /\ (forall z, In z (x :: xs) -> better z (pick better x xs) = false)
    /\ (forall z, In z after -> better (pick better x xs) z = true).
Proof.
  intros Hne Hnum. rewrite forallb_forall in Hnum.
  assert (Hm : mapM Py.to_float l = Ok (map number l))
    by (apply mapM_ok; intros v Hv; apply (is_number_inv v (Hnum v Hv))).
  assert (Hn : forall y, In y (map number l) -> not_nan y = true).
  { intros y Hy. apply in_map_iff in Hy. destruct Hy as (v & <- & Hv).
    apply (is_number_inv v (Hnum v Hv)). }
  unfold find_last. rewrite Hm. cbn [bind].
  destruct (map number l) as [| x xs] eqn:El.
  { destruct l; [congruence | discriminate]. }
  destruct (pick_extreme x xs Hn) as [Hin Hbest].
  cbv zeta.
  remember (pick better x xs) as value eqn:Ev.
  assert (Nv : not_nan value = true) by auto.
  destruct (index_first value (rev (x :: xs))) as (pre & y & post & Hr & Ey & Hpre & Hi).
  { exists value. split; [now apply in_rev in Hin |].
    rewrite eqb_key by assumption. apply Z.eqb_refl. }
  rewrite Hi. cbn [bind].
  assert (Hl : x :: xs = rev post ++ y :: rev pre).
  { rewrite <- (rev_involutive (x :: xs)), Hr, rev_app_distr. simpl.
    now rewrite <- app_assoc. }
  subst value.
  exists x, xs, (rev post), y, (rev pre).
  split; [reflexivity |].
  split.
  { do 3 f_equal. rewrite Hl, length_app, length_rev. cbn [List.length].
    rewrite length_rev. lia. }
  split; [exact Hl |]. split; [exact Ey |]. split; [exact Hin |].
  split; [exact Hbest |].
  intros z Hz. apply in_rev in Hz.
  assert (Hz' : In z (x :: xs)).
  { rewrite Hl. apply in_or_app. right. right. now apply in_rev in Hz. }
  assert (Nz : not_nan z = true) by auto.
  specialize (Hpre z Hz). rewrite eqb_key in Hpre by assumption.
  apply Z.eqb_neq in Hpre.
  specialize (Hbest z Hz').
  apply (better_false better key better_key) in Hbest; auto.
  apply (better_true better key better_key); auto.
  assert (key z <> key (pick better x xs))
    by (intros E; apply key_fkey in E; auto).
  lia.
Qed.

End LastExtreme.

(** ** The loop of generate_daily_summary *)

Lemma daily_block_ok (n i : Z) (d : day) :
  convertible d = true ->
  daily_block n i d
  = Ok (if i =? n - 1 then (block_text d ++ "-")%string else block_text d).
Proof.
  intros H. destruct (fromisoformat_human d H) as (dt & Hdt & Hh).
  destruct (convertible_inv d H) as (_ & Hmin & Hmax).
  unfold daily_block. rewrite Hdt, Hmin, Hmax. cbn [bind].
  unfold block_text, format_temperature, Py.str. rewrite <- Hh.
  destruct (i =? n - 1); cbn [Py.join]; rewrite !string_app_assoc; reflexivity.
Qed.

Lemma hyphen_last_snoc (blocks : list string) (b : string) :
  hyphen_last (blocks ++ [b]) = blocks ++ [(b ++ "-")%string].
Proof.
  induction blocks as [| a blocks IH]; [reflexivity |].
  simpl app. cbn [hyphen_last]. rewrite IH.
  destruct (blocks ++ [b]) eqn:E; [| reflexivity].
  destruct blocks; discriminate.
Qed.

(** From position [i] on, the loop appends the block of each day, and the
    hyphen to the block of the day at position [n - 1]. *)
Lemma daily_loop_spec (n : Z) (days : list day) :
  forall i acc,
  (forall d, In d days -> convertible d = true) ->
  i + Z.of_nat (List.length days) = n ->
  daily_loop n i days acc = Ok (acc ++ hyphen_last (map block_text days)).
Proof.
  induction days as [| d days IH]; intros i acc Hc Hn.
  - simpl. now rewrite app_nil_r.
  - cbn [daily_loop]. rewrite daily_block_ok by (apply Hc; now left).
    cbn [bind]. cbn [List.length] in Hn.
    rewrite IH; [| intros x Hx; apply Hc; now right | lia].
    rewrite <- app_assoc. do 2 f_equal. cbn [map hyphen_last app].
    destruct days as [| d' days'].
    + cbn [List.length] in Hn. rewrite (proj2 (Z.eqb_eq i (n - 1))) by lia.
      reflexivity.
    + cbn [List.length] in Hn. rewrite (proj2 (Z.eqb_neq i (n - 1))) by lia.
      reflexivity.
Qed.

Lemma generate_daily_summary_spec (days : list day) :
  days <> [] -> forallb convertible days = true ->
  generate_daily_summary days
  = Ok (Py.str_int (Z.of_nat (List.length days)) ++ " Day Overview" ++ nl ++ nl
        ++ Py.join (nl ++ nl) (hyphen_last (map block_text days)))%string.
Proof.
  intros Hne Hc. rewrite forallb_forall in Hc.
  unfold generate_daily_summary.
  destruct days as [| d0 rest]; [congruence |]. cbv iota zeta.
  rewrite (daily_loop_spec _ (d0 :: rest) 0 []) by (auto; lia).
  reflexivity.
Qed.

(** ** Dates *)

Lemma Zrange_forallb (f : Z -> bool) (lo hi : Z) :
  forallb f (Zrange lo hi) = true ->
  forall z, lo <= z <= hi -> f z = true.
Proof.
  intros H z Hz. rewrite forallb_forall in H. apply H.
  unfold Zrange. apply in_map_iff. exists (Z.to_nat (z - lo)).
  split; [lia |]. apply in_seq. lia.
Qed.

Lemma string_app_empty_r (a : string) : (a ++ "")%string = a.
Proof. induction a as [| x a IH]; simpl; [reflexivity | now rewrite IH]. Qed.

Lemma list_ascii_app (a b : string) :
  list_ascii_of_string (a ++ b) = list_ascii_of_string a ++ list_ascii_of_string b.
Proof. induction a as [| x a IH]; simpl; [reflexivity | now rewrite IH]. Qed.

Lemma strftime_long_date (dt : Py.datetime) :
  Py.strftime dt "%A %d %B %Y" = long_date dt.
Proof.
  unfold long_date. cbn [Py.strftime Ascii.eqb Bool.eqb].
  now rewrite string_app_empty_r.
Qed.

Lemma pad4_digits (y : Z) :
  0 <= y <= 9999 ->
  list_ascii_of_string (Py.zero_pad 4 y)
  = [digit_char (y / 1000); digit_char (y / 100 mod 10);
     digit_char (y / 10 mod 10); digit_char (y mod 10)].
Proof.
  intros H.
  assert (E : forallb (fun z =>
                if list_eq_dec ascii_dec
                     (list_ascii_of_string (Py.zero_pad 4 z))
                     [digit_char (z / 1000); digit_char (z / 100 mod 10);
                      digit_char (z / 10 mod 10); digit_char (z mod 10)]
                then true else false) (Zrange 0 9999) = true)
    by (vm_compute; reflexivity).
  apply Zrange_forallb with (z := y) in E; [| lia].
  destruct (list_eq_dec _ _ _) as [Q | Q]; [exact Q | discriminate].
Qed.

Lemma pad2_digits (d : Z) :
  0 <= d <= 99 ->
  list_ascii_of_string (Py.zero_pad 2 d)
  = [digit_char (d / 10); digit_char (d mod 10)].
Proof.
  intros H.
  assert (E : forallb (fun z =>
                if list_eq_dec ascii_dec
                     (list_ascii_of_string (Py.zero_pad 2 z))
                     [digit_char (z / 10); digit_char (z mod 10)]
                then true else false) (Zrange 0 99) = true)
    by (vm_compute; reflexivity).
  apply Zrange_forallb with (z := d) in E; [| lia].
  destruct (list_eq_dec _ _ _) as [Q | Q]; [exact Q | discriminate].
Qed.

Lemma digit_char_digit (v : Z) :
  0 <= v <= 9 ->
  Py.is_digit (digit_char v) = true /\ Py.digit_val (digit_char v) = v.
Proof.
  intros H.
  assert (E : forallb (fun z => Py.is_digit (digit_char z)
                                && (Py.digit_val (digit_char z) =? z))
                      (Zrange 0 9) = true) by (vm_compute; reflexivity).
  apply Zrange_forallb with (z := v) in E; [| lia].
  apply andb_true_iff in E. destruct E as [E1 E2].
  apply Z.eqb_eq in E2. auto.
Qed.

Lemma is_digit_char (c : ascii) :
  Py.is_digit c = true ->
  0 <= Py.digit_val c <= 9 /\ digit_char (Py.digit_val c) = c.
Proof.
  unfold Py.is_digit, Py.digit_val, digit_char, Py.code. intros H.
  apply andb_true_iff in H. destruct H as [H1 H2].
  apply Z.leb_le in H1, H2. split; [lia |].
  replace (Z.of_N (N_of_ascii c) - 48 + 48) with (Z.of_N (N_of_ascii c)) by lia.
  rewrite N2Z.id. apply ascii_N_embedding.
Qed.

Lemma valid_date_bounds (y m d : Z) :
  Py.valid_date y m d = true ->
  1 <= y <= 9999 /\ 1 <= m <= 12 /\ 1 <= d <= 31.
Proof.
  unfold Py.valid_date, Py.days_in_month. rewrite !andb_true_iff, !Z.leb_le.
  intros (((((H1 & H2) & H3) & H4) & H5) & H6).
  repeat split; try lia.
  destruct (m =? 2); [destruct (Py.is_leap y); lia |].
  destruct ((m =? 4) || (m =? 6) || (m =? 9) || (m =? 11)); lia.
Qed.

Lemma string_of_list_app (a b : list ascii) :
  string_of_list_ascii (a ++ b)
  = (string_of_list_ascii a ++ string_of_list_ascii b)%string.
Proof. induction a as [| x a IH]; simpl; [reflexivity | now rewrite IH]. Qed.

Lemma pad4_length (y : Z) :
  0 <= y <= 9999 -> String.length (Py.zero_pad 4 y) = 4%nat.
Proof.
  intros H. rewrite <- (string_of_list_ascii_of_string (Py.zero_pad 4 y)).
  now rewrite pad4_digits.
Qed.

Lemma pad2_length (d : Z) :
  0 <= d <= 99 -> String.length (Py.zero_pad 2 d) = 2%nat.
Proof.
  intros H. rewrite <- (string_of_list_ascii_of_string (Py.zero_pad 2 d)).
  now rewrite pad2_digits.
Qed.

Lemma day_name_full (w : Z) :
  0 <= w < 7 ->
  In (Py.day_name w)
     ["Monday"; "Tuesday"; "Wednesday"; "Thursday"; "Friday"; "Saturday";
      "Sunday"].
Proof.
  intros H.
  assert (C : w = 0 \/ w = 1 \/ w = 2 \/ w = 3 \/ w = 4 \/ w = 5 \/ w = 6) by lia.
  repeat (destruct C as [-> | C]; [simpl; tauto |]). subst. simpl. tauto.
Qed.

Lemma month_name_full (m : Z) :
  1 <= m <= 12 ->
  In (Py.month_name m)
     ["January"; "February"; "March"; "April"; "May"; "June"; "July";
      "August"; "September"; "October"; "November"; "December"].
Proof.
  intros H.
  assert (C : m = 1 \/ m = 2 \/ m = 3 \/ m = 4 \/ m = 5 \/ m = 6 \/ m = 7
              \/ m = 8 \/ m = 9 \/ m = 10 \/ m = 11 \/ m = 12) by lia.
  repeat (destruct C as [-> | C]; [simpl; tauto |]). subst. simpl. tauto.
Qed.

Lemma convert_date_parse (s : string) :
  convert_date s
  = match Py.parse_isoformat s with
    | Some dt => Ok (long_date dt)
    | None => Raise ValueError
    end.
Proof.
  unfold convert_date, Py.fromisoformat.
  destruct (Py.parse_isoformat s); cbn [bind]; [| reflexivity].
  now rewrite strftime_long_date.
Qed.

(** ** The parser on a day written YYYY-MM-DD *)

Lemma digit_eqb (c k : ascii) :
  Py.is_digit c = true -> Py.is_digit k = false -> Ascii.eqb c k = false.
Proof.
  intros Hc Hk. destruct (Ascii.eqb c k) eqn:E; [| reflexivity].
  apply Ascii.eqb_eq in E. congruence.
Qed.

Lemma digit_code (c : ascii) : Py.is_digit c = true -> 48 <= Py.code c <= 57.
Proof.
  unfold Py.is_digit. intros H. apply andb_true_iff in H.
  destruct H as [H1 H2]. apply Z.leb_le in H1, H2. lia.
Qed.

Lemma parse_isoformat_valid (s : string) (dt : Py.datetime) :
  Py.parse_isoformat s = Some dt ->
  Py.valid_date (Py.year dt) (Py.month dt) (Py.day dt) = true.
Proof.
  unfold Py.parse_isoformat.
  destruct (Py.code_points _ <? 7)%nat; [discriminate |].
  destruct (Py.find_separator _) as [sep |]; [| discriminate].
  destruct (Py.parse_isoformat_date _ sep) as [[[y m] d] |]; [| discriminate].
  match goal with
  | |- context [if ?t && Py.valid_date y m d then _ else _] => destruct t
  end; cbn [andb]; [| discriminate].
  destruct (Py.valid_date y m d) eqn:V; [| discriminate].
  intros H. injection H as <-. exact V.
Qed.

Section CalendarDay.

Variables (y0 y1 y2 y3 m0 m1 d0 d1 : ascii) (rest : list ascii).

Hypothesis Hy0 : Py.is_digit y0 = true.
Hypothesis Hy1 : Py.is_digit y1 = true.
Hypothesis Hy2 : Py.is_digit y2 = true.
Hypothesis Hy3 : Py.is_digit y3 = true.
Hypothesis Hm0 : Py.is_digit m0 = true.
Hypothesis Hm1 : Py.is_digit m1 = true.
Hypothesis Hd0 : Py.is_digit d0 = true.
Hypothesis Hd1 : Py.is_digit d1 = true.

Lemma find_separator_ymd :
  Py.find_separator ([y0; y1; y2; y3; "-"%char; m0; m1; "-"%char; d0; d1] ++ rest)
  = Some 10%nat.
Proof.
  unfold Py.find_separator. cbn [app List.length Nat.eqb Py.char_at nth].
  change (Ascii.eqb "-" "-") with true. cbv iota.
  now rewrite (digit_eqb m0 "W" Hm0 eq_refl).
Qed.

Lemma parse_isoformat_date_ymd (len : nat) :
  Py.parse_isoformat_date
    ([y0; y1; y2; y3; "-"%char; m0; m1; "-"%char; d0; d1] ++ rest) len
  = Some (10 * (10 * (10 * Py.digit_val y0 + Py.digit_val y1) + Py.digit_val y2)
          + Py.digit_val y3,
          10 * Py.digit_val m0 + Py.digit_val m1,
          10 * Py.digit_val d0 + Py.digit_val d1).
Proof.
  unfold Py.parse_isoformat_date.
  cbn [app Py.parse_digits Py.char_at nth].
  rewrite Hy0, Hy1, Hy2, Hy3.
  change (Ascii.eqb "-" "-") with true. cbv iota.
  cbn [Py.char_at nth Py.parse_digits].
  rewrite (digit_eqb m0 "W" Hm0 eq_refl), Hm0, Hm1.
  cbn [Py.char_at nth andb negb Py.parse_digits].
  change (Ascii.eqb "-" "-") with true. cbn [negb].
  rewrite Hd0, Hd1. do 3 f_equal; lia.
Qed.

Lemma code_points_ymd :
  (Py.code_points ([y0; y1; y2; y3; "-"%char; m0; m1; "-"%char; d0; d1] ++ rest)
   <? 7)%nat = false.
Proof.
  assert (N : forall c, Py.is_digit c = true ->
                negb ((128 <=? Py.code c) && (Py.code c <? 192)) = true).
  { intros c H. apply digit_code in H. apply negb_true_iff, andb_false_iff.
    left. apply Z.leb_gt. lia. }
  unfold Py.code_points. cbn [app filter].
  change (negb ((128 <=? Py.code "-") && (Py.code "-" <? 192))) with true.
  rewrite (N y0), (N y1), (N y2), (N y3), (N m0), (N m1), (N d0), (N d1)
    by assumption.
  cbv iota. cbn [List.length]. reflexivity.
Qed.

(** The date of a text that starts with YYYY-MM-DD: what follows it can only
    make the text unreadable. *)
Lemma parse_isoformat_ymd :
  exists ok : bool,
    Py.parse_isoformat
      (string_of_list_ascii
         ([y0; y1; y2; y3; "-"%char; m0; m1; "-"%char; d0; d1] ++ rest))
    = (let y := 10 * (10 * (10 * Py.digit_val y0 + Py.digit_val y1)
                      + Py.digit_val y2) + Py.digit_val y3 in
       let m := 10 * Py.digit_val m0 + Py.digit_val m1 in
       let d := 10 * Py.digit_val d0 + Py.digit_val d1 in
       if ok && Py.valid_date y m d then Some (Py.mkdate y m d) else None)
    /\ (rest = [] -> ok = true)
    /\ (forall c r, rest = c :: r ->
          ok = ((10 + Py.char_width c <=? 10 + List.length rest)%nat
                && Py.parse_isoformat_time
                     ([y0; y1; y2; y3; "-"%char; m0; m1; "-"%char; d0; d1] ++ rest)
                     (10 + Py.char_width c))).
Proof.
  unfold Py.parse_isoformat. rewrite list_ascii_of_string_of_list_ascii.
  rewrite code_points_ymd, find_separator_ymd, parse_isoformat_date_ymd.
  eexists. split; [reflexivity |]. split.
  - intros ->. reflexivity.
  - intros c r ->. cbn [app List.length Nat.ltb Nat.leb Py.char_at nth].
    reflexivity.
Qed.

End CalendarDay.

Lemma iso_date_chars (y m d : Z) :
  0 <= y <= 9999 -> 0 <= m <= 99 -> 0 <= d <= 99 ->
  list_ascii_of_string (iso_date y m d)
  = [digit_char (y / 1000); digit_char (y / 100 mod 10);
     digit_char (y / 10 mod 10); digit_char (y mod 10); "-"%char;
     digit_char (m / 10); digit_char (m mod 10); "-"%char;
     digit_char (d / 10); digit_char (d mod 10)].
Proof.
  intros Hy Hm Hd. unfold iso_date.
  rewrite !list_ascii_app, pad4_digits, !pad2_digits by assumption.
  reflexivity.
Qed.

(** A text that starts with the day [y]-[m]-[d] written YYYY-MM-DD. *)
Lemma parse_iso_date_rest (y m d : Z) (rest : string) :
  0 <= y <= 9999 -> 0 <= m <= 99 -> 0 <= d <= 99 ->
  exists ok : bool,
    Py.parse_isoformat (iso_date y m d ++ rest)
    = (if ok && Py.valid_date y m d then Some (Py.mkdate y m d) else None)
    /\ (rest = "" -> ok = true).
Proof.
  intros Hy Hm Hd.
  assert (D : forall v, 0 <= v <= 9 ->
                Py.is_digit (digit_char v) = true) by (intros; now apply digit_char_digit).
  assert (V : forall v, 0 <= v <= 9 ->
                Py.digit_val (digit_char v) = v) by (intros; now apply digit_char_digit).
  assert (B : forall v, 0 <= v <= 99 -> 0 <= v / 10 <= 9 /\ 0 <= v mod 10 <= 9)
    by (intros; Z.div_mod_to_equations; lia).
  assert (By : 0 <= y / 1000 <= 9 /\ 0 <= y / 100 mod 10 <= 9
               /\ 0 <= y / 10 mod 10 <= 9 /\ 0 <= y mod 10 <= 9)
    by (Z.div_mod_to_equations; lia).
  destruct By as (By0 & By1 & By2 & By3).
  destruct (B m Hm) as [Bm0 Bm1]. destruct (B d Hd) as [Bd0 Bd1].
  destruct (parse_isoformat_ymd
              (digit_char (y / 1000)) (digit_char (y / 100 mod 10))
              (digit_char (y / 10 mod 10)) (digit_char (y mod 10))
              (digit_char (m / 10)) (digit_char (m mod 10))
              (digit_char (d / 10)) (digit_char (d mod 10))
              (list_ascii_of_string rest))
    as (ok & E & E0 & _); auto.
  exists ok. split.
  - rewrite <- (string_of_list_ascii_of_string (iso_date y m d ++ rest)).
    rewrite list_ascii_app, iso_date_chars by assumption.
    rewrite E. cbv zeta. rewrite !V by assumption.
    replace (10 * (10 * (10 * (y / 1000) + y / 100 mod 10) + y / 10 mod 10)
             + y mod 10) with y by (Z.div_mod_to_equations; lia).
    replace (10 * (m / 10) + m mod 10) with m by (Z.div_mod_to_equations; lia).
    replace (10 * (d / 10) + d mod 10) with d by (Z.div_mod_to_equations; lia).
    reflexivity.
  - intros ->. now apply E0.
Qed.

Lemma parse_iso_date (y m d : Z) :
  Py.valid_date y m d = true ->
  Py.parse_isoformat (iso_date y m d) = Some (Py.mkdate y m d).
Proof.
  intros V. destruct (valid_date_bounds y m d V) as (Hy & Hm & Hd).
  destruct (parse_iso_date_rest y m d "") as (ok & E & E0); try lia.
  rewrite string_app_empty_r in E. now rewrite E, (E0 eq_refl), V.
Qed.

(** ** The calendar *)

Lemma calendar_day_valid (y m d : Z) :
  calendar_day y m d <-> Py.valid_date y m d = true.
Proof.
  unfold calendar_day, Py.valid_date, Py.days_in_month, Py.is_leap.
  rewrite !andb_true_iff, !Z.leb_le. split.
  - intros (Hy & Hm & Hd & H30 & H29 & Hl).
    repeat split; try lia.
    destruct (Z.eqb_spec m 2) as [E | E].
    + specialize (H29 E).
      destruct (Z.eqb_spec (y mod 4) 0) as [E4 | E4];
      destruct (Z.eqb_spec (y mod 100) 0) as [E100 | E100];
      destruct (Z.eqb_spec (y mod 400) 0) as [E400 | E400];
      cbn [andb orb negb]; try lia;
      destruct (Z.eq_dec d 29) as [D | D]; try lia;
      destruct (Hl E D) as [L1 L2]; lia.
    + destruct (Z.eqb_spec m 4); destruct (Z.eqb_spec m 6);
      destruct (Z.eqb_spec m 9); destruct (Z.eqb_spec m 11);
      cbn [orb]; lia.
  - intros (((((H1 & H2) & H3) & H4) & H5) & H6).
    destruct (Z.eqb_spec m 2) as [E | E].
    + destruct (Z.eqb_spec (y mod 4) 0) as [E4 | E4];
      destruct (Z.eqb_spec (y mod 100) 0) as [E100 | E100];
      destruct (Z.eqb_spec (y mod 400) 0) as [E400 | E400];
      cbn [andb orb negb] in H6; repeat split; try lia.
    + destruct (Z.eqb_spec m 4); destruct (Z.eqb_spec m 6);
      destruct (Z.eqb_spec m 9); destruct (Z.eqb_spec m 11);
      cbn [orb] in H6; repeat split; lia.
Qed.

Lemma days_before_next_month (y m : Z) :
  1 <= m <= 11 ->
  Py.days_before_month y (m + 1)
  = Py.days_before_month y m + Py.days_in_month y m.
Proof.
  intros H.
  assert (C : m = 1 \/ m = 2 \/ m = 3 \/ m = 4 \/ m = 5 \/ m = 6 \/ m = 7
              \/ m = 8 \/ m = 9 \/ m = 10 \/ m = 11) by lia.
  unfold Py.days_before_month, Py.days_in_month.
  repeat (destruct C as [-> | C]; [cbn; destruct (Py.is_leap y); reflexivity |]).
  subst. cbn. destruct (Py.is_leap y); reflexivity.
Qed.

Lemma days_before_december (y : Z) :
  Py.days_before_month y 12 = 334 + (if Py.is_leap y then 1 else 0).
Proof.
  unfold Py.days_before_month, Py.days_in_month. cbn.
  destruct (Py.is_leap y); reflexivity.
Qed.

Lemma days_before_next_year (y : Z) :
  1 <= y ->
  Py.days_before_year (y + 1)
  = Py.days_before_year y + Py.days_before_month y 12 + 31.
Proof.
  intros H. rewrite days_before_december.
  unfold Py.days_before_year, Py.is_leap.
  destruct (Z.eqb_spec (y mod 4) 0) as [E4 | E4];
  destruct (Z.eqb_spec (y mod 100) 0) as [E100 | E100];
  destruct (Z.eqb_spec (y mod 400) 0) as [E400 | E400];
  cbn [andb orb negb]; Z.div_mod_to_equations; lia.
Qed.

Lemma weekday_next (a b : Py.datetime) :
  Py.toordinal b = Py.toordinal a + 1 ->
  Py.weekday b = (Py.weekday a + 1) mod 7.
Proof.
  unfold Py.weekday. intros ->.
  rewrite Z.add_mod_idemp_l by lia. f_equal. lia.
Qed.

Lemma year_four_digits (y : Z) :
  1000 <= y <= 9999 -> String.length (Py.str_int y) = 4%nat.
Proof.
  intros H.
  assert (E : forallb four_digit_year (Zrange 1000 9999) = true)
    by (vm_compute; reflexivity).
  apply Zrange_forallb with (z := y) in E; [| exact H].
  now apply Nat.eqb_eq in E.
Qed.

Lemma two_digits_pad (d : Z) : 0 <= d <= 99 -> Py.zero_pad 2 d = two_digits d.
Proof.
  intros H. rewrite <- (string_of_list_ascii_of_string (Py.zero_pad 2 d)).
  now rewrite pad2_digits.
Qed.

Lemma short_text_unread (s : string) :
  (String.length s < 7)%nat -> Py.parse_isoformat s = None.
Proof.
  intros L. unfold Py.parse_isoformat.
  assert (F : forall (f : ascii -> bool) l,
             (List.length (filter f l) <= List.length l)%nat).
  { intros f l. induction l as [| c l IH]; cbn; [lia |].
    destruct (f c); cbn; lia. }
  assert (C : (Py.code_points (list_ascii_of_string s) <? 7)%nat = true).
  { apply Nat.ltb_lt. unfold Py.code_points.
    eapply Nat.le_lt_trans; [apply F |].
    assert (E : List.length (list_ascii_of_string s) = String.length s)
      by (clear; induction s as [| c s IH]; cbn; [reflexivity | now rewrite IH]).
    lia. }
  now rewrite C.
Qed.

(** ** The parser on a day, a time of day and an offset from UTC *)

Section Stamp.

Variables (y0 y1 y2 y3 m0 m1 d0 d1 h0 h1 i0 i1 s0 s1 a0 a1 b0 b1 : ascii).
Variable sign : ascii.

Hypothesis Hy0 : Py.is_digit y0 = true.
Hypothesis Hy1 : Py.is_digit y1 = true.
Hypothesis Hy2 : Py.is_digit y2 = true.
Hypothesis Hy3 : Py.is_digit y3 = true.
Hypothesis Hm0 : Py.is_digit m0 = true.
Hypothesis Hm1 : Py.is_digit m1 = true.
Hypothesis Hd0 : Py.is_digit d0 = true.
Hypothesis Hd1 : Py.is_digit d1 = true.
Hypothesis Hh0 : Py.is_digit h0 = true.
Hypothesis Hh1 : Py.is_digit h1 = true.
Hypothesis Hi0 : Py.is_digit i0 = true.
Hypothesis Hi1 : Py.is_digit i1 = true.
Hypothesis Hs0 : Py.is_digit s0 = true.
Hypothesis Hs1 : Py.is_digit s1 = true.
Hypothesis Ha0 : Py.is_digit a0 = true.
Hypothesis Ha1 : Py.is_digit a1 = true.
Hypothesis Hb0 : Py.is_digit b0 = true.
Hypothesis Hb1 : Py.is_digit b1 = true.
Hypothesis Hsign : sign = "+"%char \/ sign = "-"%char.

Let stamp : list ascii :=
  [y0; y1; y2; y3; "-"%char; m0; m1; "-"%char; d0; d1]
  ++ ["T"%char; h0; h1; ":"%char; i0; i1; ":"%char; s0; s1; sign;
      a0; a1; ":"%char; b0; b1].

Lemma digit_not_tz (c : ascii) : Py.is_digit c = true -> Py.is_tz_char c = false.
Proof.
  intros H. unfold Py.is_tz_char.
  rewrite (digit_eqb c "Z" H eq_refl), (digit_eqb c "+" H eq_refl),
    (digit_eqb c "-" H eq_refl).
  reflexivity.
Qed.

Lemma find_tz_stamp : Py.find_tz stamp 25 11 25 = 19%nat.
Proof.
  unfold stamp. cbn [app Py.find_tz Py.char_at nth Nat.ltb Nat.leb].
  rewrite (digit_not_tz h0 Hh0), (digit_not_tz h1 Hh1), (digit_not_tz i0 Hi0),
    (digit_not_tz i1 Hi1), (digit_not_tz s0 Hs0), (digit_not_tz s1 Hs1).
  change (Py.is_tz_char ":") with false. cbv iota.
  destruct Hsign as [-> | ->]; reflexivity.
Qed.

Lemma parse_time_stamp :
  Py.parse_hh_mm_ss_ff stamp 11 19
  = Some (Py.mkhms (10 * Py.digit_val h0 + Py.digit_val h1)
            (10 * Py.digit_val i0 + Py.digit_val i1)
            (10 * Py.digit_val s0 + Py.digit_val s1) 0 true).
Proof.
  unfold Py.parse_hh_mm_ss_ff, stamp.
  cbn [app Py.parse_fields Py.parse_digits Py.char_at nth].
  rewrite Hh0, Hh1.
  cbn [Py.char_at nth Nat.eqb Nat.leb Py.set_field Py.hour Py.minute Py.second
       Py.microsecond Py.more].
  change (Ascii.eqb ":" ":") with true. cbn [andb].
  cbn [Py.parse_fields Py.parse_digits Py.char_at nth].
  rewrite Hi0, Hi1.
  cbn [Py.char_at nth Nat.eqb Nat.leb Py.set_field Py.hour Py.minute Py.second
       Py.microsecond Py.more].
  change (Ascii.eqb ":" ":") with true. cbn [andb].
  cbn [Py.parse_fields Py.parse_digits Py.char_at nth].
  rewrite Hs0, Hs1.
  cbn [Py.char_at nth Nat.eqb Nat.leb Py.set_field Py.hour Py.minute Py.second
       Py.microsecond Py.more].
  destruct Hsign as [-> | ->]; cbn; do 2 f_equal; lia.
Qed.

Lemma parse_offset_stamp :
  Py.parse_hh_mm_ss_ff stamp 20 25
  = Some (Py.mkhms (10 * Py.digit_val a0 + Py.digit_val a1)
            (10 * Py.digit_val b0 + Py.digit_val b1) 0 0 false).
Proof.
  unfold Py.parse_hh_mm_ss_ff, stamp.
  cbn [app Py.parse_fields Py.parse_digits Py.char_at nth].
  rewrite Ha0, Ha1.
  cbn [Py.char_at nth Nat.eqb Nat.leb Py.set_field Py.hour Py.minute Py.second
       Py.microsecond Py.more].
  change (Ascii.eqb ":" ":") with true. cbn [andb].
  cbn [Py.parse_fields Py.parse_digits Py.char_at nth].
  rewrite Hb0, Hb1.
  cbn [Py.char_at nth Nat.eqb Nat.leb Py.set_field Py.hour Py.minute Py.second
       Py.microsecond Py.more].
  cbn. do 2 f_equal; lia.
Qed.

Lemma parse_isoformat_time_stamp :
  10 * Py.digit_val h0 + Py.digit_val h1 < 24 ->
  10 * Py.digit_val i0 + Py.digit_val i1 < 60 ->
  10 * Py.digit_val s0 + Py.digit_val s1 < 60 ->
  10 * Py.digit_val a0 + Py.digit_val a1 < 24 ->
  10 * Py.digit_val b0 + Py.digit_val b1 < 60 ->
  Py.parse_isoformat_time stamp 11 = true.
Proof.
  intros Bh Bi Bs Ba Bb. unfold Py.parse_isoformat_time.
  change (List.length stamp) with 25%nat.
  rewrite find_tz_stamp, parse_time_stamp.
  cbn [Nat.eqb Py.hour Py.minute Py.second Py.microsecond Py.more].
  rewrite parse_offset_stamp.
  cbn [Py.hour Py.minute Py.second Py.microsecond Py.more negb andb].
  rewrite (proj2 (Z.ltb_lt _ _) Bh), (proj2 (Z.ltb_lt _ _) Bi),
    (proj2 (Z.ltb_lt _ _) Bs).
  assert (Da0 : 0 <= Py.digit_val a0 <= 9) by (apply is_digit_char; assumption).
  assert (Da1 : 0 <= Py.digit_val a1 <= 9) by (apply is_digit_char; assumption).
  assert (Db0 : 0 <= Py.digit_val b0 <= 9) by (apply is_digit_char; assumption).
  assert (Db1 : 0 <= Py.digit_val b1 <= 9) by (apply is_digit_char; assumption).
  assert (C : Py.char_at stamp 19 = sign) by reflexivity. rewrite C.
  destruct Hsign as [-> | ->].
  - change (Ascii.eqb "+" "Z") with false. change (Ascii.eqb "+" "-") with false.
    cbv iota. cbn [andb]. apply orb_true_iff. right.
    apply andb_true_iff. split; apply Z.ltb_lt; lia.
  - change (Ascii.eqb "-" "Z") with false. change (Ascii.eqb "-" "-") with true.
    cbv iota. cbn [andb]. apply orb_true_iff. right.
    apply andb_true_iff. split; apply Z.ltb_lt; lia.
Qed.

Lemma parse_isoformat_stamp :
  10 * Py.digit_val h0 + Py.digit_val h1 < 24 ->
  10 * Py.digit_val i0 + Py.digit_val i1 < 60 ->
  10 * Py.digit_val s0 + Py.digit_val s1 < 60 ->
  10 * Py.digit_val a0 + Py.digit_val a1 < 24 ->
  10 * Py.digit_val b0 + Py.digit_val b1 < 60 ->
  Py.parse_isoformat (string_of_list_ascii stamp)
  = let y := 10 * (10 * (10 * Py.digit_val y0 + Py.digit_val y1) + Py.digit_val y2)
             + Py.digit_val y3 in
    let m := 10 * Py.digit_val m0 + Py.digit_val m1 in
    let d := 10 * Py.digit_val d0 + Py.digit_val d1 in
    if Py.valid_date y m d then Some (Py.mkdate y m d) else None.
Proof.
  intros Bh Bi Bs Ba Bb.
  destruct (parse_isoformat_ymd y0 y1 y2 y3 m0 m1 d0 d1
              ["T"%char; h0; h1; ":"%char; i0; i1; ":"%char; s0; s1; sign;
               a0; a1; ":"%char; b0; b1])
    as (ok & E & _ & E1); auto.
  specialize (E1 _ _ eq_refl).
  change (Py.char_width "T") with 1%nat in E1.
  cbn [List.length Nat.add Nat.leb] in E1.
  fold stamp in E, E1.
  rewrite parse_isoformat_time_stamp in E1 by assumption.
  subst ok. exact E.
Qed.

End Stamp.

Lemma parse_iso_date_time (y m d hh mi ss : Z) (sign : ascii) (oh om : Z) :
  0 <= y <= 9999 -> 0 <= m <= 99 -> 0 <= d <= 99 ->
  0 <= hh < 24 -> 0 <= mi < 60 -> 0 <= ss < 60 ->
  sign = "+"%char \/ sign = "-"%char ->
  0 <= oh < 24 -> 0 <= om < 60 ->
  Py.parse_isoformat (iso_date y m d ++ time_stamp hh mi ss sign oh om)
  = if Py.valid_date y m d then Some (Py.mkdate y m d) else None.
Proof.
  intros Hy Hm Hd Hh Hi Hs Hsign Ha Hb.
  assert (D : forall v, 0 <= v <= 9 ->
                Py.is_digit (digit_char v) = true) by (intros; now apply digit_char_digit).
  assert (V : forall v, 0 <= v <= 9 ->
                Py.digit_val (digit_char v) = v) by (intros; now apply digit_char_digit).
  assert (B : forall v, 0 <= v <= 99 -> 0 <= v / 10 <= 9 /\ 0 <= v mod 10 <= 9)
    by (intros; Z.div_mod_to_equations; lia).
  assert (R : forall v, 0 <= v <= 99 ->
                10 * Py.digit_val (digit_char (v / 10))
                + Py.digit_val (digit_char (v mod 10)) = v).
  { intros v Hv. destruct (B v Hv). rewrite !V by assumption.
    Z.div_mod_to_equations; lia. }
  assert (By : 0 <= y / 1000 <= 9 /\ 0 <= y / 100 mod 10 <= 9
               /\ 0 <= y / 10 mod 10 <= 9 /\ 0 <= y mod 10 <= 9)
    by (Z.div_mod_to_equations; lia).
  destruct By as (By0 & By1 & By2 & By3).
  destruct (B m Hm) as [Bm0 Bm1]. destruct (B d Hd) as [Bd0 Bd1].
  destruct (B hh) as [Bh0 Bh1]; [lia |]. destruct (B mi) as [Bi0 Bi1]; [lia |].
  destruct (B ss) as [Bs0 Bs1]; [lia |]. destruct (B oh) as [Ba0 Ba1]; [lia |].
  destruct (B om) as [Bb0 Bb1]; [lia |].
  rewrite <- (string_of_list_ascii_of_string
                (iso_date y m d ++ time_stamp hh mi ss sign oh om)).
  rewrite list_ascii_app, iso_date_chars by assumption.
  change (list_ascii_of_string (time_stamp hh mi ss sign oh om))
    with ["T"%char; digit_char (hh / 10); digit_char (hh mod 10); ":"%char;
          digit_char (mi / 10); digit_char (mi mod 10); ":"%char;
          digit_char (ss / 10); digit_char (ss mod 10); sign;
          digit_char (oh / 10); digit_char (oh mod 10); ":"%char;
          digit_char (om / 10); digit_char (om mod 10)].
  rewrite parse_isoformat_stamp; auto; try (rewrite R; lia).
  cbv zeta. rewrite !V by assumption.
  replace (10 * (10 * (10 * (y / 1000) + y / 100 mod 10) + y / 10 mod 10)
           + y mod 10) with y by (Z.div_mod_to_equations; lia).
  replace (10 * (m / 10) + m mod 10) with m by (Z.div_mod_to_equations; lia).
  replace (10 * (d / 10) + d mod 10) with d by (Z.div_mod_to_equations; lia).
  reflexivity.
Qed.

Lemma four_digits_year (y : Z) : 1000 <= y <= 9999 -> Py.str_int y = four_digits y.
Proof.
  intros H.
  assert (E : Py.zero_pad 4 y = four_digits y).
  { rewrite <- (string_of_list_ascii_of_string (Py.zero_pad 4 y)).
    rewrite pad4_digits by lia. reflexivity. }
  rewrite <- E. unfold Py.zero_pad. cbv zeta.
  rewrite year_four_digits by exact H. reflexivity.
Qed.

Lemma four_digits_pad (y : Z) : 0 <= y <= 9999 -> Py.zero_pad 4 y = four_digits y.
Proof.
  intros H. rewrite <- (string_of_list_ascii_of_string (Py.zero_pad 4 y)).
  now rewrite pad4_digits.
Qed.

Lemma early_year_short (y : Z) :
  0 <= y < 1000 -> (String.length (Py.str_int y) < 4)%nat.
Proof.
  intros H.
  assert (E : forallb (fun z => (String.length (Py.str_int z) <? 4)%nat)
                (Zrange 0 999) = true) by (vm_compute; reflexivity).
  apply Zrange_forallb with (z := y) in E; [| lia].
  now apply Nat.ltb_lt in E.
Qed.

Lemma weekday_range (dt : Py.datetime) : 0 <= Py.weekday dt < 7.
Proof. unfold Py.weekday. apply Z.mod_pos_bound. lia. Qed.

Lemma long_date_in_words (y m d : Z) :
  0 <= d <= 99 ->
  long_date (Py.mkdate y m d) = date_in_words (Py.weekday (Py.mkdate y m d)) y m d.
Proof.
  intros H. unfold long_date, date_in_words. cbn [Py.year Py.month Py.day].
  now rewrite two_digits_pad.
Qed.

Lemma last_day_of_month (y m d : Z) :
  calendar_day y m d -> ~ calendar_day y m (d + 1) -> d = Py.days_in_month y m.
Proof.
  rewrite !calendar_day_valid. unfold Py.valid_date.
  intros H N. rewrite !andb_true_iff, !Z.leb_le in H.
  destruct H as (((((H1 & H2) & H3) & H4) & H5) & H6).
  destruct (Z.leb_spec (d + 1) (Py.days_in_month y m)) as [L | L]; [| lia].
  exfalso. apply N. rewrite !andb_true_iff, !Z.leb_le. repeat split; lia.
Qed.

Lemma convert_date_calendar (s t : string) :
  convert_date s = Ok t ->
  exists y m d,
    calendar_day y m d /\ t = date_in_words (Py.weekday (Py.mkdate y m d)) y m d.
Proof.
  rewrite convert_date_parse.
  destruct (Py.parse_isoformat s) as [[y m d] |] eqn:P; [| discriminate].
  intros H. injection H as <-.
  pose proof (parse_isoformat_valid _ _ P) as V. cbn [Py.year Py.month Py.day] in V.
  exists y, m, d. split; [now apply calendar_day_valid |].
  apply long_date_in_words. destruct (valid_date_bounds y m d V). lia.
Qed.

Lemma convert_date_raises (s : string) (e : exn) :
  convert_date s = Raise e -> e = ValueError.
Proof.
  rewrite convert_date_parse.
  destruct (Py.parse_isoformat s); [discriminate | congruence].
Qed.

(** ** Rounding *)

(** [div_half_even] is a nearest integer: off by half a unit at most. *)
Lemma div_half_even_nearest (a b : Z) :
  0 < b -> 2 * Z.abs (a - b * Py.div_half_even a b) <= b.
Proof.
  intros Hb. unfold Py.div_half_even.
  pose proof (Z.div_mod a b) as E. pose proof (Z.mod_pos_bound a b Hb) as M.
  destruct (Z.compare_spec (2 * (a mod b)) b) as [C | C | C];
    [destruct (Z.even (a / b)) | |]; nia.
Qed.

(** Half way between two integers, [div_half_even] takes the even one. *)
Lemma div_half_even_tie (a b : Z) :
  0 < b -> 2 * Z.abs (a - b * Py.div_half_even a b) = b ->
  Z.even (Py.div_half_even a b) = true.
Proof.
  intros Hb. unfold Py.div_half_even.
  pose proof (Z.div_mod a b) as E. pose proof (Z.mod_pos_bound a b Hb) as M.
  destruct (Z.compare_spec (2 * (a mod b)) b) as [C | C | C].
  - destruct (Z.even (a / b)) eqn:V; [auto |]. intros _.
    rewrite Z.even_add, V. reflexivity.
  - intros H. nia.
  - intros H. nia.
Qed.

Lemma exact_on_range (f : Z) :
  -1000 <= f <= 1000 ->
  convert_f_to_c (PyInt f) = Ok (decimal1 (celsius_tenths f)).
Proof.
  intros H.
  assert (E : forallb exact_on (Zrange (-1000) 1000) = true)
    by (vm_compute; reflexivity).
  apply Zrange_forallb with (z := f) in E; [| exact H].
  unfold exact_on in E.
  destruct (convert_f_to_c (PyInt f)) as [c | e]; [| discriminate].
  apply FloatAxioms.Leibniz.eqb_spec in E. now subst.
Qed.

(** ** The scan of the report and the scan of [min] and [max] *)

Lemma scan_fst_values {T : Type} (better : float -> float -> bool)
  (val : T -> float) (tag : T -> string) (l : list T) :
  forall b,
  fst (scan better val tag b l)
  = fst (scan better (fun y => y) (fun _ => "") (fst b, "") (map val l)).
Proof.
  induction l as [| a l IH]; intros b; [reflexivity |].
  unfold scan. simpl fold_left. cbn [fst].
  destruct (better (val a) (fst b)); apply IH.
Qed.

(** A scan that starts from a value its first element beats is [pick]. *)
Lemma scan_from_sentinel (better : float -> float -> bool) (s x : float)
  (xs : list float) :
  better x s = true ->
  fst (scan better (fun y => y) (fun _ => "") (s, "") (x :: xs))
  = pick better x xs.
Proof.
  intros H. unfold scan. simpl fold_left. cbn [fst]. rewrite H.
  symmetry. apply pick_scan.
Qed.

(** Two ways of cutting one list at an element: the element of the earlier
    cut lies before the later cut, and the element of the later cut after the
    earlier one. *)
Lemma cut_earlier {A : Type} (b1 b2 a1 a2 : list A) (v1 v2 : A) :
  b1 ++ v1 :: a1 = b2 ++ v2 :: a2 ->
  (List.length b2 < List.length b1)%nat -> In v2 b1.
Proof.
  intros E L.
  assert (H : nth_error (b1 ++ v1 :: a1) (List.length b2) = Some v2).
  { rewrite E, nth_error_app2, Nat.sub_diag by lia. reflexivity. }
  rewrite nth_error_app1 in H by exact L.
  now apply nth_error_In in H.
Qed.

Lemma cut_later {A : Type} (b1 b2 a1 a2 : list A) (v1 v2 : A) :
  b1 ++ v1 :: a1 = b2 ++ v2 :: a2 ->
  (List.length b1 < List.length b2)%nat -> In v2 a1.
Proof.
  intros E L.
  assert (H : nth_error (b1 ++ v1 :: a1) (List.length b2) = Some v2).
  { rewrite E, nth_error_app2, Nat.sub_diag by lia. reflexivity. }
  rewrite nth_error_app2 in H by lia.
  destruct (List.length b2 - List.length b1)%nat as [| k] eqn:K; [lia |].
  simpl in H. now apply nth_error_In in H.
Qed.

(** ** The report against find_min and find_max *)

Section Agreement.

Variables (better : float -> float -> bool) (key : float -> Z).
Variables (val : day -> float) (start : float).

Hypothesis better_key : forall x y,
  not_nan x = true -> not_nan y = true -> better x y = (key x <? key y).

Hypothesis key_fkey : forall x y, key x = key y <-> fkey x = fkey y.

(** The value the scan of the report ends on is the value [find_last]
    returns; the position [find_last] returns is not before the day of the
    report, and is that day when the value does not occur again. *)
Lemma agreement (days before after : list day) (d : day) :
  days = before ++ d :: after ->
  (forall x, In x days -> not_nan (val x) = true) ->
  (forall x, In x days -> better (val x) start = true) ->
  val d = fst (scan better val date_str (start, "") days) ->
  (forall x, In x before -> better (val d) (val x) = true) ->
  exists k,
    find_last (pick better) (map (fun x => PyFloat (val x)) days)
    = Ok (Some (val d, k))
    /\ Z.of_nat (List.length before) <= k
    /\ ((forall x, In x after -> (val x =? val d)%float = false) ->
        k = Z.of_nat (List.length before)).
Proof.
  intros Hd Hn Hs Hv Hbef.
  set (l := map (fun x => PyFloat (val x)) days).
  assert (Hl : map number l = map val days).
  { unfold l. rewrite map_map. apply map_ext. reflexivity. }
  assert (Hne : l <> []) by (unfold l; rewrite Hd; destruct before; discriminate).
  assert (Hnum : forallb is_number l = true).
  { apply forallb_forall. intros v Hin. unfold l in Hin.
    apply in_map_iff in Hin. destruct Hin as (x & <- & Hx).
    unfold is_number. simpl. auto. }
  destruct (find_last_spec better key better_key key_fkey l Hne Hnum)
    as (x & xs & bef2 & y & aft2 & El & Hf & Hc & Ey & Hin & _ & Haft2).
  rewrite Hl in El.
  assert (Hp : pick better x xs = val d).
  { rewrite Hv, scan_fst_values. cbn [fst]. rewrite El.
    symmetry. apply scan_from_sentinel.
    destruct days as [| d0 days']; [discriminate |].
    injection El as <- _. apply Hs. now left. }
  rewrite Hp in *.
  exists (Z.of_nat (List.length bef2)). split; [exact Hf |].
  assert (Hcut : map val before ++ val d :: map val after = bef2 ++ y :: aft2).
  { rewrite <- Hc, <- El, Hd, map_app. reflexivity. }
  assert (Nd : not_nan (val d) = true) by (apply Hn; rewrite Hd; apply in_elt).
  assert (Ny : not_nan y = true).
  { assert (Hy : In y (map val days)) by (rewrite El, Hc; apply in_elt).
    apply in_map_iff in Hy. destruct Hy as (x0 & <- & Hx0). auto. }
  rewrite eqb_key in Ey by assumption. apply Z.eqb_eq in Ey.
  split.
  - destruct (Nat.lt_ge_cases (List.length bef2) (List.length before)) as [L | L];
      [| lia].
    exfalso.
    assert (Hy : In y (map val before)).
    { apply (cut_earlier _ _ _ _ _ _ Hcut). now rewrite length_map. }
    apply in_map_iff in Hy. destruct Hy as (x0 & E0 & Hx0).
    specialize (Hbef x0 Hx0). rewrite E0 in Hbef.
    apply (better_true better key better_key) in Hbef; auto.
    apply key_fkey in Ey. lia.
  - intros Hu.
    destruct (Nat.lt_trichotomy (List.length before) (List.length bef2))
      as [L | [L | L]]; [| lia |].
    + exfalso.
      assert (Hy : In y (map val after)).
      { apply (cut_later _ _ _ _ _ _ Hcut). now rewrite length_map. }
      apply in_map_iff in Hy. destruct Hy as (x0 & E0 & Hx0).
      specialize (Hu x0 Hx0). rewrite E0 in Hu.
      rewrite eqb_key in Hu by assumption. apply Z.eqb_neq in Hu. lia.
    + exfalso.
      assert (Hy : In y (map val before)).
      { apply (cut_earlier _ _ _ _ _ _ Hcut). now rewrite length_map. }
      apply in_map_iff in Hy. destruct Hy as (x0 & E0 & Hx0).
      specialize (Hbef x0 Hx0). rewrite E0 in Hbef.
      apply (better_true better key better_key) in Hbef; auto.
      apply key_fkey in Ey. lia.
Qed.

End Agreement.

(** The element a list is cut at, better than all before it and beaten by
    none after it, is beaten by none at all. *)
Lemma cut_none_better {T : Type} (better : float -> float -> bool)
  (key : float -> Z) (val : T -> float)
  (better_key : forall x y, not_nan x = true -> not_nan y = true ->
                            better x y = (key x <? key y))
  (l before after : list T) (d : T) :
  l = before ++ d :: after ->
  (forall x, In x l -> not_nan (val x) = true) ->
  (forall x, In x before -> better (val d) (val x) = true) ->
  (forall x, In x after -> better (val x) (val d) = false) ->
  forall x, In x l -> better (val x) (val d) = false.
Proof.
  intros Hl Hn Hbef Haft x Hx.
  assert (Nd : not_nan (val d) = true) by (apply Hn; rewrite Hl; apply in_elt).
  assert (Nx : not_nan (val x) = true) by auto.
  rewrite Hl in Hx. apply in_app_or in Hx. destruct Hx as [Hx | [<- | Hx]].
  - specialize (Hbef x Hx). rewrite better_key in * by assumption.
    apply Z.ltb_lt in Hbef. apply Z.ltb_ge. lia.
  - rewrite better_key by assumption. apply Z.ltb_irrefl.
  - auto.
Qed.

Lemma convertible_rounded (d : day) :
  convertible d = true ->
  exists x y,
    Py.to_float (min_f d) = Ok x
    /\ celsius (min_f d) = Py.round ((x - 32) * 5 / 9) 1
    /\ Py.to_float (max_f d) = Ok y
    /\ celsius (max_f d) = Py.round ((y - 32) * 5 / 9) 1.
Proof.
  intros H. destruct (convertible_inv d H) as (_ & Hmin & Hmax).
  unfold convert_f_to_c in Hmin, Hmax.
  destruct (Py.to_float (min_f d)) as [x | ]; [| discriminate].
  destruct (Py.to_float (max_f d)) as [y | ]; [| discriminate].
  cbn [bind] in Hmin, Hmax. exists x, y.
  repeat split; congruence.
Qed.

(** ** Series of plain days are valid *)

Lemma plain_reading_finite (v : pyval) :
  plain_reading v = true ->
  convert_f_to_c v = Ok (celsius v) /\ finite (celsius v) = true.
Proof.
  destruct v as [n | x | s]; try discriminate. cbn [plain_reading].
  intros H. apply andb_true_iff in H. destruct H as [H1 H2].
  apply Z.leb_le in H1, H2.
  assert (E : forallb (fun z => finite (celsius (PyInt z))) (Zrange (-1000) 1000)
              = true) by (vm_compute; reflexivity).
  apply Zrange_forallb with (z := n) in E; [| lia].
  split; [| exact E].
  unfold celsius. now rewrite (exact_on_range n) by lia.
Qed.

Lemma plain_days_valid (days : list day) :
  forallb plain_day days = true -> valid_series days = true.
Proof.
  unfold valid_series. rewrite !forallb_forall. intros H d Hd.
  specialize (H d Hd). unfold plain_day, date_reads in H.
  apply andb_true_iff in H. destruct H as [H Hmax].
  apply andb_true_iff in H. destruct H as [Hdate Hmin].
  destruct (plain_reading_finite _ Hmin) as [Cmin Fmin].
  destruct (plain_reading_finite _ Hmax) as [Cmax Fmax].
  unfold valid_day, convertible. rewrite Cmin, Cmax, Fmin, Fmax.
  destruct (convert_date (date_str d)); [reflexivity | discriminate].
Qed.

(** ** The host primitives on examples *)

(** Texts read as floats and printed back; [round] to one decimal; dates
    read and put in words. *)
Lemma host_examples :
  map (fun s => option_map Py.repr_float (Py.float_of_string s))
      ["0.1"; "1e16"; "9999999999999998"; "0.00001"; "5e-324";
       " 1_0.5e1 "; "0.30000000000000004"; "-0"; "1e400"; "NaN"; "1__0"; "0x10"]
  = [Some "0.1"; Some "1e+16"; Some "9999999999999998.0"; Some "1e-05";
     Some "5e-324"; Some "105.0"; Some "0.30000000000000004"; Some "-0.0";
     Some "inf"; Some "nan"; None; None]
  /\ map (fun s => option_map (fun x => Py.repr_float (Py.round x 1))
                              (Py.float_of_string s))
         ["123456789012345.67"; "-17.77777777777778"; "-0.04"; "2.675"; "0.05";
          "1e300"; "inf"]
     = [Some "123456789012345.7"; Some "-17.8"; Some "-0.0"; Some "2.7";
        Some "0.1"; Some "1e+300"; Some "inf"]
  /\ map convert_date
         ["2021-07-02T07:00:00+08:00"; "2020-02-29"; "2021-02-29"; "2021-7-6";
          "2021-07-06T25:00"; "1999-12-31 23:59:59.123456-05:30"; ""]
     = [Ok "Friday 02 July 2021"; Ok "Saturday 29 February 2020";
        Raise ValueError; Raise ValueError; Raise ValueError;
        Ok "Friday 31 December 1999"; Raise ValueError]
  /\ Py.to_float (PyInt (2 ^ 1024)) = Raise OverflowError.
Proof. repeat split; vm_compute; reflexivity. Qed.

(** ** The reports when a value does not convert *)

Lemma readings_convert_inv (d : day) :
  readings_convert d = true ->
  convert_f_to_c (min_f d) = Ok (celsius (min_f d))
  /\ convert_f_to_c (max_f d) = Ok (celsius (max_f d))
  /\ finite (celsius (min_f d)) = true /\ finite (celsius (max_f d)) = true.
Proof.
  unfold readings_convert, celsius.
  destruct (convert_f_to_c (min_f d)) as [a | e]; [| discriminate].
  destruct (convert_f_to_c (max_f d)) as [b | e]; [| discriminate].
  intros H. apply andb_true_iff in H. tauto.
Qed.

Lemma reading_error_none (d : day) :
  reading_error d = None ->
  convert_f_to_c (min_f d) = Ok (celsius (min_f d))
  /\ convert_f_to_c (max_f d) = Ok (celsius (max_f d)).
Proof.
  unfold reading_error, celsius.
  destruct (convert_f_to_c (min_f d)) as [a | e]; [| discriminate].
  destruct (convert_f_to_c (max_f d)) as [b | e]; [| discriminate].
  auto.
Qed.

Lemma summary_step_error (st : summary_state) (d : day) (e : exn) :
  reading_error d = Some e -> summary_step st d = Raise e.
Proof.
  unfold reading_error, summary_step.
  destruct (convert_f_to_c (min_f d)) as [a | e1]; cbn [bind].
  - destruct (convert_f_to_c (max_f d)) as [b | e2]; cbn [bind]; congruence.
  - congruence.
Qed.

Lemma summary_step_ok (st : summary_state) (d : day) :
  reading_error d = None -> exists st', summary_step st d = Ok st'.
Proof.
  intros H. destruct (reading_error_none d H) as [Hmin Hmax].
  unfold summary_step. rewrite Hmin, Hmax. cbn [bind].
  destruct (celsius (min_f d) <? min_temp st)%float;
  destruct (max_temp st <? celsius (max_f d))%float; eexists; reflexivity.
Qed.

Lemma summary_loop_error (good : list day) (bad : day) (rest : list day) (e : exn) :
  forall st,
  (forall d, In d good -> reading_error d = None) ->
  reading_error bad = Some e ->
  summary_loop st (good ++ bad :: rest) = Raise e.
Proof.
  induction good as [| d good IH]; intros st Hg Hb.
  - cbn [app summary_loop]. now rewrite (summary_step_error st bad e Hb).
  - cbn [app summary_loop].
    destruct (summary_step_ok st d) as [st' E]; [apply Hg; now left |].
    rewrite E. cbn [bind]. apply IH; [| exact Hb].
    intros x Hx. apply Hg. now right.
Qed.

Lemma day_error_none (d : day) : day_error d = None <-> convertible d = true.
Proof.
  unfold day_error, convertible, convert_date, reading_error.
  destruct (Py.fromisoformat (date_str d)) as [dt | e]; cbn [bind];
  destruct (convert_f_to_c (min_f d)) as [a | e1];
  destruct (convert_f_to_c (max_f d)) as [b | e2];
  split; congruence.
Qed.

Lemma daily_block_error (n i : Z) (d : day) (e : exn) :
  day_error d = Some e -> daily_block n i d = Raise e.
Proof.
  unfold day_error, reading_error, daily_block.
  destruct (Py.fromisoformat (date_str d)) as [dt | e0]; cbn [bind]; [| congruence].
  destruct (convert_f_to_c (min_f d)) as [a | e1]; cbn [bind]; [| congruence].
  destruct (convert_f_to_c (max_f d)) as [b | e2]; cbn [bind]; congruence.
Qed.

Lemma daily_loop_error (n : Z) (good : list day) (bad : day) (rest : list day)
  (e : exn) :
  forall i acc,
  (forall d, In d good -> day_error d = None) ->
  day_error bad = Some e ->
  daily_loop n i (good ++ bad :: rest) acc = Raise e.
Proof.
  induction good as [| d good IH]; intros i acc Hg Hb.
  - cbn [app daily_loop]. now rewrite (daily_block_error n i bad e Hb).
  - cbn [app daily_loop].
    rewrite daily_block_ok by (apply day_error_none, Hg; now left).
    cbn [bind]. apply IH; [| exact Hb].
    intros x Hx. apply Hg. now right.
Qed.

(** ** The dates generate_summary reads *)

Lemma summary_loop_readings (days : list day) :
  forall st,
  (forall d, In d days -> reading_error d = None) ->
  summary_loop st days
  = Ok (mkstate
          (fst (scan below (fun d => celsius (min_f d)) date_str (min_temp st, min_day st) days))
          (fst (scan above (fun d => celsius (max_f d)) date_str (max_temp st, max_day st) days))
          (snd (scan below (fun d => celsius (min_f d)) date_str (min_temp st, min_day st) days))
          (snd (scan above (fun d => celsius (max_f d)) date_str (max_temp st, max_day st) days))
          (fold_left (fun a d => (a + celsius (min_f d))%float) days (total_min st))
          (fold_left (fun a d => (a + celsius (max_f d))%float) days (total_max st))).
Proof.
  induction days as [| d days IH]; intros st H.
  - destruct st; reflexivity.
  - destruct (reading_error_none d) as (Hmin & Hmax); [apply H; now left |].
    simpl summary_loop. unfold summary_step. rewrite Hmin, Hmax. simpl bind.
    unfold scan. simpl fold_left. unfold below at 2 4, above at 2 4. simpl fst.
    destruct (celsius (min_f d) <? min_temp st)%float;
    destruct (max_temp st <? celsius (max_f d))%float;
    simpl bind; rewrite IH by (intros x Hx; apply H; now right); reflexivity.
Qed.

Lemma readings_convert_no_error (d : day) :
  readings_convert d = true -> reading_error d = None.
Proof.
  intros H. destruct (readings_convert_inv d H) as (Hmin & Hmax & _).
  unfold reading_error. now rewrite Hmin, Hmax.
Qed.

Lemma generate_summary_readings_spec (days : list day) :
  days <> [] ->
  (forall d, In d days -> readings_convert d = true) ->
  exists before d after before' d' after',
    days = before ++ d :: after
    /\ (forall x, In x before ->
          (celsius (min_f d) <? celsius (min_f x))%float = true)
    /\ (forall x, In x after ->
          (celsius (min_f x) <? celsius (min_f d))%float = false)
    /\ days = before' ++ d' :: after'
    /\ (forall x, In x before' ->
          (celsius (max_f x) <? celsius (max_f d'))%float = true)
    /\ (forall x, In x after' ->
          (celsius (max_f d') <? celsius (max_f x))%float = false)
    /\ generate_summary days
       = match convert_date (date_str d), convert_date (date_str d') with
         | Ok lo_day, Ok hi_day =>
             Ok (summary_text (List.length days)
                   (celsius (min_f d)) lo_day (celsius (max_f d')) hi_day
                   (Py.round (Py.sum (map (fun x => celsius (min_f x)) days)
                              / len_float days) 1)
                   (Py.round (Py.sum (map (fun x => celsius (max_f x)) days)
                              / len_float days) 1))
         | _, _ => Raise ValueError
         end.
Proof.
  intros Hne Hv. unfold generate_summary.
  destruct days as [| d0 rest]; [congruence |]. cbv iota.
  remember (d0 :: rest) as days eqn:Ed.
  assert (H0 : In d0 days) by (rewrite Ed; now left).
  assert (Hc : forall x, In x days -> reading_error x = None)
    by (intros x Hx; apply readings_convert_no_error, Hv, Hx).
  assert (Hlo : forall x, In x days -> finite (celsius (min_f x)) = true)
    by (intros x Hx; apply (readings_convert_inv x (Hv x Hx))).
  assert (Hhi : forall x, In x days -> finite (celsius (max_f x)) = true)
    by (intros x Hx; apply (readings_convert_inv x (Hv x Hx))).
  destruct (scan_first day below fkey (fun x => celsius (min_f x)) date_str
              below_key days (infinity, ""))
    as [[_ Hn] | (before & d & after & Hd & Hs & _ & Hbef & Haft)];
    [reflexivity | intros x Hx; apply finite_not_nan; auto | |].
  { specialize (Hn d0 H0). simpl fst in Hn.
    rewrite finite_below_infinity in Hn by auto. discriminate. }
  destruct (scan_first day above (fun x => - fkey x) (fun x => celsius (max_f x))
              date_str above_key days (neg_infinity, ""))
    as [[_ Hn] | (before' & d' & after' & Hd' & Hs' & _ & Hbef' & Haft')];
    [reflexivity | intros x Hx; apply finite_not_nan; auto | |].
  { specialize (Hn d0 H0). simpl fst in Hn.
    rewrite finite_above_neg_infinity in Hn by auto. discriminate. }
  exists before, d, after, before', d', after'.
  split; [exact Hd |]. split; [exact Hbef |]. split; [exact Haft |].
  split; [exact Hd' |]. split; [exact Hbef' |]. split; [exact Haft' |].
  rewrite summary_loop_readings by exact Hc.
  unfold summary_init.
  cbn [bind min_temp max_temp min_day max_day total_min total_max].
  rewrite Hs, Hs'. cbn [fst snd].
  rewrite (fold_left_map_add (fun x => celsius (min_f x))).
  rewrite (fold_left_map_add (fun x => celsius (max_f x))).
  rewrite !convert_date_parse. unfold Py.fromisoformat.
  destruct (Py.parse_isoformat (date_str d)) as [dt |]; cbn [bind];
    [| reflexivity].
  destruct (Py.parse_isoformat (date_str d')) as [dt' |]; cbn [bind];
    [| reflexivity].
  rewrite !strftime_long_date.
  unfold summary_text, format_temperature, Py.str.
  rewrite !string_app_assoc. reflexivity.
Qed.

(** * The claims *)

(** C1: for a series of valid days with a day, the date generate_summary
    reports for the lowest temperature is the date of the first day whose
    Celsius minimum is the least of the series: every day before it has a
    strictly higher minimum, no day after it a lower one; likewise the date of
    the highest temperature is that of the first day whose Celsius maximum is
    the greatest.  On three days where the least minimum and the greatest
    maximum both occur twice, the report names the earlier day each time,
    find_min and find_max the position of the later one. *)
Theorem generate_summary_first_extremes :
  (forall days, days <> [] -> valid_series days = true ->
     exists before d after before' d' after' avg_lo avg_hi,
       days = before ++ d :: after
       /\ (forall x, In x before ->
             (celsius (min_f d) <? celsius (min_f x))%float = true)
       /\ (forall x, In x after ->
             (celsius (min_f x) <? celsius (min_f d))%float = false)
       /\ days = before' ++ d' :: after'
       /\ (forall x, In x before' ->
             (celsius (max_f x) <? celsius (max_f d'))%float = true)
       /\ (forall x, In x after' ->
             (celsius (max_f d') <? celsius (max_f x))%float = false)
       /\ generate_summary days
          = Ok (summary_text (List.length days)
                  (celsius (min_f d)) (human (date_str d))
                  (celsius (max_f d')) (human (date_str d'))
                  avg_lo avg_hi))
  /\ generate_summary three_days
     = Ok ("3 Day Overview" ++ nl
           ++ "  The lowest temperature will be 9.4°C, and will occur on Friday 02 July 2021." ++ nl
           ++ "  The highest temperature will be 20.0°C, and will occur on Saturday 03 July 2021." ++ nl
           ++ "  The average low this week is 10.9°C." ++ nl
           ++ "  The average high this week is 19.8°C." ++ nl)%string
  /\ find_min (map (fun d => PyFloat (celsius (min_f d))) three_days)
     = Ok (Some (celsius (PyInt 49), 2))
  /\ find_max (map (fun d => PyFloat (celsius (max_f d))) three_days)
     = Ok (Some (celsius (PyInt 68), 2)).
Proof.
  split; [| repeat split; vm_compute; reflexivity].
  intros days Hne Hv.
  destruct (generate_summary_spec days Hne Hv)
    as (before & d & after & before' & d' & after'
        & Hd & Hbef & Haft & Hd' & Hbef' & Haft' & _ & Htext).
  exists before, d, after, before', d', after'. eauto 10.
Qed.

Lemma generate_summary_first_extremes_witness :
  three_days <> []
  /\ valid_series three_days = true
  /\ exists before d after before' d' after' avg_lo avg_hi,
       three_days = before ++ d :: after
       /\ (forall x, In x before ->
             (celsius (min_f d) <? celsius (min_f x))%float = true)
       /\ (forall x, In x after ->
             (celsius (min_f x) <? celsius (min_f d))%float = false)
       /\ three_days = before' ++ d' :: after'
       /\ (forall x, In x before' ->
             (celsius (max_f x) <? celsius (max_f d'))%float = true)
       /\ (forall x, In x after' ->
             (celsius (max_f d') <? celsius (max_f x))%float = false)
       /\ generate_summary three_days
          = Ok (summary_text (List.length three_days)
                  (celsius (min_f d)) (human (date_str d))
                  (celsius (max_f d')) (human (date_str d'))
                  avg_lo avg_hi).
Proof.
  split; [discriminate |]. split; [vm_compute; reflexivity |].
  apply (proj1 generate_summary_first_extremes);
    [discriminate | vm_compute; reflexivity].
Defined.

(** C2: on a list of numbers with an element, find_min returns the least value
    as a float and the 0-based position of its last occurrence: the list of
    floats is [before ++ y :: after] with [y] equal to the value returned, no
    element below it and every element of [after] strictly above it, and the
    position returned is the length of [before]; find_max likewise with the
    greatest value.  On the empty list both return the empty result.
    find_min([1,2,1,3]) is (1.0, 2) and find_max([3,1,3,2]) is (3.0, 2). *)
Theorem find_min_find_max_last_occurrence :
  (forall l : list pyval,
     l <> [] -> forallb is_number l = true ->
     exists value before y after,
       find_min l = Ok (Some (value, Z.of_nat (List.length before)))
       /\ map number l = before ++ y :: after
       /\ (y =? value)%float = true
       /\ In value (map number l)
       /\ (forall z, In z (map number l) -> (z <? value)%float = false)
       /\ (forall z, In z after -> (value <? z)%float = true))
  /\ (forall l : list pyval,
        l <> [] -> forallb is_number l = true ->
        exists value before y after,
          find_max l = Ok (Some (value, Z.of_nat (List.length before)))
          /\ map number l = before ++ y :: after
          /\ (y =? value)%float = true
          /\ In value (map number l)
          /\ (forall z, In z (map number l) -> (value <? z)%float = false)
          /\ (forall z, In z after -> (z <? value)%float = true))
  /\ find_min [] = Ok None
  /\ find_max [] = Ok None
  /\ find_min [PyInt 1; PyInt 2; PyInt 1; PyInt 3] = Ok (Some (1%float, 2))
  /\ find_max [PyInt 3; PyInt 1; PyInt 3; PyInt 2] = Ok (Some (3%float, 2)).
Proof.
  split; [| split; [| repeat split; vm_compute; reflexivity]].
  - intros l Hne Hn. rewrite find_min_find_last.
    destruct (find_last_spec below fkey below_key (fun x y => iff_refl _) l Hne Hn)
      as (x & xs & before & y & after & El & Hf & Hl & Ey & Hin & Hall & Haft).
    exists (pick below x xs), before, y, after. rewrite El. auto 10.
  - intros l Hne Hn. rewrite find_max_find_last.
    assert (K : forall x y : float, - fkey x = - fkey y <-> fkey x = fkey y)
      by (intros; lia).
    destruct (find_last_spec above (fun x => - fkey x) above_key K l Hne Hn)
      as (x & xs & before & y & after & El & Hf & Hl & Ey & Hin & Hall & Haft).
    exists (pick above x xs), before, y, after. rewrite El. auto 10.
Qed.

Lemma find_min_find_max_last_occurrence_witness :
  [PyInt 1; PyInt 2; PyInt 1; PyInt 3] <> []
  /\ forallb is_number [PyInt 1; PyInt 2; PyInt 1; PyInt 3] = true
  /\ exists value before y after,
       find_min [PyInt 1; PyInt 2; PyInt 1; PyInt 3]
       = Ok (Some (value, Z.of_nat (List.length before)))
       /\ map number [PyInt 1; PyInt 2; PyInt 1; PyInt 3] = before ++ y :: after
       /\ (y =? value)%float = true
       /\ In value (map number [PyInt 1; PyInt 2; PyInt 1; PyInt 3])
       /\ (forall z, In z (map number [PyInt 1; PyInt 2; PyInt 1; PyInt 3]) ->
             (z <? value)%float = false)
       /\ (forall z, In z after -> (value <? z)%float = true).
Proof.
  split; [discriminate |]. split; [vm_compute; reflexivity |].
  apply (proj1 find_min_find_max_last_occurrence);
    [discriminate | vm_compute; reflexivity].
Defined.

(** C3: for a series with a day, whose dates and readings convert,
    generate_daily_summary returns "<N> Day Overview", a blank line, and one
    block per day in order, the blocks one blank line apart: "---- <date in
    words> ----", "  Minimum Temperature: <min>°C", "  Maximum Temperature:
    <max>°C", with the Celsius values rounded to one decimal; the last block,
    and no other, ends with one hyphen, put right after its text.  For the one
    day ("2021-07-06", 32, 68) the text is "1 Day Overview", a blank line,
    "---- Tuesday 06 July 2021 ----", "  Minimum Temperature: 0.0°C" and
    "  Maximum Temperature: 20.0°C-". *)
Theorem generate_daily_summary_blocks :
  (forall days, days <> [] -> forallb convertible days = true ->
     exists init last_day,
       days = init ++ [last_day]
       /\ generate_daily_summary days
          = Ok (Py.str_int (Z.of_nat (List.length days)) ++ " Day Overview"
                ++ nl ++ nl
                ++ Py.join (nl ++ nl)
                     (map block_text init ++ [block_text last_day ++ "-"]))%string)
  /\ (forall d,
        block_text d
        = ("---- " ++ human (date_str d) ++ " ----" ++ nl
           ++ "  Minimum Temperature: "
           ++ Py.repr_float (Py.round (celsius (min_f d)) 1) ++ "°C" ++ nl
           ++ "  Maximum Temperature: "
           ++ Py.repr_float (Py.round (celsius (max_f d)) 1) ++ "°C")%string)
  /\ generate_daily_summary [mkday "2021-07-06" (PyInt 32) (PyInt 68)]
     = Ok ("1 Day Overview" ++ nl ++ nl
           ++ "---- Tuesday 06 July 2021 ----" ++ nl
           ++ "  Minimum Temperature: 0.0°C" ++ nl
           ++ "  Maximum Temperature: 20.0°C-")%string.
Proof.
  split; [| split; [reflexivity | vm_compute; reflexivity]].
  intros days Hne Hc.
  destruct (exists_last Hne) as (init & last_day & E).
  exists init, last_day. split; [exact E |].
  rewrite (generate_daily_summary_spec days Hne Hc).
  subst days. rewrite map_app. cbn [map]. now rewrite hyphen_last_snoc.
Qed.

Lemma generate_daily_summary_blocks_witness :
  three_days <> []
  /\ forallb convertible three_days = true
  /\ exists init last_day,
       three_days = init ++ [last_day]
       /\ generate_daily_summary three_days
          = Ok (Py.str_int (Z.of_nat (List.length three_days)) ++ " Day Overview"
                ++ nl ++ nl
                ++ Py.join (nl ++ nl)
                     (map block_text init ++ [block_text last_day ++ "-"]))%string.
Proof.
  split; [discriminate |]. split; [vm_compute; reflexivity |].
  apply (proj1 generate_daily_summary_blocks);
    [discriminate | vm_compute; reflexivity].
Defined.

(** C4: for a series of valid days with a day, the average low that
    generate_summary reports is [round(S / N, 1)], where [S] is the sum, from
    the left, of the Celsius minima of the days, each of them already rounded
    to one decimal by the conversion, and [N] is the number of days; likewise
    the average high.  On two days with minima 30 and 31 the average low
    reported is -0.9, where rounding once, after the sum, would give -0.8. *)
Theorem generate_summary_averages :
  (forall days, days <> [] -> valid_series days = true ->
     (exists lo lo_day hi hi_day,
        generate_summary days
        = Ok (summary_text (List.length days) lo lo_day hi hi_day
                (Py.round
                   (fold_left (fun a c => (a + c)%float)
                      (map (fun d => celsius (min_f d)) days) 0%float
                    / Py.float_of_Z (Z.of_nat (List.length days))) 1)
                (Py.round
                   (fold_left (fun a c => (a + c)%float)
                      (map (fun d => celsius (max_f d)) days) 0%float
                    / Py.float_of_Z (Z.of_nat (List.length days))) 1)))
     /\ (forall d, In d days ->
           exists x y,
             Py.to_float (min_f d) = Ok x
             /\ celsius (min_f d) = Py.round ((x - 32) * 5 / 9) 1
             /\ Py.to_float (max_f d) = Ok y
             /\ celsius (max_f d) = Py.round ((y - 32) * 5 / 9) 1))
  /\ generate_summary two_days
     = Ok ("2 Day Overview" ++ nl
           ++ "  The lowest temperature will be -1.1°C, and will occur on Monday 05 July 2021." ++ nl
           ++ "  The highest temperature will be 15.6°C, and will occur on Tuesday 06 July 2021." ++ nl
           ++ "  The average low this week is -0.9°C." ++ nl
           ++ "  The average high this week is 12.8°C." ++ nl)%string
  /\ Py.repr_float
       (Py.round ((0 + (30 - 32) * 5 / 9 + (31 - 32) * 5 / 9) / 2) 1)%float
     = "-0.8".
Proof.
  split; [| split; vm_compute; reflexivity].
  intros days Hne Hv. split.
  - destruct (generate_summary_spec days Hne Hv)
      as (before & d & after & before' & d' & after'
          & _ & _ & _ & _ & _ & _ & _ & Htext).
    exists (celsius (min_f d)), (human (date_str d)),
           (celsius (max_f d')), (human (date_str d')).
    exact Htext.
  - intros d Hd. apply convertible_rounded.
    unfold valid_series in Hv. rewrite forallb_forall in Hv.
    apply (valid_day_inv d (Hv d Hd)).
Qed.

Lemma generate_summary_averages_witness :
  two_days <> []
  /\ valid_series two_days = true
  /\ exists lo lo_day hi hi_day,
       generate_summary two_days
       = Ok (summary_text (List.length two_days) lo lo_day hi hi_day
               (Py.round
                  (fold_left (fun a c => (a + c)%float)
                     (map (fun d => celsius (min_f d)) two_days) 0%float
                   / Py.float_of_Z (Z.of_nat (List.length two_days))) 1)
               (Py.round
                  (fold_left (fun a c => (a + c)%float)
                     (map (fun d => celsius (max_f d)) two_days) 0%float
                   / Py.float_of_Z (Z.of_nat (List.length two_days))) 1)).
Proof.
  split; [discriminate |]. split; [vm_compute; reflexivity |].
  apply (proj1 generate_summary_averages);
    [discriminate | vm_compute; reflexivity].
Defined.

(** C5 (corrected): for a series with a day whose readings convert to finite
    temperatures, generate_summary returns five lines, each ended by a
    newline: "<N> Day Overview" with N the number of days; the lowest
    temperature, which no day undercuts, and the date of its day; the highest
    temperature, which no day exceeds, and the date of its day; the average
    low and the average high, each the sum of the temperatures divided by the
    number of days and rounded to one decimal.  Every temperature is followed
    by "°C", and the two dates are in words, as convert_date returns them:
    day of the week, day of the month on two digits, month, and the year in
    decimal notation, on four digits from the year 1000 on and on fewer
    before.  A ValueError is raised instead when one of the two dates does
    not read as a date, and when a reading does not convert, what its
    conversion raises is raised. *)
Theorem generate_summary_five_lines :
  (forall days, days <> [] ->
   (forall d, In d days -> readings_convert d = true) ->
   exists d_lo d_hi,
     In d_lo days /\ In d_hi days
     /\ (forall x, In x days ->
           (celsius (min_f x) <? celsius (min_f d_lo))%float = false)
     /\ (forall x, In x days ->
           (celsius (max_f d_hi) <? celsius (max_f x))%float = false)
     /\ generate_summary days
        = match convert_date (date_str d_lo), convert_date (date_str d_hi) with
          | Ok lo_day, Ok hi_day =>
              Ok (Py.str_int (Z.of_nat (List.length days)) ++ " Day Overview" ++ nl
                  ++ "  The lowest temperature will be "
                  ++ Py.repr_float (celsius (min_f d_lo)) ++ "°C"
                  ++ ", and will occur on " ++ lo_day ++ "." ++ nl
                  ++ "  The highest temperature will be "
                  ++ Py.repr_float (celsius (max_f d_hi)) ++ "°C"
                  ++ ", and will occur on " ++ hi_day ++ "." ++ nl
                  ++ "  The average low this week is "
                  ++ Py.repr_float
                       (Py.round (Py.sum (map (fun x => celsius (min_f x)) days)
                                  / len_float days) 1)
                  ++ "°C" ++ "." ++ nl
                  ++ "  The average high this week is "
                  ++ Py.repr_float
                       (Py.round (Py.sum (map (fun x => celsius (max_f x)) days)
                                  / len_float days) 1)
                  ++ "°C" ++ "." ++ nl)%string
          | _, _ => Raise ValueError
          end)
  /\ (forall s t, convert_date s = Ok t ->
        exists y m d,
          calendar_day y m d
          /\ t = date_in_words (Py.weekday (Py.mkdate y m d)) y m d
          /\ 0 <= Py.weekday (Py.mkdate y m d) < 7
          /\ (1000 <= y -> Py.str_int y = four_digits y)
          /\ (y < 1000 -> (String.length (Py.str_int y) < 4)%nat))
  /\ (forall good bad rest e,
        (forall d, In d good -> reading_error d = None) ->
        reading_error bad = Some e ->
        generate_summary (good ++ bad :: rest) = Raise e).
Proof.
  split; [| split].
  - intros days Hne Hv.
    destruct (generate_summary_readings_spec days Hne Hv)
      as (before & d & after & before' & d' & after'
          & Hd & Hbef & Haft & Hd' & Hbef' & Haft' & Htext).
    assert (Hlo : forall x, In x days -> not_nan (celsius (min_f x)) = true)
      by (intros x Hx; apply finite_not_nan, (readings_convert_inv x (Hv x Hx))).
    assert (Hhi : forall x, In x days -> not_nan (celsius (max_f x)) = true)
      by (intros x Hx; apply finite_not_nan, (readings_convert_inv x (Hv x Hx))).
    exists d, d'.
    split; [rewrite Hd; apply in_elt |]. split; [rewrite Hd'; apply in_elt |].
    split; [exact (cut_none_better below fkey (fun x => celsius (min_f x))
                     below_key days before after d Hd Hlo Hbef Haft) |].
    split; [exact (cut_none_better above (fun x => - fkey x)
                     (fun x => celsius (max_f x))
                     above_key days before' after' d' Hd' Hhi Hbef' Haft') |].
    exact Htext.
  - intros s t H.
    destruct (convert_date_calendar s t H) as (y & m & d & C & E).
    exists y, m, d. split; [exact C |]. split; [exact E |].
    split; [apply weekday_range |].
    destruct C as (Hy & _). split.
    + intros Y. apply four_digits_year. lia.
    + intros Y. apply early_year_short. lia.
  - intros good bad rest e Hg Hb. unfold generate_summary.
    destruct (good ++ bad :: rest) as [| d0 l] eqn:E.
    + now destruct good.
    + rewrite <- E. now rewrite (summary_loop_error good bad rest e _ Hg Hb).
Qed.

Lemma generate_summary_five_lines_witness :
  three_days <> []
  /\ (forall d, In d three_days -> readings_convert d = true)
  /\ exists d_lo d_hi,
       In d_lo three_days /\ In d_hi three_days
       /\ (forall x, In x three_days ->
             (celsius (min_f x) <? celsius (min_f d_lo))%float = false)
       /\ (forall x, In x three_days ->
             (celsius (max_f d_hi) <? celsius (max_f x))%float = false)
       /\ generate_summary three_days
          = match convert_date (date_str d_lo), convert_date (date_str d_hi) with
            | Ok lo_day, Ok hi_day =>
                Ok (Py.str_int (Z.of_nat (List.length three_days))
                    ++ " Day Overview" ++ nl
                    ++ "  The lowest temperature will be "
                    ++ Py.repr_float (celsius (min_f d_lo)) ++ "°C"
                    ++ ", and will occur on " ++ lo_day ++ "." ++ nl
                    ++ "  The highest temperature will be "
                    ++ Py.repr_float (celsius (max_f d_hi)) ++ "°C"
                    ++ ", and will occur on " ++ hi_day ++ "." ++ nl
                    ++ "  The average low this week is "
                    ++ Py.repr_float
                         (Py.round
                            (Py.sum (map (fun x => celsius (min_f x)) three_days)
                             / len_float three_days) 1)
                    ++ "°C" ++ "." ++ nl
                    ++ "  The average high this week is "
                    ++ Py.repr_float
                         (Py.round
                            (Py.sum (map (fun x => celsius (max_f x)) three_days)
                             / len_float three_days) 1)
                    ++ "°C" ++ "." ++ nl)%string
            | _, _ => Raise ValueError
            end.
Proof.
  assert (H : forall d, In d three_days -> readings_convert d = true)
    by (intros d [<- | [<- | [<- | []]]]; vm_compute; reflexivity).
  split; [discriminate |]. split; [exact H |].
  apply (proj1 generate_summary_five_lines); [discriminate | exact H].
Defined.

(** A series of valid days whose report has a year on three digits. *)
Lemma generate_summary_five_lines_counterexample :
  valid_series year_999 = true
  /\ generate_summary year_999
     = Ok ("1 Day Overview" ++ nl
           ++ "  The lowest temperature will be 0.0°C, and will occur on Tuesday 31 December 999."
           ++ nl
           ++ "  The highest temperature will be 20.0°C, and will occur on Tuesday 31 December 999."
           ++ nl
           ++ "  The average low this week is 0.0°C." ++ nl
           ++ "  The average high this week is 20.0°C." ++ nl)%string
  /\ human "0999-12-31" <> "Tuesday 31 December 0999".
Proof.
  split; [vm_compute; reflexivity |].
  split; [vm_compute; reflexivity | vm_compute; discriminate].
Qed.

(** C6: on empty input the mean and the two reports return one and the same
    fixed text, "No daily weather data available.", and raise nothing. *)
Theorem empty_input_no_data :
  calculate_mean [] = Ok (PyStr "No daily weather data available.")
  /\ generate_summary [] = Ok "No daily weather data available."
  /\ generate_daily_summary [] = Ok "No daily weather data available.".
Proof. repeat split. Qed.

(** C7: convert_f_to_c takes the float of its argument, computes
    [(x - 32) * 5 / 9] and rounds it to one decimal with the rounding of
    [round]: to the nearest tenth, to the even tenth half way between two
    (0.25 gives 0.2 and 0.75 gives 0.8); what [float] raises on an argument
    that is not a number it raises too, a ValueError for a text.  On the
    integers from -1000 to 1000 the result is the float nearest to the exact
    value rounded to tenths.  convert_f_to_c(32) is 0.0 and
    convert_f_to_c(212) is 100.0. *)
Theorem convert_f_to_c_rounds_to_one_decimal :
  (forall v x, Py.to_float v = Ok x ->
     convert_f_to_c v = Ok (Py.round ((x - 32) * 5 / 9) 1))
  /\ (forall v e, Py.to_float v = Raise e -> convert_f_to_c v = Raise e)
  /\ (forall s, Py.float_of_string s = None ->
        convert_f_to_c (PyStr s) = Raise ValueError)
  /\ (forall x s m e, Prim2SF x = S754_finite s m e ->
        exists t,
          Py.round x 1 = SF2Prim (Py.SF_of_decimal s t (-1))
          /\ 2 * Z.abs (Zpos m * 2 ^ Z.max e 0 * 10 - 2 ^ Z.max (- e) 0 * t)
             <= 2 ^ Z.max (- e) 0
          /\ (2 * Z.abs (Zpos m * 2 ^ Z.max e 0 * 10 - 2 ^ Z.max (- e) 0 * t)
              = 2 ^ Z.max (- e) 0 -> Z.even t = true))
  /\ (forall f, -1000 <= f <= 1000 ->
        convert_f_to_c (PyInt f) = Ok (decimal1 (celsius_tenths f)))
  /\ convert_f_to_c (PyInt 32) = Ok 0%float
  /\ convert_f_to_c (PyInt 212) = Ok 100%float
  /\ convert_f_to_c (PyStr "32") = Ok 0%float
  /\ convert_f_to_c (PyStr "thirty-two") = Raise ValueError
  /\ Py.repr_float (Py.round 0.25 1) = "0.2"
  /\ Py.repr_float (Py.round 0.75 1) = "0.8".
Proof.
  split; [| split; [| split; [| split; [| split]]]].
  - intros v x H. unfold convert_f_to_c. now rewrite H.
  - intros v e H. unfold convert_f_to_c. now rewrite H.
  - intros s H. unfold convert_f_to_c, Py.to_float. now rewrite H.
  - intros x s m e H. unfold Py.round. rewrite H.
    eexists. split; [reflexivity |].
    change (10 ^ 1) with 10.
    assert (P : 0 < 2 ^ Z.max (- e) 0) by (apply Z.pow_pos_nonneg; lia).
    split; [now apply div_half_even_nearest | now apply div_half_even_tie].
  - exact exact_on_range.
  - repeat split; vm_compute; reflexivity.
Qed.

Lemma convert_f_to_c_rounds_to_one_decimal_witness :
  Py.to_float (PyInt 212) = Ok 212%float
  /\ convert_f_to_c (PyInt 212) = Ok (Py.round ((212 - 32) * 5 / 9) 1).
Proof.
  split; [vm_compute; reflexivity |].
  apply (proj1 convert_f_to_c_rounds_to_one_decimal). vm_compute; reflexivity.
Defined.

(** C8: on a list with an element whose elements all convert to floats,
    calculate_mean returns the sum of the floats divided by their number; when
    an element does not convert, the exception of the first such element is
    raised, a ValueError for a text that is not a number.
    calculate_mean([1,2,3]) is 2.0. *)
Theorem calculate_mean_arithmetic_mean :
  (forall l xs, l <> [] -> mapM Py.to_float l = Ok xs ->
     calculate_mean l
     = Ok (PyFloat (Py.sum xs / Py.float_of_Z (Z.of_nat (List.length xs)))))
  /\ (forall pre v post xs e,
        mapM Py.to_float pre = Ok xs -> Py.to_float v = Raise e ->
        calculate_mean (pre ++ v :: post) = Raise e)
  /\ (forall pre s post xs,
        mapM Py.to_float pre = Ok xs -> Py.float_of_string s = None ->
        calculate_mean (pre ++ PyStr s :: post) = Raise ValueError)
  /\ calculate_mean [PyInt 1; PyInt 2; PyInt 3] = Ok (PyFloat 2).
Proof.
  assert (R : forall pre v post xs e,
             mapM Py.to_float pre = Ok xs -> Py.to_float v = Raise e ->
             calculate_mean (pre ++ v :: post) = Raise e).
  { intros pre v post xs e Hp Hv. unfold calculate_mean.
    rewrite (mapM_raise _ pre v post xs e Hp Hv).
    destruct (pre ++ v :: post) eqn:E; [| reflexivity].
    destruct pre; discriminate. }
  split; [| split; [exact R | split]].
  - intros l xs Hne H. unfold calculate_mean.
    destruct l as [| v l]; [congruence |]. rewrite H. reflexivity.
  - intros pre s post xs Hp Hs. apply (R pre (PyStr s) post xs); [exact Hp |].
    unfold Py.to_float. now rewrite Hs.
  - vm_compute. reflexivity.
Qed.

Lemma calculate_mean_arithmetic_mean_witness :
  [PyStr "51"; PyInt 58; PyFloat 59] <> []
  /\ mapM Py.to_float [PyStr "51"; PyInt 58; PyFloat 59] = Ok [51; 58; 59]%float
  /\ calculate_mean [PyStr "51"; PyInt 58; PyFloat 59]
     = Ok (PyFloat (Py.sum [51; 58; 59]%float
                    / Py.float_of_Z (Z.of_nat (List.length [51; 58; 59]%float)))).
Proof.
  split; [discriminate |]. split; [vm_compute; reflexivity |].
  apply (proj1 calculate_mean_arithmetic_mean);
    [discriminate | vm_compute; reflexivity].
Defined.

(** C9 (corrected): convert_date renders the day [y]-[m]-[d] of the calendar,
    written YYYY-MM-DD, as the name of its day of the week, the day of the
    month on two digits, the name of the month and the year in decimal
    notation, which has four digits from the year 1000 on and fewer before;
    every text that convert_date renders is rendered as such a day.  The day
    of the week is the one that counts on from Tuesday 2021-07-06, day by
    day, across the ends of months and years.  A text YYYY-MM-DD of digits is
    rendered exactly when it is a day of the calendar, and raises a
    ValueError when it is not; convert_date raises nothing but a ValueError,
    and raises it on every text of fewer than seven characters.  In
    particular convert_date("2021-07-06") is "Tuesday 06 July 2021"; week
    dates, dates without hyphens and dates followed by a time are read as
    well. *)
Theorem convert_date_long_date :
  (forall y m d, calendar_day y m d ->
     convert_date (iso_date y m d)
     = Ok (date_in_words (Py.weekday (Py.mkdate y m d)) y m d)
     /\ 0 <= Py.weekday (Py.mkdate y m d) < 7)
  /\ (forall s t, convert_date s = Ok t ->
        exists y m d,
          calendar_day y m d
          /\ t = date_in_words (Py.weekday (Py.mkdate y m d)) y m d)
  /\ (forall y m d, 0 <= y <= 9999 -> 0 <= m <= 99 -> 0 <= d <= 99 ->
        iso_date y m d
        = (four_digits y ++ "-" ++ two_digits m ++ "-" ++ two_digits d)%string)
  /\ (forall y, 1000 <= y <= 9999 -> Py.str_int y = four_digits y)
  /\ (forall y, 0 <= y < 1000 -> (String.length (Py.str_int y) < 4)%nat)
  /\ Py.weekday (Py.mkdate 2021 7 6) = 1
  /\ (forall y m d, calendar_day y m d -> calendar_day y m (d + 1) ->
        Py.weekday (Py.mkdate y m (d + 1))
        = (Py.weekday (Py.mkdate y m d) + 1) mod 7)
  /\ (forall y m d, calendar_day y m d -> ~ calendar_day y m (d + 1) -> m < 12 ->
        Py.weekday (Py.mkdate y (m + 1) 1)
        = (Py.weekday (Py.mkdate y m d) + 1) mod 7)
  /\ (forall y, 1 <= y < 9999 ->
        Py.weekday (Py.mkdate (y + 1) 1 1)
        = (Py.weekday (Py.mkdate y 12 31) + 1) mod 7)
  /\ (forall y m d, 0 <= y <= 9999 -> 0 <= m <= 99 -> 0 <= d <= 99 ->
        ((exists t, convert_date (iso_date y m d) = Ok t) <-> calendar_day y m d)
        /\ (~ calendar_day y m d -> convert_date (iso_date y m d) = Raise ValueError))
  /\ (forall s e, convert_date s = Raise e -> e = ValueError)
  /\ (forall s, (String.length s < 7)%nat -> convert_date s = Raise ValueError)
  /\ convert_date "2021-07-06" = Ok "Tuesday 06 July 2021"
  /\ convert_date "2021-07-02T07:00:00+08:00" = Ok "Friday 02 July 2021"
  /\ convert_date "2021-07-06T10:00:00Z" = Ok "Tuesday 06 July 2021"
  /\ convert_date "2021-W27-2" = Ok "Tuesday 06 July 2021"
  /\ convert_date "20210706" = Ok "Tuesday 06 July 2021"
  /\ convert_date "2021-02-29" = Raise ValueError
  /\ convert_date "2021-7-6" = Raise ValueError.
Proof.
  split.
  { intros y m d C. split; [| apply weekday_range].
    pose proof (proj1 (calendar_day_valid y m d) C) as V.
    rewrite convert_date_parse, parse_iso_date by exact V.
    f_equal. apply long_date_in_words.
    destruct (valid_date_bounds y m d V). lia. }
  split; [exact convert_date_calendar |].
  split.
  { intros y m d Hy Hm Hd. unfold iso_date.
    now rewrite four_digits_pad, !two_digits_pad by assumption. }
  split; [exact four_digits_year |].
  split; [exact early_year_short |].
  split; [vm_compute; reflexivity |].
  split.
  { intros y m d _ _. apply weekday_next. unfold Py.toordinal.
    cbn [Py.year Py.month Py.day]. lia. }
  split.
  { intros y m d C N Hm. apply weekday_next. unfold Py.toordinal.
    cbn [Py.year Py.month Py.day].
    rewrite (last_day_of_month y m d C N).
    rewrite days_before_next_month; [lia |].
    destruct C as (_ & ? & _). lia. }
  split.
  { intros y Hy. apply weekday_next. unfold Py.toordinal.
    cbn [Py.year Py.month Py.day].
    rewrite days_before_next_year by lia.
    change (Py.days_before_month (y + 1) 1) with 0. lia. }
  split.
  { intros y m d Hy Hm Hd.
    destruct (parse_iso_date_rest y m d "" Hy Hm Hd) as (ok & E & E0).
    rewrite string_app_empty_r in E. rewrite (E0 eq_refl) in E. cbn [andb] in E.
    rewrite convert_date_parse, E, calendar_day_valid.
    destruct (Py.valid_date y m d); split.
    - split; [reflexivity | intros _; eexists; reflexivity].
    - intros N. now contradiction N.
    - split; [intros [t H]; discriminate | discriminate].
    - reflexivity. }
  split; [exact convert_date_raises |].
  split.
  { intros s L. now rewrite convert_date_parse, short_text_unread. }
  repeat split; vm_compute; reflexivity.
Qed.

Lemma convert_date_long_date_witness :
  calendar_day 2024 2 29
  /\ convert_date (iso_date 2024 2 29)
     = Ok (date_in_words (Py.weekday (Py.mkdate 2024 2 29)) 2024 2 29)
  /\ 0 <= Py.weekday (Py.mkdate 2024 2 29) < 7.
Proof.
  assert (C : calendar_day 2024 2 29)
    by (apply calendar_day_valid; vm_compute; reflexivity).
  split; [exact C |].
  exact (proj1 convert_date_long_date 2024 2 29 C).
Defined.

(** The year of a day before the year 1000 is not written on four digits. *)
Lemma convert_date_long_date_counterexample :
  convert_date "0001-01-01" = Ok "Monday 01 January 1"
  /\ convert_date "0001-01-01" <> Ok "Monday 01 January 0001".
Proof. split; [vm_compute; reflexivity | vm_compute; discriminate]. Qed.

(** C10: for a series of valid days with a day, the lowest temperature in
    the report of generate_summary is the value find_min returns on the list
    of the Celsius minima of the days, and the highest temperature the value
    find_max returns on the list of the Celsius maxima.  The position
    find_min (find_max) returns is never before the day of the report, and is
    that day when the value does not occur again after it. *)
Theorem generate_summary_agrees_with_find_min_find_max :
  forall days, days <> [] -> valid_series days = true ->
  exists before d after before' d' after' k_lo k_hi avg_lo avg_hi,
    days = before ++ d :: after
    /\ days = before' ++ d' :: after'
    /\ generate_summary days
       = Ok (summary_text (List.length days)
               (celsius (min_f d)) (human (date_str d))
               (celsius (max_f d')) (human (date_str d'))
               avg_lo avg_hi)
    /\ find_min (map (fun x => PyFloat (celsius (min_f x))) days)
       = Ok (Some (celsius (min_f d), k_lo))
    /\ find_max (map (fun x => PyFloat (celsius (max_f x))) days)
       = Ok (Some (celsius (max_f d'), k_hi))
    /\ Z.of_nat (List.length before) <= k_lo
    /\ Z.of_nat (List.length before') <= k_hi
    /\ ((forall x, In x after ->
           (celsius (min_f x) =? celsius (min_f d))%float = false) ->
        k_lo = Z.of_nat (List.length before))
    /\ ((forall x, In x after' ->
           (celsius (max_f x) =? celsius (max_f d'))%float = false) ->
        k_hi = Z.of_nat (List.length before')).
Proof.
  intros days Hne Hv.
  destruct (generate_summary_spec days Hne Hv)
    as (before & d & after & before' & d' & after'
        & Hd & Hbef & _ & Hd' & Hbef' & _ & Hloop & Htext).
  unfold valid_series in Hv. rewrite forallb_forall in Hv.
  assert (Hc : forall x, In x days -> convertible x = true)
    by (intros x Hx; apply (valid_day_inv x (Hv x Hx))).
  assert (Hlo : forall x, In x days -> finite (celsius (min_f x)) = true)
    by (intros x Hx; apply (valid_day_inv x (Hv x Hx))).
  assert (Hhi : forall x, In x days -> finite (celsius (max_f x)) = true)
    by (intros x Hx; apply (valid_day_inv x (Hv x Hx))).
  pose proof (summary_loop_scan days summary_init Hc) as Hscan.
  rewrite Hloop in Hscan. injection Hscan as E1 E2 _ _ _ _.
  cbn [summary_init min_temp max_temp min_day max_day] in E1, E2.
  assert (K : forall x y : float, - fkey x = - fkey y <-> fkey x = fkey y)
    by (intros; lia).
  destruct (agreement below fkey (fun x => celsius (min_f x)) infinity
              below_key (fun x y => iff_refl _) days before after d Hd)
    as (k_lo & Hfmin & Hle & Heq); auto using finite_not_nan, finite_below_infinity.
  destruct (agreement above (fun x => - fkey x) (fun x => celsius (max_f x))
              neg_infinity above_key K days before' after' d' Hd')
    as (k_hi & Hfmax & Hle' & Heq');
    auto using finite_not_nan, finite_above_neg_infinity.
  exists before, d, after, before', d', after', k_lo, k_hi. do 2 eexists.
  rewrite find_min_find_last, find_max_find_last.
  split; [exact Hd |]. split; [exact Hd' |]. split; [exact Htext |].
  split; [exact Hfmin |]. split; [exact Hfmax |].
  split; [exact Hle |]. split; [exact Hle' |]. split; [exact Heq | exact Heq'].
Qed.

Lemma generate_summary_agrees_with_find_min_find_max_witness :
  three_days <> []
  /\ valid_series three_days = true
  /\ exists before d after before' d' after' k_lo k_hi avg_lo avg_hi,
       three_days = before ++ d :: after
       /\ three_days = before' ++ d' :: after'
       /\ generate_summary three_days
          = Ok (summary_text (List.length three_days)
                  (celsius (min_f d)) (human (date_str d))
                  (celsius (max_f d')) (human (date_str d'))
                  avg_lo avg_hi)
       /\ find_min (map (fun x => PyFloat (celsius (min_f x))) three_days)
          = Ok (Some (celsius (min_f d), k_lo))
       /\ find_max (map (fun x => PyFloat (celsius (max_f x))) three_days)
          = Ok (Some (celsius (max_f d'), k_hi))
       /\ Z.of_nat (List.length before) <= k_lo
       /\ Z.of_nat (List.length before') <= k_hi
       /\ ((forall x, In x after ->
              (celsius (min_f x) =? celsius (min_f d))%float = false) ->
           k_lo = Z.of_nat (List.length before))
       /\ ((forall x, In x after' ->
              (celsius (max_f x) =? celsius (max_f d'))%float = false) ->
           k_hi = Z.of_nat (List.length before')).
Proof.
  split; [discriminate |]. split; [vm_compute; reflexivity |].
  apply generate_summary_agrees_with_find_min_find_max;
    [discriminate | vm_compute; reflexivity].
Defined.

(** * Further properties *)

(** X1: generate_summary raises what the conversion of the first reading
    that does not convert raises, the minimum of a day being converted before
    its maximum, whatever comes after that day and whatever the dates are: no
    date is read before every reading has been converted. *)
Theorem generate_summary_first_bad_reading :
  forall good bad rest e,
  (forall d, In d good -> reading_error d = None) ->
  reading_error bad = Some e ->
  generate_summary (good ++ bad :: rest) = Raise e.
Proof.
  intros good bad rest e Hg Hb. unfold generate_summary.
  destruct (good ++ bad :: rest) as [| d0 l] eqn:E.
  - now destruct good.
  - rewrite <- E. now rewrite (summary_loop_error good bad rest e _ Hg Hb).
Qed.

Lemma generate_summary_first_bad_reading_witness :
  generate_summary
    ([mkday "no date" (PyInt 50) (PyInt 60)]
     ++ mkday "2021-07-03" (PyInt 50) (PyStr "warm")
     :: [mkday "2021-07-04" (PyStr "cold") (PyInt 60)])
  = Raise ValueError.
Proof.
  apply generate_summary_first_bad_reading.
  - intros d [<- | []]. vm_compute. reflexivity.
  - vm_compute. reflexivity.
Defined.

(** X2: generate_daily_summary raises what the first day that does not
    convert raises: a ValueError when its date does not read, else what the
    conversion of its minimum raises, else what that of its maximum raises;
    the days after it are not looked at. *)
Theorem generate_daily_summary_first_bad_day :
  forall good bad rest e,
  (forall d, In d good -> convertible d = true) ->
  day_error bad = Some e ->
  generate_daily_summary (good ++ bad :: rest) = Raise e
  /\ (Py.parse_isoformat (date_str bad) = None -> e = ValueError)
  /\ (forall dt e', Py.parse_isoformat (date_str bad) = Some dt ->
        convert_f_to_c (min_f bad) = Raise e' -> e = e')
  /\ (forall dt c e', Py.parse_isoformat (date_str bad) = Some dt ->
        convert_f_to_c (min_f bad) = Ok c ->
        convert_f_to_c (max_f bad) = Raise e' -> e = e').
Proof.
  intros good bad rest e Hg Hb. split.
  - unfold generate_daily_summary.
    destruct (good ++ bad :: rest) as [| d0 l] eqn:E.
    + now destruct good.
    + rewrite <- E. rewrite (daily_loop_error _ good bad rest e); [reflexivity | | exact Hb].
      intros d Hd. apply day_error_none, Hg, Hd.
  - unfold day_error, reading_error, Py.fromisoformat in Hb.
    repeat split.
    + intros P. rewrite P in Hb. congruence.
    + intros dt e' P M. rewrite P, M in Hb. congruence.
    + intros dt c e' P M M'. rewrite P, M, M' in Hb. congruence.
Qed.

Lemma generate_daily_summary_first_bad_day_witness :
  generate_daily_summary
    ([mkday "2021-07-02" (PyInt 50) (PyInt 60)]
     ++ mkday "tomorrow" (PyStr "cold") (PyInt 60)
     :: [mkday "2021-07-04" (PyInt 50) (PyInt 60)])
  = Raise ValueError.
Proof.
  refine (proj1 (generate_daily_summary_first_bad_day _ _ _ _ _ _)).
  - intros d [<- | []]. vm_compute. reflexivity.
  - vm_compute. reflexivity.
Defined.

(** X3: of the dates of a series generate_summary reads two only, after the
    loop: that of the first day with the lowest minimum and that of the first
    day with the highest maximum.  When the readings of every day convert to
    finite temperatures, the report is returned if these two dates read as
    dates, whatever the dates of the other days are, and a ValueError is
    raised if one of the two does not. *)
Theorem generate_summary_reads_two_dates :
  forall days, days <> [] ->
  (forall d, In d days -> readings_convert d = true) ->
  exists before d after before' d' after' avg_lo avg_hi,
    days = before ++ d :: after
    /\ (forall x, In x before ->
          (celsius (min_f d) <? celsius (min_f x))%float = true)
    /\ (forall x, In x after ->
          (celsius (min_f x) <? celsius (min_f d))%float = false)
    /\ days = before' ++ d' :: after'
    /\ (forall x, In x before' ->
          (celsius (max_f x) <? celsius (max_f d'))%float = true)
    /\ (forall x, In x after' ->
          (celsius (max_f d') <? celsius (max_f x))%float = false)
    /\ generate_summary days
       = match convert_date (date_str d), convert_date (date_str d') with
         | Ok lo_day, Ok hi_day =>
             Ok (summary_text (List.length days)
                   (celsius (min_f d)) lo_day (celsius (max_f d')) hi_day
                   avg_lo avg_hi)
         | _, _ => Raise ValueError
         end.
Proof.
  intros days Hne Hv.
  destruct (generate_summary_readings_spec days Hne Hv)
    as (before & d & after & before' & d' & after' & H).
  exists before, d, after, before', d', after'. eauto.
Qed.

Lemma generate_summary_reads_two_dates_witness :
  patchy_days <> []
  /\ (forall d, In d patchy_days -> readings_convert d = true)
  /\ exists before d after before' d' after' avg_lo avg_hi,
    patchy_days = before ++ d :: after
    /\ (forall x, In x before ->
          (celsius (min_f d) <? celsius (min_f x))%float = true)
    /\ (forall x, In x after ->
          (celsius (min_f x) <? celsius (min_f d))%float = false)
    /\ patchy_days = before' ++ d' :: after'
    /\ (forall x, In x before' ->
          (celsius (max_f x) <? celsius (max_f d'))%float = true)
    /\ (forall x, In x after' ->
          (celsius (max_f d') <? celsius (max_f x))%float = false)
    /\ generate_summary patchy_days
       = match convert_date (date_str d), convert_date (date_str d') with
         | Ok lo_day, Ok hi_day =>
             Ok (summary_text (List.length patchy_days)
                   (celsius (min_f d)) lo_day (celsius (max_f d')) hi_day
                   avg_lo avg_hi)
         | _, _ => Raise ValueError
         end.
Proof.
  assert (H : forall d, In d patchy_days -> readings_convert d = true)
    by (intros d [<- | [<- | [<- | []]]]; vm_compute; reflexivity).
  split; [discriminate |]. split; [exact H |].
  apply generate_summary_reads_two_dates; [discriminate | exact H].
Defined.

(** ** Temperatures of integer readings *)

Lemma round_keeps_range (f : Z) :
  -1000 <= f <= 1000 -> Py.round (celsius (PyInt f)) 1 = celsius (PyInt f).
Proof.
  intros H.
  assert (E : forallb round_keeps (Zrange (-1000) 1000) = true)
    by (vm_compute; reflexivity).
  apply Zrange_forallb with (z := f) in E; [| exact H].
  now apply FloatAxioms.Leibniz.eqb_spec in E.
Qed.

Lemma plain_reading_inv (v : pyval) :
  plain_reading v = true -> exists f, v = PyInt f /\ -1000 <= f <= 1000.
Proof.
  destruct v as [n | x | s]; try discriminate. cbn [plain_reading].
  intros H. apply andb_true_iff in H. destruct H as [H1 H2].
  apply Z.leb_le in H1, H2. exists n. split; [reflexivity | lia].
Qed.

Lemma plain_day_inv (d : day) :
  plain_day d = true ->
  convertible d = true
  /\ (exists f, min_f d = PyInt f /\ -1000 <= f <= 1000)
  /\ (exists f, max_f d = PyInt f /\ -1000 <= f <= 1000).
Proof.
  unfold plain_day. intros H.
  apply andb_true_iff in H. destruct H as [H H3].
  apply andb_true_iff in H. destruct H as [H1 H2].
  split; [| split; apply plain_reading_inv; assumption].
  unfold convertible. unfold date_reads in H1.
  destruct (convert_date (date_str d)); [| discriminate].
  destruct (plain_reading_finite _ H2) as [-> _].
  destruct (plain_reading_finite _ H3) as [-> _]. reflexivity.
Qed.

(** X4: on an integer reading between -1000 and 1000 degrees Fahrenheit the
    second rounding of generate_daily_summary changes nothing: the value of
    convert_f_to_c is its own rounding to one decimal.  The block of a day
    with such readings so shows the very temperatures convert_f_to_c returns,
    the ones generate_summary prints. *)
Theorem generate_daily_summary_second_rounding :
  (forall f, -1000 <= f <= 1000 ->
     Py.round (celsius (PyInt f)) 1 = celsius (PyInt f))
  /\ (forall d n i, plain_day d = true ->
        daily_block n i d
        = Ok (Py.join nl
                [("---- " ++ human (date_str d) ++ " ----")%string;
                 ("  Minimum Temperature: "
                  ++ format_temperature (PyFloat (celsius (min_f d))))%string;
                 ("  Maximum Temperature: "
                  ++ format_temperature (PyFloat (celsius (max_f d)))
                  ++ (if (i =? n - 1)%Z then "-" else ""))%string])).
Proof.
  split; [exact round_keeps_range |].
  intros d n i H.
  destruct (plain_day_inv d H) as (Hc & (a & Ea & Ha) & (b & Eb & Hb)).
  rewrite daily_block_ok by exact Hc. unfold block_text.
  rewrite Ea, Eb, !round_keeps_range by assumption.
  unfold format_temperature, Py.str. cbn [Py.join].
  destruct (i =? n - 1); rewrite !string_app_assoc; reflexivity.
Qed.

Lemma generate_daily_summary_second_rounding_witness :
  -1000 <= 49 <= 1000
  /\ Py.round (celsius (PyInt 49)) 1 = celsius (PyInt 49).
Proof.
  split; [lia |].
  apply (proj1 generate_daily_summary_second_rounding). lia.
Defined.

(** X5: the temperature of an integer reading between -1000 and 1000
    degrees Fahrenheit is printed as the exact value [(f - 32) * 5 / 9]
    rounded to tenths, half way to the even tenth, in decimal notation with
    one digit after the point, a minus sign before a negative value, and the
    degree sign and C after it. *)
Theorem format_temperature_of_reading :
  forall f, -1000 <= f <= 1000 ->
  exists c,
    convert_f_to_c (PyInt f) = Ok c
    /\ format_temperature (PyFloat c)
       = ((if (celsius_tenths f <? 0)%Z then "-" else "")
          ++ Py.str_int (Z.abs (celsius_tenths f) / 10)%Z ++ "."
          ++ Py.str_int (Z.abs (celsius_tenths f) mod 10)%Z ++ "°C")%string
    /\ 2 * Z.abs (50 * (f - 32) - 9 * celsius_tenths f) <= 9.
Proof.
  intros f H. exists (celsius (PyInt f)).
  split; [apply plain_reading_finite; cbn; apply andb_true_iff; split; apply Z.leb_le; lia |].
  assert (E : forallb prints_tenths (Zrange (-1000) 1000) = true)
    by (vm_compute; reflexivity).
  apply Zrange_forallb with (z := f) in E; [| exact H].
  apply String.eqb_eq in E. split.
  - rewrite E. unfold tenths_text. now rewrite !string_app_assoc.
  - assert (N : forallb (fun f => 2 * Z.abs (50 * (f - 32) - 9 * celsius_tenths f) <=? 9)
                  (Zrange (-1000) 1000) = true) by (vm_compute; reflexivity).
    apply Zrange_forallb with (z := f) in N; [| exact H].
    now apply Z.leb_le in N.
Qed.

Lemma format_temperature_of_reading_witness :
  -1000 <= 31 <= 1000
  /\ exists c,
       convert_f_to_c (PyInt 31) = Ok c
       /\ format_temperature (PyFloat c)
          = ((if (celsius_tenths 31 <? 0)%Z then "-" else "")
             ++ Py.str_int (Z.abs (celsius_tenths 31) / 10)%Z ++ "."
             ++ Py.str_int (Z.abs (celsius_tenths 31) mod 10)%Z ++ "°C")%string
       /\ 2 * Z.abs (50 * (31 - 32) - 9 * celsius_tenths 31) <= 9.
Proof.
  split; [lia |]. apply format_temperature_of_reading. lia.
Defined.

Lemma next_warmer_range (f : Z) :
  -1000 <= f < 1000 -> fkey (celsius (PyInt f)) < fkey (celsius (PyInt (f + 1))).
Proof.
  intros H.
  assert (E : forallb next_warmer (Zrange (-1000) 999) = true)
    by (vm_compute; reflexivity).
  apply Zrange_forallb with (z := f) in E; [| lia].
  unfold next_warmer in E.
  rewrite ltb_key in E.
  - now apply Z.ltb_lt in E.
  - apply finite_not_nan, plain_reading_finite. cbn.
    apply andb_true_iff; split; apply Z.leb_le; lia.
  - apply finite_not_nan, plain_reading_finite. cbn.
    apply andb_true_iff; split; apply Z.leb_le; lia.
Qed.

Lemma warmer_range (n : nat) :
  forall f, -1000 <= f -> f + 1 + Z.of_nat n <= 1000 ->
  fkey (celsius (PyInt f)) < fkey (celsius (PyInt (f + 1 + Z.of_nat n))).
Proof.
  induction n as [| n IH]; intros f Hl Hh.
  - replace (f + 1 + Z.of_nat 0) with (f + 1) by lia.
    apply next_warmer_range. lia.
  - replace (f + 1 + Z.of_nat (S n)) with (f + 1 + Z.of_nat n + 1) by lia.
    apply Z.lt_trans with (fkey (celsius (PyInt (f + 1 + Z.of_nat n)))).
    + apply IH; lia.
    + apply next_warmer_range. lia.
Qed.

(** X6: on the integers from -1000 to 1000 convert_f_to_c is strictly
    increasing: of two readings the higher one in degrees Fahrenheit is the
    higher one in degrees Celsius after the rounding, and two readings have
    the same Celsius value only when they are the same. *)
Theorem convert_f_to_c_strictly_increasing :
  forall f g, -1000 <= f -> f < g -> g <= 1000 ->
  exists c c',
    convert_f_to_c (PyInt f) = Ok c /\ convert_f_to_c (PyInt g) = Ok c'
    /\ (c <? c')%float = true /\ (c =? c')%float = false.
Proof.
  intros f g Hf Hfg Hg.
  assert (Pf : plain_reading (PyInt f) = true)
    by (cbn; apply andb_true_iff; split; apply Z.leb_le; lia).
  assert (Pg : plain_reading (PyInt g) = true)
    by (cbn; apply andb_true_iff; split; apply Z.leb_le; lia).
  destruct (plain_reading_finite _ Pf) as [Cf Ff].
  destruct (plain_reading_finite _ Pg) as [Cg Fg].
  exists (celsius (PyInt f)), (celsius (PyInt g)).
  split; [exact Cf |]. split; [exact Cg |].
  pose proof (warmer_range (Z.to_nat (g - f - 1)) f Hf) as W.
  replace (f + 1 + Z.of_nat (Z.to_nat (g - f - 1))) with g in W by lia.
  specialize (W Hg).
  apply finite_not_nan in Ff, Fg.
  rewrite ltb_key, eqb_key by assumption.
  split; [apply Z.ltb_lt | apply Z.eqb_neq]; lia.
Qed.

Lemma convert_f_to_c_strictly_increasing_witness :
  -1000 <= 49 /\ 49 < 50 /\ 50 <= 1000
  /\ exists c c',
       convert_f_to_c (PyInt 49) = Ok c /\ convert_f_to_c (PyInt 50) = Ok c'
       /\ (c <? c')%float = true /\ (c =? c')%float = false.
Proof.
  split; [lia |]. split; [lia |]. split; [lia |].
  apply convert_f_to_c_strictly_increasing; lia.
Defined.

(** ** find_min and find_max together *)

Lemma app_cut_same {A : Type} (b b' : list A) (y y' : A) (a a' : list A) :
  b ++ y :: a = b' ++ y' :: a' -> List.length b = List.length b' ->
  y = y' /\ a = a'.
Proof.
  revert b'. induction b as [| x b IH]; intros [| x' b'] E L;
    try discriminate.
  - injection E as -> ->. auto.
  - injection E as _ E. injection L as L. eauto.
Qed.

(** X7: on a list of numbers with an element the value of find_min is not
    above the value of find_max, and both positions lie in the list.  The two
    positions are the same exactly when the two values are equal, that is
    when all the numbers are equal, and then both are the last position of
    the list. *)
Theorem find_min_not_above_find_max :
  forall l, l <> [] -> forallb is_number l = true ->
  exists lo i hi j,
    find_min l = Ok (Some (lo, i)) /\ find_max l = Ok (Some (hi, j))
    /\ (hi <? lo)%float = false
    /\ 0 <= i < Z.of_nat (List.length l)
    /\ 0 <= j < Z.of_nat (List.length l)
    /\ (i = j <-> (lo =? hi)%float = true)
    /\ ((lo =? hi)%float = true -> i = Z.of_nat (List.length l) - 1).
Proof.
  intros l Hne Hn. rewrite find_min_find_last, find_max_find_last.
  assert (K : forall x y : float, - fkey x = - fkey y <-> fkey x = fkey y)
    by (intros; lia).
  destruct (find_last_spec below fkey below_key (fun x y => iff_refl _) l Hne Hn)
    as (x & xs & before & y & after & El & Hf & Hl & Ey & Hin & Hall & Haft).
  destruct (find_last_spec above (fun x => - fkey x) above_key K l Hne Hn)
    as (x' & xs' & before' & y' & after' & El' & Hf' & Hl' & Ey' & Hin' & Hall' & Haft').
  rewrite El in El'. injection El' as <- <-.
  assert (Hnum : forall z, In z (x :: xs) -> not_nan z = true).
  { intros z Hz. rewrite <- El in Hz. apply in_map_iff in Hz.
    destruct Hz as (v & <- & Hv).
    rewrite forallb_forall in Hn. apply (is_number_inv v (Hn v Hv)). }
  assert (Len : List.length l = List.length (x :: xs))
    by (rewrite <- El; now rewrite length_map).
  set (lo := pick below x xs) in *. set (hi := pick above x xs) in *.
  assert (Nlo : not_nan lo = true) by auto.
  assert (Nhi : not_nan hi = true) by auto.
  assert (Ny : not_nan y = true) by (apply Hnum; rewrite Hl; apply in_elt).
  assert (Ny' : not_nan y' = true) by (apply Hnum; rewrite Hl'; apply in_elt).
  rewrite eqb_key in Ey, Ey' by assumption. apply Z.eqb_eq in Ey, Ey'.
  assert (Klo : forall z, In z (x :: xs) -> fkey lo <= fkey z).
  { intros z Hz. specialize (Hall z Hz). unfold below in Hall.
    rewrite ltb_key in Hall by auto. now apply Z.ltb_ge in Hall. }
  assert (Khi : forall z, In z (x :: xs) -> fkey z <= fkey hi).
  { intros z Hz. specialize (Hall' z Hz). unfold above in Hall'.
    rewrite ltb_key in Hall' by auto. now apply Z.ltb_ge in Hall'. }
  assert (Kaft : forall z, In z after -> fkey lo < fkey z).
  { intros z Hz. specialize (Haft z Hz). unfold below in Haft.
    rewrite ltb_key in Haft; [now apply Z.ltb_lt in Haft | assumption |].
    apply Hnum. rewrite Hl. apply in_or_app. right. now right. }
  assert (Kaft' : forall z, In z after' -> fkey z < fkey hi).
  { intros z Hz. specialize (Haft' z Hz). unfold above in Haft'.
    rewrite ltb_key in Haft'; [now apply Z.ltb_lt in Haft' | | assumption].
    apply Hnum. rewrite Hl'. apply in_or_app. right. now right. }
  assert (L1 : List.length (x :: xs) = (List.length before + S (List.length after))%nat)
    by (rewrite Hl, length_app; reflexivity).
  assert (L2 : List.length (x :: xs) = (List.length before' + S (List.length after'))%nat)
    by (rewrite Hl', length_app; reflexivity).
  exists lo, (Z.of_nat (List.length before)), hi, (Z.of_nat (List.length before')).
  split; [exact Hf |]. split; [exact Hf' |].
  rewrite ltb_key, eqb_key by assumption.
  split; [apply Z.ltb_ge; auto |].
  split; [lia |]. split; [lia |].
  assert (Same : fkey lo = fkey hi -> after = [] /\ after' = []).
  { intros E. split.
    - destruct after as [| z after]; [reflexivity |].
      assert (Hz : In z (x :: xs))
        by (rewrite Hl; apply in_or_app; right; right; now left).
      specialize (Kaft z (or_introl eq_refl)). specialize (Khi z Hz). lia.
    - destruct after' as [| z after']; [reflexivity |].
      assert (Hz : In z (x :: xs))
        by (rewrite Hl'; apply in_or_app; right; right; now left).
      specialize (Kaft' z (or_introl eq_refl)). specialize (Klo z Hz). lia. }
  split; [split |].
  - intros E. apply Nat2Z.inj in E.
    destruct (app_cut_same before before' y y' after after') as [Ey2 _];
      [congruence | exact E |].
    apply Z.eqb_eq. congruence.
  - intros E. apply Z.eqb_eq in E. destruct (Same E) as [-> ->].
    cbn [List.length] in L1, L2. lia.
  - intros E. apply Z.eqb_eq in E. destruct (Same E) as [Ea _].
    rewrite Ea in L1. rewrite Len, L1. cbn [List.length]. lia.
Qed.

Lemma find_min_not_above_find_max_witness :
  [PyInt 3; PyStr "1.5"; PyFloat 3; PyInt 2] <> []
  /\ forallb is_number [PyInt 3; PyStr "1.5"; PyFloat 3; PyInt 2] = true
  /\ exists lo i hi j,
       find_min [PyInt 3; PyStr "1.5"; PyFloat 3; PyInt 2] = Ok (Some (lo, i))
       /\ find_max [PyInt 3; PyStr "1.5"; PyFloat 3; PyInt 2] = Ok (Some (hi, j))
       /\ (hi <? lo)%float = false
       /\ 0 <= i < Z.of_nat (List.length [PyInt 3; PyStr "1.5"; PyFloat 3; PyInt 2])
       /\ 0 <= j < Z.of_nat (List.length [PyInt 3; PyStr "1.5"; PyFloat 3; PyInt 2])
       /\ (i = j <-> (lo =? hi)%float = true)
       /\ ((lo =? hi)%float = true
           -> i = Z.of_nat (List.length [PyInt 3; PyStr "1.5"; PyFloat 3; PyInt 2]) - 1).
Proof.
  split; [discriminate |]. split; [vm_compute; reflexivity |].
  apply find_min_not_above_find_max; [discriminate | vm_compute; reflexivity].
Defined.

(** X8: when an element of the list does not convert to a float, find_min
    and find_max raise what float raises for the first such element, a
    ValueError for a text that is not a number, whatever the other elements
    are; nothing is returned then, not even the empty result. *)
Theorem find_min_find_max_raise_first_error :
  (forall pre v post xs e,
     mapM Py.to_float pre = Ok xs -> Py.to_float v = Raise e ->
     find_min (pre ++ v :: post) = Raise e
     /\ find_max (pre ++ v :: post) = Raise e)
  /\ (forall pre s post xs,
        mapM Py.to_float pre = Ok xs -> Py.float_of_string s = None ->
        find_min (pre ++ PyStr s :: post) = Raise ValueError
        /\ find_max (pre ++ PyStr s :: post) = Raise ValueError).
Proof.
  assert (G : forall pre v post xs e,
     mapM Py.to_float pre = Ok xs -> Py.to_float v = Raise e ->
     find_min (pre ++ v :: post) = Raise e
     /\ find_max (pre ++ v :: post) = Raise e).
  { intros pre v post xs e Hp Hv. unfold find_min, find_max.
    rewrite (mapM_raise Py.to_float pre v post xs e Hp Hv). split; reflexivity. }
  split; [exact G |].
  intros pre s post xs Hp Hs. apply (G pre (PyStr s) post xs ValueError Hp).
  cbn [Py.to_float]. now rewrite Hs.
Qed.

Lemma find_min_find_max_raise_first_error_witness :
  mapM Py.to_float [PyInt 1] = Ok [1%float]
  /\ Py.to_float (PyStr "two") = Raise ValueError
  /\ find_min ([PyInt 1] ++ PyStr "two" :: [PyInt 3]) = Raise ValueError
  /\ find_max ([PyInt 1] ++ PyStr "two" :: [PyInt 3]) = Raise ValueError.
Proof.
  split; [vm_compute; reflexivity |]. split; [vm_compute; reflexivity |].
  apply (proj1 find_min_find_max_raise_first_error [PyInt 1] (PyStr "two")
           [PyInt 3] [1%float] ValueError); vm_compute; reflexivity.
Defined.

(** ** The date of a date and time *)

(** X9: of a day of the calendar written YYYY-MM-DD and followed by a time of
    day and an offset from UTC, as the dates of the data are, convert_date
    renders the day and nothing else: the time and the offset change nothing,
    and the day is not shifted by the offset.  Whatever follows a day written
    YYYY-MM-DD can make the conversion raise a ValueError, and can do nothing
    else: when a date is returned, it is that day. *)
Theorem convert_date_ignores_time :
  (forall y m d hh mi ss sign oh om,
     calendar_day y m d ->
     0 <= hh < 24 -> 0 <= mi < 60 -> 0 <= ss < 60 ->
     sign = "+"%char \/ sign = "-"%char ->
     0 <= oh < 24 -> 0 <= om < 60 ->
     convert_date (iso_date y m d ++ time_stamp hh mi ss sign oh om)
     = convert_date (iso_date y m d))
  /\ (forall y m d rest, calendar_day y m d ->
        convert_date (iso_date y m d ++ rest) = convert_date (iso_date y m d)
        \/ convert_date (iso_date y m d ++ rest) = Raise ValueError)
  /\ (iso_date 2021 7 2 ++ time_stamp 7 0 0 "+" 8 0)%string
     = "2021-07-02T07:00:00+08:00"%string
  /\ convert_date "2021-07-02T07:00:00+08:00" = Ok "Friday 02 July 2021"
  /\ convert_date "2021-07-02T23:30:00-12:00" = Ok "Friday 02 July 2021"
  /\ convert_date "2021-07-02T00:30:00+12:00" = Ok "Friday 02 July 2021"
  /\ convert_date "2021-07-02T25:00:00+08:00" = Raise ValueError
  /\ convert_date "2021-07-02 at noon" = Raise ValueError.
Proof.
  split; [| split].
  - intros y m d hh mi ss sign oh om C Hh Hi Hs Hsign Ha Hb.
    pose proof (proj1 (calendar_day_valid y m d) C) as V.
    destruct (valid_date_bounds y m d V) as (Hy & Hm & Hd).
    rewrite !convert_date_parse.
    rewrite parse_iso_date_time by (assumption || lia).
    now rewrite V, parse_iso_date.
  - intros y m d rest C.
    pose proof (proj1 (calendar_day_valid y m d) C) as V.
    destruct (valid_date_bounds y m d V) as (Hy & Hm & Hd).
    destruct (parse_iso_date_rest y m d rest) as (ok & E & _); try lia.
    rewrite !convert_date_parse, E, V, parse_iso_date by exact V.
    destruct ok; [now left | now right].
  - repeat split; vm_compute; reflexivity.
Qed.

Lemma convert_date_ignores_time_witness :
  calendar_day 2021 7 2
  /\ convert_date (iso_date 2021 7 2 ++ time_stamp 7 0 0 "+" 8 0)
     = convert_date (iso_date 2021 7 2).
Proof.
  assert (C : calendar_day 2021 7 2)
    by (apply calendar_day_valid; vm_compute; reflexivity).
  split; [exact C |].
  apply (proj1 convert_date_ignores_time); auto; lia.
Defined.

(** ** Integers and their decimal notation *)

Lemma uint_chars_digits (d : Decimal.uint) :
  forallb Py.is_digit (uint_chars d) = true.
Proof.
  unfold uint_chars.
  induction d; cbn [NilEmpty.string_of_uint list_ascii_of_string forallb];
    [reflexivity | ..]; rewrite IHd; reflexivity.
Qed.

Lemma uint_chars_length (d : Decimal.uint) :
  List.length (uint_chars d) = Decimal.nb_digits d.
Proof.
  unfold uint_chars.
  induction d;
    cbn [NilEmpty.string_of_uint list_ascii_of_string List.length Decimal.nb_digits];
    [reflexivity | ..]; now rewrite IHd.
Qed.

Lemma read_step_pos (acc : positive) (c : ascii) :
  read_step (Zpos acc) c = 10 * Zpos acc + Py.digit_val c.
Proof. reflexivity. Qed.

Lemma uint_chars_acc (d : Decimal.uint) :
  forall acc : positive,
  fold_left read_step (uint_chars d) (Zpos acc) = Zpos (Pos.of_uint_acc d acc).
Proof.
  unfold uint_chars.
  induction d; intros acc;
    cbn [NilEmpty.string_of_uint list_ascii_of_string fold_left Pos.of_uint_acc];
    [reflexivity | ..];
    match goal with
    | |- fold_left _ _ ?z = Zpos (Pos.of_uint_acc _ ?p) =>
        replace z with (Zpos p); [apply IHd |]
    end;
    rewrite read_step_pos; vm_compute Py.digit_val; lia.
Qed.

Lemma uint_chars_value (d : Decimal.uint) :
  Py.digits_value (uint_chars d) = Z.of_N (Pos.of_uint d).
Proof.
  change (Py.digits_value (uint_chars d))
    with (fold_left read_step (uint_chars d) 0).
  unfold uint_chars.
  induction d;
    cbn [NilEmpty.string_of_uint list_ascii_of_string fold_left Pos.of_uint];
    [reflexivity | exact IHd | ..];
    match goal with
    | |- fold_left _ _ ?z = Z.of_N (Npos (Pos.of_uint_acc _ ?p)) =>
        change z with (Zpos p)
    end; apply (uint_chars_acc d).
Qed.

Lemma of_uint_acc_lower (d : Decimal.uint) :
  forall acc : positive,
  Zpos acc * 10 ^ Z.of_nat (Decimal.nb_digits d) <= Zpos (Pos.of_uint_acc d acc).
Proof.
  induction d; intros acc; cbn [Decimal.nb_digits Pos.of_uint_acc];
    [cbn; lia | ..];
    rewrite Nat2Z.inj_succ, Z.pow_succ_r by lia;
    match goal with
    | |- _ <= Zpos (Pos.of_uint_acc _ ?p) =>
        specialize (IHd p);
        assert (Zpos acc * 10 <= Zpos p) by lia
    end;
    assert (0 < 10 ^ Z.of_nat (Decimal.nb_digits d)) by (apply Z.pow_pos_nonneg; lia);
    nia.
Qed.

Lemma to_uint_lower (p : positive) :
  10 ^ (Z.of_nat (Decimal.nb_digits (Pos.to_uint p)) - 1) <= Zpos p.
Proof.
  pose proof (DecimalPos.Unsigned.of_to p) as Hof.
  pose proof (DecimalPos.Unsigned.to_of (Pos.to_uint p)) as Hto.
  rewrite Hof in Hto. cbn [N.to_uint] in Hto.
  pose proof (DecimalPos.Unsigned.to_uint_nonzero p) as Hnz.
  destruct (Pos.to_uint p) as [| l | l | l | l | l | l | l | l | l | l] eqn:E;
    [discriminate Hof | ..].
  { exfalso. rewrite DecimalFacts.unorm_D0 in Hto.
    unfold Decimal.unorm in Hto.
    destruct (Decimal.nzhead l) eqn:N; try discriminate Hto.
    - injection Hto as El. subst l. now apply Hnz.
    - now apply DecimalFacts.nzhead_nonzero in N. }
  all: cbn [Pos.of_uint] in Hof; injection Hof as <-;
    cbn [Decimal.nb_digits]; rewrite Nat2Z.inj_succ, Z.sub_1_r, Z.pred_succ;
    match goal with
    | |- 10 ^ ?a <= Zpos (Pos.of_uint_acc ?u ?k) =>
        pose proof (of_uint_acc_lower u k);
        assert (0 < 10 ^ a) by (apply Z.pow_pos_nonneg; lia)
    end;
    nia.
Qed.

Lemma digits_tail_all (ds : list ascii) :
  forallb Py.is_digit ds = true -> Py.digits_tail ds = (ds, []).
Proof.
  induction ds as [| c ds IH]; cbn [forallb Py.digits_tail]; [reflexivity |].
  intros H. apply andb_true_iff in H. destruct H as [Hc Hd].
  now rewrite Hc, (IH Hd).
Qed.

Lemma digitpart_all (c : ascii) (ds : list ascii) :
  forallb Py.is_digit (c :: ds) = true ->
  Py.digitpart (c :: ds) = Some (c :: ds, []).
Proof.
  cbn [forallb Py.digitpart]. intros H.
  apply andb_true_iff in H. destruct H as [Hc Hd].
  now rewrite Hc, (digits_tail_all ds Hd).
Qed.

Lemma lstrip_id (c : ascii) (r : list ascii) :
  Py.is_space c = false -> Py.lstrip (c :: r) = c :: r.
Proof. intros H. cbn [Py.lstrip]. now rewrite H. Qed.

Lemma strip_id (cs : list ascii) (c c' : ascii) (r r' : list ascii) :
  cs = c :: r -> rev cs = c' :: r' ->
  Py.is_space c = false -> Py.is_space c' = false ->
  Py.strip cs = cs.
Proof.
  intros E E' H H'. unfold Py.strip.
  rewrite E at 1. rewrite (lstrip_id c r H), <- E, E', (lstrip_id c' r' H'), <- E'.
  apply rev_involutive.
Qed.

Lemma digit_not_space (c : ascii) : Py.is_digit c = true -> Py.is_space c = false.
Proof.
  unfold Py.is_digit, Py.is_space. intros H.
  apply andb_true_iff in H. destruct H as [H1 H2]. apply Z.leb_le in H1, H2.
  apply orb_false_iff. split; [apply Z.eqb_neq; lia |].
  apply andb_false_iff. right. apply Z.leb_gt. lia.
Qed.

Lemma digits_strip (c : ascii) (ds : list ascii) :
  forallb Py.is_digit (c :: ds) = true -> Py.strip (c :: ds) = c :: ds.
Proof.
  intros H.
  assert (R : forallb Py.is_digit (rev (c :: ds)) = true).
  { rewrite forallb_forall in *. intros x Hx. apply H. now apply in_rev. }
  destruct (rev (c :: ds)) as [| c' r'] eqn:E.
  { apply (f_equal (@List.length ascii)) in E. rewrite length_rev in E. discriminate. }
  apply (strip_id (c :: ds) c c' ds r' eq_refl E); apply digit_not_space.
  - cbn [forallb] in H. now apply andb_true_iff in H.
  - cbn [forallb] in R. now apply andb_true_iff in R.
Qed.

Lemma minus_digits_strip (c : ascii) (ds : list ascii) :
  forallb Py.is_digit (c :: ds) = true ->
  Py.strip ("-"%char :: c :: ds) = "-"%char :: c :: ds.
Proof.
  intros H.
  assert (R : forallb Py.is_digit (rev (c :: ds)) = true).
  { rewrite forallb_forall in *. intros x Hx. apply H. now apply in_rev. }
  destruct (rev (c :: ds)) as [| c' r'] eqn:E.
  { apply (f_equal (@List.length ascii)) in E. rewrite length_rev in E. discriminate. }
  apply (strip_id _ "-"%char c' (c :: ds) (r' ++ ["-"%char])).
  - reflexivity.
  - change ("-"%char :: c :: ds) with (["-"%char] ++ c :: ds).
    rewrite rev_app_distr, E. reflexivity.
  - reflexivity.
  - apply digit_not_space. cbn [forallb] in R. now apply andb_true_iff in R.
Qed.

Lemma digit_cases (c : ascii) :
  Py.is_digit c = true ->
  In c ["0"; "1"; "2"; "3"; "4"; "5"; "6"; "7"; "8"; "9"]%char.
Proof.
  intros H. destruct (is_digit_char c H) as [B <-].
  assert (E : forallb (fun v => if in_dec ascii_dec (digit_char v)
                                     ["0"; "1"; "2"; "3"; "4"; "5"; "6"; "7"; "8"; "9"]%char
                                then true else false) (Zrange 0 9) = true)
    by (vm_compute; reflexivity).
  apply Zrange_forallb with (z := Py.digit_val c) in E; [| exact B].
  now destruct (in_dec ascii_dec _ _).
Qed.

Lemma int_of_digits (c : ascii) (ds : list ascii) :
  forallb Py.is_digit (c :: ds) = true ->
  Z.of_nat (List.length (c :: ds)) <= 4300 ->
  PyIO.int_of_string (string_of_list_ascii (c :: ds))
  = Some (Py.digits_value (c :: ds))
  /\ PyIO.int_of_string (string_of_list_ascii ("-"%char :: c :: ds))
     = Some (- Py.digits_value (c :: ds)).
Proof.
  intros H L. unfold PyIO.int_of_string.
  rewrite !list_ascii_of_string_of_list_ascii.
  rewrite (digits_strip c ds H), (minus_digits_strip c ds H).
  assert (Hc : Py.is_digit c = true)
    by (cbn [forallb] in H; now apply andb_true_iff in H).
  assert (S : (4300 <? Z.of_nat (List.length (c :: ds))) = false)
    by (apply Z.ltb_ge; exact L).
  split.
  - pose proof (digitpart_all c ds H) as D.
    destruct (digit_cases c Hc) as [<- | [<- | [<- | [<- | [<- | [<- | [<- | [<- | [<- | [<- | []]]]]]]]]]];
      rewrite D, S; reflexivity.
  - rewrite (digitpart_all c ds H), S. reflexivity.
Qed.

Lemma str_int_chars (n : Z) :
  Z.abs n < 10 ^ 4300 ->
  exists c ds,
    forallb Py.is_digit (c :: ds) = true
    /\ Z.of_nat (List.length (c :: ds)) <= 4300
    /\ Py.digits_value (c :: ds) = Z.abs n
    /\ Py.str_int n
       = string_of_list_ascii (if n <? 0 then "-"%char :: c :: ds else c :: ds).
Proof.
  intros B. unfold Py.str_int.
  destruct n as [| p | p].
  { exists "0"%char, []. clear B. repeat split. cbn. lia. }
  all: cbn [Z.to_int NilZero.string_of_int Z.abs];
    pose proof (to_uint_lower p) as Hlow;
    pose proof (uint_chars_digits (Pos.to_uint p)) as Hd;
    pose proof (uint_chars_length (Pos.to_uint p)) as Hl;
    pose proof (uint_chars_value (Pos.to_uint p)) as Hv;
    rewrite DecimalPos.Unsigned.of_to in Hv;
    assert (E : NilZero.string_of_uint (Pos.to_uint p)
                = string_of_list_ascii (uint_chars (Pos.to_uint p)))
      by (unfold uint_chars; rewrite string_of_list_ascii_of_string;
          unfold NilZero.string_of_uint;
          pose proof (DecimalPos.Unsigned.to_uint_nonnil p);
          now destruct (Pos.to_uint p));
    assert (Len : Z.of_nat (List.length (uint_chars (Pos.to_uint p))) <= 4300)
      by (rewrite Hl;
          destruct (Z_le_gt_dec (Z.of_nat (Decimal.nb_digits (Pos.to_uint p))) 4300)
            as [Le | Gt]; [exact Le | exfalso];
          apply (Z.lt_irrefl (Zpos p));
          apply Z.lt_le_trans with (1 := B);
          apply Z.le_trans with (2 := Hlow);
          apply Z.pow_le_mono_r; clear B Hlow; lia);
    rewrite E; destruct (uint_chars (Pos.to_uint p)) as [| c ds] eqn:U;
    [exfalso; cbn [List.length] in Hl; symmetry in Hl;
     apply DecimalFacts.nb_digits_0 in Hl;
     now apply (DecimalPos.Unsigned.to_uint_nonnil p) |];
    exists c, ds; repeat split; assumption.
Qed.

Lemma int_of_string_str_int (n : Z) :
  Z.abs n < 10 ^ 4300 -> PyIO.int_of_string (Py.str_int n) = Some n.
Proof.
  intros B. destruct (str_int_chars n B) as (c & ds & Hd & Len & Hv & ->).
  destruct (int_of_digits c ds Hd Len) as [Hpos Hneg]. clear B.
  destruct (Z.ltb_spec n 0) as [N | N].
  - rewrite Hneg, Hv. f_equal. lia.
  - rewrite Hpos, Hv. f_equal. lia.
Qed.

(** ** The reader on lines without quotes *)

Lemma plain_char_inv (c : ascii) :
  plain_char c = true ->
  PyIO.continuation c = false /\ Ascii.eqb c PyIO.QUOTE = false
  /\ PyIO.is_newline c = false.
Proof.
  unfold plain_char, PyIO.continuation. intros H.
  apply andb_true_iff in H. destruct H as [H H3].
  apply andb_true_iff in H. destruct H as [H H2].
  apply andb_true_iff in H. destruct H as [_ H1].
  apply negb_true_iff in H2, H3. apply Z.ltb_lt in H1.
  repeat split; try assumption.
  apply andb_false_iff. left. apply Z.leb_gt. exact H1.
Qed.

Lemma field_char_inv (c : ascii) :
  field_char c = true -> plain_char c = true /\ Ascii.eqb c PyIO.COMMA = false.
Proof.
  unfold field_char. intros H. apply andb_true_iff in H.
  destruct H as [H1 H2]. apply negb_true_iff in H2. auto.
Qed.

Lemma process_field_char (p : PyIO.parser) (c : ascii) :
  unquoted (PyIO.state p) = true -> field_char c = true ->
  PyIO.field_len p < PyIO.field_limit ->
  PyIO.parse_process_char p c
  = Some (PyIO.mkparser PyIO.IN_FIELD (PyIO.fields p) (c :: PyIO.field p)
            (PyIO.field_len p + 1)).
Proof.
  intros U F L. destruct (field_char_inv c F) as [P C].
  destruct (plain_char_inv c P) as (K & Q & N).
  apply Z.leb_gt in L.
  unfold PyIO.parse_process_char, PyIO.parse_add_char.
  destruct (PyIO.state p); try discriminate U; rewrite N, ?Q, C, K, L; reflexivity.
Qed.

Lemma process_comma (p : PyIO.parser) :
  unquoted (PyIO.state p) = true ->
  PyIO.parse_process_char p PyIO.COMMA
  = Some (PyIO.parse_save_field p PyIO.START_FIELD).
Proof.
  intros U. unfold PyIO.parse_process_char.
  destruct (PyIO.state p); try discriminate U; reflexivity.
Qed.

Lemma line_end_cases (eol : string) :
  line_end eol = true -> eol = lf \/ eol = crlf \/ eol = cr.
Proof.
  unfold line_end. intros H.
  apply orb_true_iff in H. destruct H as [H | H].
  - apply orb_true_iff in H. destruct H as [H | H]; apply String.eqb_eq in H; auto.
  - apply String.eqb_eq in H. auto.
Qed.

Lemma parse_line_end (p : PyIO.parser) (eol : string) :
  line_end eol = true ->
  PyIO.state p = PyIO.START_FIELD \/ PyIO.state p = PyIO.IN_FIELD ->
  PyIO.parse_line p (chars eol)
  = Some (PyIO.parse_save_field p PyIO.START_RECORD).
Proof.
  intros E S.
  destruct (line_end_cases eol E) as [-> | [-> | ->]]; destruct S as [S | S];
    cbn [chars list_ascii_of_string lf crlf cr PyIO.parse_line];
    unfold PyIO.parse_process_char; rewrite S; reflexivity.
Qed.

Lemma parse_line_end_start (p : PyIO.parser) (eol : string) :
  line_end eol = true -> PyIO.state p = PyIO.START_RECORD ->
  PyIO.parse_line p (chars eol) = Some p.
Proof.
  intros E S. destruct p as [st fs f n]. cbn [PyIO.state] in S. subst st.
  destruct (line_end_cases eol E) as [-> | [-> | ->]]; reflexivity.
Qed.

Lemma parse_field_run (xs : list ascii) :
  forall p,
  unquoted (PyIO.state p) = true -> forallb field_char xs = true ->
  0 <= PyIO.field_len p ->
  PyIO.field_len p + Z.of_nat (List.length xs) <= PyIO.field_limit ->
  forall ys,
  PyIO.parse_line p (xs ++ ys)
  = PyIO.parse_line
      (match xs with
       | [] => p
       | _ => PyIO.mkparser PyIO.IN_FIELD (PyIO.fields p)
                (rev xs ++ PyIO.field p)
                (PyIO.field_len p + Z.of_nat (List.length xs))
       end) ys.
Proof.
  induction xs as [| c xs IH]; intros p U F L0 L ys; [reflexivity |].
  cbn [forallb] in F. apply andb_true_iff in F. destruct F as [Fc Fx].
  cbn [List.length] in L. rewrite Nat2Z.inj_succ in L.
  cbn [app PyIO.parse_line].
  rewrite (process_field_char p c U Fc) by lia.
  rewrite IH; [| reflexivity | exact Fx | cbn [PyIO.field_len]; lia
               | cbn [PyIO.field_len]; lia].
  cbn [PyIO.fields PyIO.field PyIO.field_len].
  destruct xs as [| c' xs']; cbn [List.length rev app]; f_equal; f_equal.
  - rewrite <- !app_assoc. reflexivity.
  - rewrite !Nat2Z.inj_succ. lia.
Qed.

Lemma parse_field_comma (xs : list ascii) (p : PyIO.parser) (ys : list ascii) :
  unquoted (PyIO.state p) = true -> PyIO.field p = [] -> PyIO.field_len p = 0 ->
  forallb field_char xs = true ->
  Z.of_nat (List.length xs) <= PyIO.field_limit ->
  PyIO.parse_line p (xs ++ PyIO.COMMA :: ys)
  = PyIO.parse_line
      (PyIO.mkparser PyIO.START_FIELD
         (PyIO.fields p ++ [string_of_list_ascii xs]) [] 0) ys.
Proof.
  intros U E0 L0 F L.
  rewrite (parse_field_run xs p U F) by lia.
  destruct xs as [| c xs'].
  - cbn [PyIO.parse_line]. rewrite (process_comma p U).
    unfold PyIO.parse_save_field. now rewrite E0.
  - cbn [PyIO.parse_line]. rewrite process_comma by reflexivity.
    unfold PyIO.parse_save_field. cbn [PyIO.fields PyIO.field].
    now rewrite E0, app_nil_r, rev_involutive.
Qed.

Lemma parse_field_end (xs : list ascii) (p : PyIO.parser) (eol : string) :
  PyIO.state p = PyIO.START_FIELD -> PyIO.field p = [] -> PyIO.field_len p = 0 ->
  forallb field_char xs = true ->
  Z.of_nat (List.length xs) <= PyIO.field_limit ->
  line_end eol = true ->
  PyIO.parse_line p (xs ++ chars eol)
  = Some (PyIO.mkparser PyIO.START_RECORD
            (PyIO.fields p ++ [string_of_list_ascii xs]) [] 0).
Proof.
  intros S E0 L0 F L E.
  rewrite (parse_field_run xs p) by (try rewrite S; try reflexivity; try assumption; lia).
  destruct xs as [| c xs'].
  - rewrite (parse_line_end p eol E) by auto.
    unfold PyIO.parse_save_field. now rewrite E0.
  - rewrite (parse_line_end _ eol E) by (right; reflexivity).
    unfold PyIO.parse_save_field. cbn [PyIO.fields PyIO.field].
    now rewrite E0, app_nil_r, rev_involutive.
Qed.

(** A line of three fields. *)
Lemma parse_day_line (a b c : list ascii) (eol : string) :
  forallb field_char a = true -> forallb field_char b = true ->
  forallb field_char c = true ->
  Z.of_nat (List.length a) <= PyIO.field_limit ->
  Z.of_nat (List.length b) <= PyIO.field_limit ->
  Z.of_nat (List.length c) <= PyIO.field_limit ->
  line_end eol = true ->
  PyIO.parse_line PyIO.parse_reset
    (a ++ PyIO.COMMA :: b ++ PyIO.COMMA :: c ++ chars eol)
  = Some (PyIO.mkparser PyIO.START_RECORD
            [string_of_list_ascii a; string_of_list_ascii b;
             string_of_list_ascii c] [] 0).
Proof.
  intros Fa Fb Fc La Lb Lc E.
  rewrite parse_field_comma by (try reflexivity; assumption).
  rewrite parse_field_comma by (try reflexivity; assumption).
  rewrite parse_field_end by (try reflexivity; assumption).
  reflexivity.
Qed.

(** A line without quotes, whatever its fields are. *)
Lemma parse_plain_line (xs : list ascii) (eol : string) :
  line_end eol = true ->
  forall p,
  unquoted (PyIO.state p) = true -> forallb plain_char xs = true ->
  0 <= PyIO.field_len p ->
  PyIO.field_len p + Z.of_nat (List.length xs) <= PyIO.field_limit ->
  exists p', PyIO.parse_line p (xs ++ chars eol) = Some p'
             /\ PyIO.state p' = PyIO.START_RECORD.
Proof.
  intros E. induction xs as [| c xs IH]; intros p U F L0 L.
  - cbn [app].
    destruct (PyIO.state p) eqn:S; try discriminate U.
    + exists p. split; [now apply parse_line_end_start | exact S].
    + eexists. split; [apply parse_line_end; auto | reflexivity].
    + eexists. split; [apply parse_line_end; auto | reflexivity].
  - cbn [forallb] in F. apply andb_true_iff in F. destruct F as [Fc Fx].
    cbn [List.length] in L. rewrite Nat2Z.inj_succ in L.
    cbn [app PyIO.parse_line].
    destruct (Ascii.eqb c PyIO.COMMA) eqn:C.
    + apply Ascii.eqb_eq in C. subst c. rewrite (process_comma p U).
      apply IH; [reflexivity | exact Fx | cbn; lia | cbn [PyIO.parse_save_field PyIO.field_len]; lia].
    + rewrite (process_field_char p c U) by (try lia; unfold field_char; now rewrite Fc, C).
      apply IH; [reflexivity | exact Fx | cbn [PyIO.field_len]; lia
                 | cbn [PyIO.field_len]; lia].
Qed.

(** ** The lines of a file *)

Lemma lines_from_line (xs : list ascii) :
  forallb (fun c => negb (PyIO.is_newline c)) xs = true ->
  forall cur eol rest,
  line_end eol = true ->
  (eol = cr -> forall r, rest <> PyIO.LF :: r) ->
  PyIO.lines_from cur (xs ++ chars eol ++ rest)
  = (rev cur ++ xs ++ chars eol) :: PyIO.lines_from [] rest.
Proof.
  induction xs as [| c xs IH]; intros F cur eol rest E R.
  - cbn [app].
    destruct (line_end_cases eol E) as [-> | [-> | ->]];
      cbn [chars list_ascii_of_string lf crlf cr app PyIO.lines_from].
    + cbn. reflexivity.
    + cbn. now rewrite <- app_assoc.
    + cbn. destruct rest as [| c' r']; [reflexivity |].
      destruct (Ascii.eqb c' PyIO.LF) eqn:C; [| reflexivity].
      apply Ascii.eqb_eq in C. subst c'. now destruct (R eq_refl r').
  - cbn [forallb] in F. apply andb_true_iff in F. destruct F as [Fc Fx].
    apply negb_true_iff in Fc. unfold PyIO.is_newline in Fc.
    apply orb_false_iff in Fc. destruct Fc as [C1 C2].
    cbn [app PyIO.lines_from]. rewrite C1, C2.
    rewrite (IH Fx (c :: cur) eol rest E R). cbn [rev].
    now rewrite <- !app_assoc.
Qed.

(** ** The loader on the rows of the reader *)

Lemma rows_from_line (line : list ascii) (rest : list (list ascii))
  (p : PyIO.parser) :
  PyIO.parse_line PyIO.parse_reset line = Some p ->
  PyIO.state p = PyIO.START_RECORD ->
  PyIO.rows_from PyIO.parse_reset (line :: rest)
  = (PyIO.fields p :: fst (PyIO.rows_from PyIO.parse_reset rest),
     snd (PyIO.rows_from PyIO.parse_reset rest)).
Proof.
  intros H S. cbn [PyIO.rows_from]. rewrite H, S.
  now destruct (PyIO.rows_from PyIO.parse_reset rest).
Qed.

Lemma chars_length (s : string) : List.length (chars s) = String.length s.
Proof.
  unfold chars. induction s as [| c s IH]; cbn; [reflexivity | now rewrite IH].
Qed.

Lemma chars_app (a b : string) : chars (a ++ b) = chars a ++ chars b.
Proof. apply list_ascii_app. Qed.

Lemma header_line_inv (h : string) :
  header_line h = true ->
  forallb plain_char (chars h) = true
  /\ Z.of_nat (List.length (chars h)) <= PyIO.field_limit.
Proof.
  unfold header_line. intros H. apply andb_true_iff in H.
  destruct H as [H1 H2]. apply Z.leb_le in H2. now rewrite chars_length.
Qed.

Lemma plain_field_inv (s : string) :
  plain_field s = true ->
  forallb field_char (chars s) = true
  /\ Z.of_nat (List.length (chars s)) <= PyIO.field_limit.
Proof.
  unfold plain_field. intros H. apply andb_true_iff in H.
  destruct H as [H1 H2]. apply Z.leb_le in H2. now rewrite chars_length.
Qed.

Lemma plain_chars_no_newline (xs : list ascii) :
  forallb plain_char xs = true ->
  forallb (fun c => negb (PyIO.is_newline c)) xs = true.
Proof.
  rewrite !forallb_forall. intros H c Hc.
  apply negb_true_iff. apply (plain_char_inv c (H c Hc)).
Qed.

Lemma field_chars_plain (xs : list ascii) :
  forallb field_char xs = true -> forallb plain_char xs = true.
Proof.
  rewrite !forallb_forall. intros H c Hc. apply (field_char_inv c (H c Hc)).
Qed.

Lemma reader_chars (s : string) :
  PyIO.reader s = PyIO.rows_from PyIO.parse_reset (PyIO.lines_from [] (chars s)).
Proof. reflexivity. Qed.

Lemma reader_header (h eol body : string) :
  header_line h = true -> line_end eol = true ->
  (eol = cr -> forall r, chars body <> PyIO.LF :: r) ->
  exists row,
    PyIO.reader (h ++ eol ++ body)
    = (row :: fst (PyIO.reader body), snd (PyIO.reader body)).
Proof.
  intros H E R. destruct (header_line_inv h H) as [P L].
  destruct (parse_plain_line (chars h) eol E PyIO.parse_reset eq_refl P)
    as (p & Hp & S); [cbn; lia | cbn [PyIO.parse_reset PyIO.field_len]; lia |].
  exists (PyIO.fields p). rewrite !reader_chars, !chars_app.
  rewrite (lines_from_line (chars h) (plain_chars_no_newline _ P) [] eol
             (chars body) E R).
  cbn [rev app]. now rewrite (rows_from_line _ _ p Hp S).
Qed.

Lemma digit_field_char (c : ascii) : Py.is_digit c = true -> field_char c = true.
Proof.
  intros H.
  destruct (digit_cases c H)
    as [<- | [<- | [<- | [<- | [<- | [<- | [<- | [<- | [<- | [<- | []]]]]]]]]]];
    reflexivity.
Qed.

Lemma str_int_field (n : Z) :
  Z.abs n < 10 ^ 4300 ->
  forallb field_char (chars (Py.str_int n)) = true
  /\ Z.of_nat (List.length (chars (Py.str_int n))) <= PyIO.field_limit.
Proof.
  intros B. destruct (str_int_chars n B) as (c & ds & Hd & Len & _ & ->).
  clear B. unfold chars. rewrite list_ascii_of_string_of_list_ascii.
  assert (F : forallb field_char (c :: ds) = true).
  { rewrite forallb_forall in *. intros x Hx. apply digit_field_char, Hd, Hx. }
  unfold PyIO.field_limit.
  destruct (n <? 0); [cbn [forallb List.length] | ]; split;
    try exact F; try (rewrite F; reflexivity);
    cbn [List.length] in *; lia.
Qed.

Lemma storable_inv (d : day) :
  storable d = true ->
  exists a b,
    d = mkday (date_str d) (PyInt a) (PyInt b)
    /\ Z.abs a < 10 ^ 4300 /\ Z.abs b < 10 ^ 4300
    /\ plain_field (date_str d) = true.
Proof.
  unfold storable. intros H.
  apply andb_true_iff in H. destruct H as [H H3].
  apply andb_true_iff in H. destruct H as [H1 H2].
  destruct d as [date [a | x | s] [b | y | t]]; try discriminate.
  cbn [int_reading min_f max_f date_str] in *.
  apply Z.ltb_lt in H2, H3. exists a, b. auto.
Qed.

Lemma load_rows_days (days : list day) :
  forall data,
  forallb storable days = true ->
  Loader.load_rows (map row_of_day days) data = Loaded (data ++ days).
Proof.
  induction days as [| d days IH]; intros data H.
  - cbn. now rewrite app_nil_r.
  - cbn [forallb] in H. apply andb_true_iff in H. destruct H as [Hd Hs].
    destruct (storable_inv d Hd) as (a & b & E & Ba & Bb & _).
    cbn [map]. unfold row_of_day at 1. rewrite E at 2 3.
    cbn [min_f max_f Py.str Loader.load_rows Loader.item nth_error io_bind].
    unfold Loader.to_int.
    rewrite (int_of_string_str_int a Ba), (int_of_string_str_int b Bb).
    cbn [io_bind]. rewrite <- E. rewrite (IH _ Hs).
    now rewrite <- app_assoc.
Qed.

Lemma csv_line_chars (d : day) :
  chars (csv_line d)
  = chars (date_str d) ++ PyIO.COMMA :: chars (Py.str (min_f d))
    ++ PyIO.COMMA :: chars (Py.str (max_f d)).
Proof. unfold csv_line. rewrite !chars_app. reflexivity. Qed.

Lemma storable_fields (d : day) :
  storable d = true ->
  (forallb field_char (chars (date_str d)) = true
   /\ Z.of_nat (List.length (chars (date_str d))) <= PyIO.field_limit)
  /\ (forallb field_char (chars (Py.str (min_f d))) = true
      /\ Z.of_nat (List.length (chars (Py.str (min_f d)))) <= PyIO.field_limit)
  /\ (forallb field_char (chars (Py.str (max_f d))) = true
      /\ Z.of_nat (List.length (chars (Py.str (max_f d)))) <= PyIO.field_limit).
Proof.
  intros H. destruct (storable_inv d H) as (a & b & E & Ba & Bb & P).
  rewrite E. cbn [date_str min_f max_f Py.str].
  split; [now apply plain_field_inv |].
  split; now apply str_int_field.
Qed.

Lemma csv_line_start (d : day) (tail : string) (r : list ascii) :
  storable d = true -> chars (csv_line d ++ tail) <> PyIO.LF :: r.
Proof.
  intros H. destruct (storable_fields d H) as ((F & _) & _).
  rewrite chars_app, csv_line_chars.
  destruct (chars (date_str d)) as [| c cs]; [discriminate |].
  cbn [forallb] in F. apply andb_true_iff in F. destruct F as [Fc _].
  destruct (field_char_inv c Fc) as [P _].
  destruct (plain_char_inv c P) as (_ & _ & N).
  cbn [app]. intros X. injection X as -> _. discriminate N.
Qed.

Lemma reader_days (eol : string) (days : list day) :
  line_end eol = true -> forallb storable days = true ->
  PyIO.reader (body_text eol days) = (map row_of_day days, false)
  /\ (eol = cr -> forall r, chars (body_text eol days) <> PyIO.LF :: r).
Proof.
  intros E. induction days as [| d days IH]; intros H.
  - split; [reflexivity | discriminate].
  - cbn [forallb] in H. apply andb_true_iff in H. destruct H as [Hd Hs].
    destruct (IH Hs) as [IHr IHc]. cbn [body_text fold_right map].
    fold (body_text eol days).
    split; [| intros _ r; now apply csv_line_start].
    destruct (storable_fields d Hd) as ((F1 & L1) & (F2 & L2) & (F3 & L3)).
    rewrite reader_chars in *. rewrite !chars_app.
    rewrite lines_from_line; [| | exact E | exact IHc].
    + cbn [rev app]. rewrite csv_line_chars at 1. rewrite <- !app_assoc.
      cbn [app]. rewrite <- !app_assoc.
      erewrite rows_from_line;
        [| apply (parse_day_line _ _ _ eol F1 F2 F3 L1 L2 L3 E) | reflexivity].
      rewrite IHr. cbn [fst snd PyIO.fields]. unfold row_of_day, chars.
      now rewrite !string_of_list_ascii_of_string.
    + apply plain_chars_no_newline. rewrite csv_line_chars.
      rewrite forallb_app. cbn [forallb]. rewrite forallb_app. cbn [forallb].
      rewrite (field_chars_plain _ F1), (field_chars_plain _ F2),
        (field_chars_plain _ F3). reflexivity.
Qed.

Lemma load_row_step (row : list string) (rest : list (list string))
  (data : list day) :
  row <> [] ->
  Loader.load_rows (row :: rest) data
  = match row_day row with
    | Some d => Loader.load_rows rest (data ++ [d])
    | None => Failed (row_error row)
    end.
Proof.
  intros N. destruct row as [| x [| t1 [| t2 r]]]; [congruence | reflexivity | |].
  - cbn [Loader.load_rows Loader.item nth_error io_bind row_day row_error].
    unfold Loader.to_int. now destruct (PyIO.int_of_string t1).
  - cbn [Loader.load_rows Loader.item nth_error io_bind row_day row_error].
    unfold Loader.to_int.
    destruct (PyIO.int_of_string t1); cbn [io_bind]; [| reflexivity].
    destruct (PyIO.int_of_string t2); reflexivity.
Qed.

Lemma load_rows_loaded (rows : list (list string)) :
  forall data out,
  Loader.load_rows rows data = Loaded out <->
  (forall row, In row rows -> row = [] \/ row_day row <> None)
  /\ out = data ++ days_of_rows rows.
Proof.
  induction rows as [| row rows IH]; intros data out.
  - cbn. rewrite app_nil_r. split.
    + intros H. injection H as <-. split; [tauto | reflexivity].
    + intros [_ ->]. reflexivity.
  - destruct row as [| x r] eqn:E.
    + cbn [Loader.load_rows days_of_rows flat_map row_day app].
      fold (days_of_rows rows). rewrite IH. split.
      * intros [H ->]. split; [| reflexivity].
        intros row' [<- | Hr]; [now left | now apply H].
      * intros [H ->]. split; [| reflexivity].
        intros row' Hr. apply H. now right.
    + rewrite <- E. rewrite load_row_step by (subst; discriminate).
      cbn [days_of_rows flat_map]. fold (days_of_rows rows).
      destruct (row_day row) as [d |] eqn:D.
      * rewrite IH, <- app_assoc. split.
        -- intros [H ->]. split; [| reflexivity].
           intros row' [<- | Hr]; [right; congruence | now apply H].
        -- intros [H ->]. split; [| reflexivity].
           intros row' Hr. apply H. now right.
      * split; [discriminate |]. intros [H _]. exfalso.
        destruct (H row (or_introl eq_refl)) as [H0 | H0]; subst; [discriminate | congruence].
Qed.

Lemma load_rows_failed (good : list (list string)) (bad : list string)
  (rest : list (list string)) :
  forall data,
  (forall row, In row good -> row = [] \/ row_day row <> None) ->
  bad <> [] -> row_day bad = None ->
  Loader.load_rows (good ++ bad :: rest) data = Failed (row_error bad).
Proof.
  induction good as [| row good IH]; intros data G N B.
  - cbn [app]. now rewrite load_row_step, B.
  - cbn [app]. destruct row as [| x r] eqn:E.
    + cbn [Loader.load_rows]. apply IH; auto. intros row' Hr. apply G. now right.
    + rewrite <- E in G |- *. rewrite load_row_step by (subst; discriminate).
      destruct (G row (or_introl eq_refl)) as [H0 | H0]; [subst; discriminate |].
      destruct (row_day row); [| congruence].
      apply IH; auto. intros row' Hr. apply G. now right.
Qed.

Lemma firstn3_row (row : list string) :
  row_day (firstn 3 row) = row_day row
  /\ row_error (firstn 3 row) = row_error row
  /\ (firstn 3 row = [] <-> row = []).
Proof.
  destruct row as [| x [| t1 [| t2 r]]]; cbn [firstn row_day row_error];
    repeat split; try discriminate; reflexivity.
Qed.

(** X10: load_data_from_csv keeps the rows in the order of the file, one day
    per row that is not blank: on rows of ASCII text, the fields of at most
    4300 characters, the loop over the rows returns a list exactly when every row is blank or holds a date, two
    integers and whatever follows them, and the list is then made of the days
    of these rows, in order.  Blank rows are skipped and the fields after the
    third are never looked at: the result, list or exception, does not depend
    on them. *)
Theorem load_data_from_csv_days_of_rows :
  (forall rows days, ascii_rows rows = true ->
     (Loader.load_rows rows [] = Loaded days <->
      (forall row, In row rows -> row = [] \/ row_day row <> None)
      /\ days = days_of_rows rows))
  /\ (forall rows data,
        Loader.load_rows (filter (fun row => negb (is_blank row)) rows) data
        = Loader.load_rows rows data)
  /\ (forall rows data,
        Loader.load_rows (map (firstn 3) rows) data = Loader.load_rows rows data).
Proof.
  split; [intros rows days _; apply (load_rows_loaded rows []) |]. split.
  - induction rows as [| row rows IH]; intros data; [reflexivity |].
    destruct row as [| x r] eqn:E.
    + cbn [filter is_blank negb Loader.load_rows]. apply IH.
    + rewrite <- E.
      replace (filter (fun row => negb (is_blank row)) (row :: rows))
        with (row :: filter (fun row => negb (is_blank row)) rows)
        by (subst; reflexivity).
      rewrite !load_row_step by (subst; discriminate).
      destruct (row_day row); [apply IH | reflexivity].
  - induction rows as [| row rows IH]; intros data; [reflexivity |].
    cbn [map]. destruct (firstn3_row row) as (D & R & N).
    destruct row as [| x r] eqn:E.
    + cbn [firstn Loader.load_rows]. apply IH.
    + rewrite <- E in *.
      rewrite !load_row_step; [| subst; discriminate | rewrite N; subst; discriminate].
      rewrite D, R. destruct (row_day row); [apply IH | reflexivity].
Qed.

Lemma load_data_from_csv_days_of_rows_witness :
  ascii_rows small_rows = true
  /\ (Loader.load_rows small_rows []
      = Loaded [mkday "2021-07-02" (PyInt 49) (PyInt 67);
                mkday "2021-07-03" (PyInt 57) (PyInt 68)]
      <-> (forall row, In row small_rows -> row = [] \/ row_day row <> None)
          /\ [mkday "2021-07-02" (PyInt 49) (PyInt 67);
              mkday "2021-07-03" (PyInt 57) (PyInt 68)]
             = days_of_rows small_rows).
Proof.
  split; [reflexivity |].
  apply (proj1 load_data_from_csv_days_of_rows). reflexivity.
Defined.

(** X11: the first row that is not blank and does not hold a day, a row of
    ASCII text with fields of at most 4300 characters, decides what load_data_from_csv raises, whatever the rows
    after it are and whatever the reader does after it: an IndexError for a row of one field; a ValueError
    when the second field is not an integer, even when there is no third
    field; an IndexError for a row of two fields the second of which is an
    integer; a ValueError when the third field is not an integer. *)
Theorem load_data_from_csv_first_faulty_row :
  forall header good bad rest err,
  (forall row, In row good -> row = [] \/ row_day row <> None) ->
  bad <> [] -> forallb ascii_text bad = true -> row_day bad = None ->
  exists e,
    Loader.load_from_reader (header :: good ++ bad :: rest, err) = Failed e
    /\ (forall x, bad = [x] -> e = IndexError)
    /\ (forall x t1 r, bad = x :: t1 :: r -> PyIO.int_of_string t1 = None ->
          e = Conversion ValueError)
    /\ (forall x t1 a, bad = [x; t1] -> PyIO.int_of_string t1 = Some a ->
          e = IndexError)
    /\ (forall x t1 t2 r a, bad = x :: t1 :: t2 :: r ->
          PyIO.int_of_string t1 = Some a ->
          PyIO.int_of_string t2 = None /\ e = Conversion ValueError).
Proof.
  intros header good bad rest err G N _ B. exists (row_error bad).
  split; [| repeat split].
  - cbn [Loader.load_from_reader]. now rewrite (load_rows_failed good bad rest [] G N B).
  - intros x ->. reflexivity.
  - intros x t1 r -> H. cbn [row_error]. now rewrite H.
  - intros x t1 a -> H. cbn [row_error]. now rewrite H.
  - subst bad. cbn [row_day] in B. rewrite H0 in B.
    now destruct (PyIO.int_of_string t2).
  - subst bad. cbn [row_error]. now rewrite H0.
Qed.

Lemma load_data_from_csv_first_faulty_row_witness :
  (forall row, In row [["2021-07-02"; "49"; "67"]; []] ->
     row = [] \/ row_day row <> None)
  /\ ["2021-07-03"; "57"] <> []
  /\ forallb ascii_text ["2021-07-03"; "57"] = true
  /\ row_day ["2021-07-03"; "57"] = None
  /\ exists e,
       Loader.load_from_reader
         (["date"; "min"; "max"]
          :: [["2021-07-02"; "49"; "67"]; []] ++ ["2021-07-03"; "57"]
          :: [["2021-07-04"; "cold"; "68"]], false)
       = Failed e
       /\ (forall x, ["2021-07-03"; "57"] = [x] -> e = IndexError)
       /\ (forall x t1 r, ["2021-07-03"; "57"] = x :: t1 :: r ->
             PyIO.int_of_string t1 = None -> e = Conversion ValueError)
       /\ (forall x t1 a, ["2021-07-03"; "57"] = [x; t1] ->
             PyIO.int_of_string t1 = Some a -> e = IndexError)
       /\ (forall x t1 t2 r a, ["2021-07-03"; "57"] = x :: t1 :: t2 :: r ->
             PyIO.int_of_string t1 = Some a ->
             PyIO.int_of_string t2 = None /\ e = Conversion ValueError).
Proof.
  assert (G : forall row, In row [["2021-07-02"; "49"; "67"]; []] ->
                row = [] \/ row_day row <> None).
  { intros row [<- | [<- | []]]; [right; vm_compute; discriminate | now left]. }
  split; [exact G |]. split; [discriminate |]. split; [reflexivity |].
  split; [reflexivity |].
  apply load_data_from_csv_first_faulty_row;
    [exact G | discriminate | reflexivity | reflexivity].
Defined.

Lemma load_header (h eol body : string) :
  header_line h = true -> line_end eol = true ->
  (eol = cr -> forall r, chars body <> PyIO.LF :: r) ->
  Loader.load_data_from_csv (h ++ eol ++ body)
  = (data <~ Loader.load_rows (fst (PyIO.reader body)) [] ;;
     if snd (PyIO.reader body) then Failed CsvError else Loaded data).
Proof.
  intros H E R. unfold Loader.load_data_from_csv.
  destruct (reader_header h eol body H E R) as [row ->]. reflexivity.
Qed.

(** X12: load_data_from_csv drops the first line of the file without looking
    at it: two files that differ in their header only, a line without quotes
    ended by a line feed or by a carriage return and a line feed, load to the
    same list or raise the same exception; a file that is a header and
    nothing else loads to the empty list; the empty file raises
    StopIteration, which load_data_from_csv does not catch. *)
Theorem load_data_from_csv_skips_header :
  (forall h1 h2 eol body,
     header_line h1 = true -> header_line h2 = true -> eol = lf \/ eol = crlf ->
     Loader.load_data_from_csv (h1 ++ eol ++ body)
     = Loader.load_data_from_csv (h2 ++ eol ++ body))
  /\ (forall h eol, header_line h = true -> line_end eol = true ->
        Loader.load_data_from_csv (h ++ eol) = Loaded [])
  /\ Loader.load_data_from_csv "" = Failed StopIteration.
Proof.
  split; [| split; [| reflexivity]].
  - intros h1 h2 eol body H1 H2 E.
    assert (L : line_end eol = true) by (destruct E as [-> | ->]; reflexivity).
    assert (R : eol = cr -> forall r, chars body <> PyIO.LF :: r)
      by (destruct E as [-> | ->]; discriminate).
    now rewrite !load_header.
  - intros h eol H E.
    rewrite <- (string_app_empty_r eol) at 1.
    rewrite load_header; [reflexivity | exact H | exact E | discriminate].
Qed.

Lemma load_data_from_csv_skips_header_witness :
  header_line "date,min,max" = true
  /\ header_line "" = true
  /\ (lf = lf \/ lf = crlf)
  /\ Loader.load_data_from_csv ("date,min,max" ++ lf ++ "2021-07-02,49,67")
     = Loader.load_data_from_csv ("" ++ lf ++ "2021-07-02,49,67").
Proof.
  split; [reflexivity |]. split; [reflexivity |]. split; [now left |].
  apply (proj1 load_data_from_csv_skips_header); [reflexivity | reflexivity | now left].
Defined.

(** X13: load_data_from_csv reads back what was written: for a header without
    quotes, days whose date is a text without comma, quote or end of line and
    whose readings are integers of at most 4300 digits, and lines ended by a
    line feed, by a carriage return and a line feed, or by a carriage return,
    the file of the header and of one line "date,min,max" per day loads to
    the list of these days, the dates as they were written and the readings
    as integers. *)
Theorem load_data_from_csv_reads_back :
  forall header eol days,
  header_line header = true -> line_end eol = true ->
  forallb storable days = true ->
  Loader.load_data_from_csv (file_text header eol days) = Loaded days.
Proof.
  intros header eol days H E S. unfold file_text.
  destruct (reader_days eol days E S) as [R C].
  rewrite (load_header header eol _ H E C), R. cbn [fst snd].
  now rewrite (load_rows_days days [] S).
Qed.

Lemma load_data_from_csv_reads_back_witness :
  header_line "date,min,max" = true
  /\ line_end crlf = true
  /\ forallb storable small_days = true
  /\ Loader.load_data_from_csv (file_text "date,min,max" crlf small_days)
     = Loaded small_days.
Proof.
  assert (S : forallb storable small_days = true) by (vm_compute; reflexivity).
  split; [reflexivity |]. split; [reflexivity |]. split; [exact S |].
  apply load_data_from_csv_reads_back; [reflexivity | reflexivity | exact S].
Defined.

(** ** What the loader returns *)

Lemma row_day_readings (row : list string) (d : day) :
  row_day row = Some d ->
  exists a b,
    min_f d = PyInt a /\ max_f d = PyInt b
    /\ nth_error row 0 = Some (date_str d).
Proof.
  destruct row as [| x [| t1 [| t2 r]]]; try discriminate. cbn [row_day].
  destruct (PyIO.int_of_string t1) as [a |] eqn:A; [| discriminate].
  destruct (PyIO.int_of_string t2) as [b |] eqn:B; [| discriminate].
  intros H. injection H as <-. exists a, b. repeat split.
Qed.

Lemma integer_reading_error (a : Z) (e : exn) :
  convert_f_to_c (PyInt a) = Raise e -> e = OverflowError.
Proof.
  unfold convert_f_to_c, Py.to_float.
  destruct (is_infinity (Py.float_of_Z a)); cbn [bind]; congruence.
Qed.

(** X14: whatever load_data_from_csv returns, the readings of its days are
    integers, and the date of a day is the first field of a row as it stands
    in the file, not checked.  The conversion of such a reading never raises
    a ValueError: it can only overflow. *)
Theorem load_data_from_csv_integer_readings :
  forall text days, Loader.load_data_from_csv text = Loaded days ->
  forall d, In d days ->
  exists a b,
    min_f d = PyInt a /\ max_f d = PyInt b
    /\ (exists row, In row (fst (PyIO.reader text))
                    /\ nth_error row 0 = Some (date_str d))
    /\ (reading_error d = None \/ reading_error d = Some OverflowError).
Proof.
  intros text days H d Hd. unfold Loader.load_data_from_csv in H.
  destruct (PyIO.reader text) as [[| header rows] err]; [discriminate |].
  cbn [Loader.load_from_reader] in H.
  destruct (Loader.load_rows rows []) as [data | e] eqn:L; [| discriminate].
  cbn [io_bind] in H. destruct err; [discriminate |]. injection H as <-.
  apply load_rows_loaded in L. destruct L as [_ ->]. cbn [app] in Hd.
  unfold days_of_rows in Hd. apply in_flat_map in Hd.
  destruct Hd as (row & Hr & Hin).
  destruct (row_day row) as [d' |] eqn:R; [| contradiction].
  destruct Hin as [<- | []].
  destruct (row_day_readings row d' R) as (a & b & Ea & Eb & Ed).
  exists a, b. split; [exact Ea |]. split; [exact Eb |]. split.
  - exists row. split; [cbn [fst]; now right | exact Ed].
  - unfold reading_error. rewrite Ea, Eb.
    destruct (convert_f_to_c (PyInt a)) as [c | e] eqn:Ca.
    + destruct (convert_f_to_c (PyInt b)) as [c' | e] eqn:Cb; [now left |].
      right. now rewrite (integer_reading_error b e Cb).
    + right. now rewrite (integer_reading_error a e Ca).
Qed.

Lemma load_data_from_csv_integer_readings_witness :
  Loader.load_data_from_csv small_file = Loaded small_days
  /\ In (mkday "2021-07-03T07:00:00+08:00" (PyInt 57) (PyInt 68)) small_days
  /\ exists a b,
       min_f (mkday "2021-07-03T07:00:00+08:00" (PyInt 57) (PyInt 68)) = PyInt a
       /\ max_f (mkday "2021-07-03T07:00:00+08:00" (PyInt 57) (PyInt 68)) = PyInt b
       /\ (exists row,
             In row (fst (PyIO.reader small_file))
             /\ nth_error row 0
                = Some (date_str (mkday "2021-07-03T07:00:00+08:00" (PyInt 57)
                                   (PyInt 68))))
       /\ (reading_error (mkday "2021-07-03T07:00:00+08:00" (PyInt 57) (PyInt 68))
           = None
           \/ reading_error (mkday "2021-07-03T07:00:00+08:00" (PyInt 57) (PyInt 68))
              = Some OverflowError).
Proof.
  split; [vm_compute; reflexivity |].
  split; [right; left; reflexivity |].
  apply (load_data_from_csv_integer_readings small_file small_days);
    [vm_compute; reflexivity | right; left; reflexivity].
Defined.

(** ** From the file to the reports *)

Lemma plain_day_storable (d : day) :
  plain_day d = true -> plain_field (date_str d) = true -> storable d = true.
Proof.
  intros P F. unfold storable. rewrite F.
  destruct (plain_day_inv d P) as (_ & (a & Ea & Ha) & (b & Eb & Hb)).
  rewrite Ea, Eb. cbn [int_reading andb].
  assert (K : 1001 < 10 ^ 4300).
  { apply Z.lt_le_trans with (10 ^ 4); [reflexivity |].
    apply Z.pow_le_mono_r; lia. }
  apply andb_true_iff. split; apply Z.ltb_lt;
    (apply Z.lt_trans with (2 := K)); lia.
Qed.

(** X15: a file written from days of this world loads and is reported on
    without an exception: for days whose date reads as a date and is a text
    without comma, quote or end of line, with integer readings between -1000
    and 1000 degrees Fahrenheit, load_data_from_csv returns the days from
    their file, and on them generate_summary returns its five lines and
    generate_daily_summary one block per day. *)
Theorem reports_of_a_loaded_file :
  forall header eol days,
  header_line header = true -> line_end eol = true -> days <> [] ->
  forallb plain_day days = true ->
  forallb (fun d => plain_field (date_str d)) days = true ->
  exists lo lo_day hi hi_day avg_lo avg_hi,
    Loader.load_data_from_csv (file_text header eol days) = Loaded days
    /\ generate_summary days
       = Ok (summary_text (List.length days) lo lo_day hi hi_day avg_lo avg_hi)
    /\ generate_daily_summary days
       = Ok (Py.str_int (Z.of_nat (List.length days)) ++ " Day Overview"
             ++ nl ++ nl
             ++ Py.join (nl ++ nl) (hyphen_last (map block_text days)))%string.
Proof.
  intros header eol days H E N P F.
  assert (S : forallb storable days = true).
  { rewrite forallb_forall in *. intros d Hd.
    apply plain_day_storable; auto. }
  pose proof (plain_days_valid days P) as V.
  destruct (generate_summary_spec days N V)
    as (before & d & after & before' & d' & after' & _ & _ & _ & _ & _ & _ & _ & G).
  assert (C : forallb convertible days = true).
  { rewrite forallb_forall in *. intros x Hx. apply (plain_day_inv x (P x Hx)). }
  do 6 eexists. split; [| split; [exact G |]].
  { unfold file_text. destruct (reader_days eol days E S) as [R K].
    rewrite (load_header header eol _ H E K), R. cbn [fst snd].
    now rewrite (load_rows_days days [] S). }
  apply (generate_daily_summary_spec days N C).
Qed.

Lemma reports_of_a_loaded_file_witness :
  header_line "date,min,max" = true
  /\ line_end crlf = true
  /\ small_days <> []
  /\ forallb plain_day small_days = true
  /\ forallb (fun d => plain_field (date_str d)) small_days = true
  /\ exists lo lo_day hi hi_day avg_lo avg_hi,
       Loader.load_data_from_csv (file_text "date,min,max" crlf small_days)
       = Loaded small_days
       /\ generate_summary small_days
          = Ok (summary_text (List.length small_days) lo lo_day hi hi_day
                  avg_lo avg_hi)
       /\ generate_daily_summary small_days
          = Ok (Py.str_int (Z.of_nat (List.length small_days)) ++ " Day Overview"
                ++ nl ++ nl
                ++ Py.join (nl ++ nl) (hyphen_last (map block_text small_days)))%string.
Proof.
  split; [reflexivity |]. split; [reflexivity |]. split; [discriminate |].
  split; [vm_compute; reflexivity |]. split; [vm_compute; reflexivity |].
  apply reports_of_a_loaded_file;
    [reflexivity | reflexivity | discriminate | vm_compute; reflexivity
     | vm_compute; reflexivity].
Defined.

(** ** A series of one day *)

Lemma single_mean_range (f : Z) :
  -1000 <= f <= 1000 ->
  Py.round (Py.sum [celsius (PyInt f)] / Py.float_of_Z 1) 1 = celsius (PyInt f).
Proof.
  intros H.
  assert (E : forallb single_mean_keeps (Zrange (-1000) 1000) = true)
    by (vm_compute; reflexivity).
  apply Zrange_forallb with (z := f) in E; [| exact H].
  now apply FloatAxioms.Leibniz.eqb_spec in E.
Qed.

(** X16: for a series of one day, with a date that reads as a date and
    integer readings between -1000 and 1000 degrees Fahrenheit,
    generate_summary reports the minimum of the day as the lowest temperature
    and as the average low, its maximum as the highest temperature and as the
    average high, and its date twice: the mean of one value and its rounding
    change nothing. *)
Theorem generate_summary_single_day :
  forall d, plain_day d = true ->
  generate_summary [d]
  = Ok (summary_text 1
          (celsius (min_f d)) (human (date_str d))
          (celsius (max_f d)) (human (date_str d))
          (celsius (min_f d)) (celsius (max_f d))).
Proof.
  intros d P.
  assert (V : valid_series [d] = true)
    by (apply plain_days_valid; cbn [forallb]; now rewrite P).
  destruct (generate_summary_spec [d] ltac:(discriminate) V)
    as (before & d0 & after & before' & d0' & after' & E & _ & _ & E' & _ & _ & _ & G).
  assert (S : forall (b a : list day) (x : day), [d] = b ++ x :: a -> x = d).
  { intros [| y [| z b]] a x; cbn [app]; intros X; injection X; congruence. }
  apply S in E, E'. subst d0 d0'. rewrite G.
  destruct (plain_day_inv d P) as (_ & (a & Ea & Ha) & (b & Eb & Hb)).
  cbn [map List.length]. unfold len_float. cbn [List.length Z.of_nat Pos.of_succ_nat].
  rewrite Ea, Eb, !single_mean_range by assumption. reflexivity.
Qed.

Lemma generate_summary_single_day_witness :
  plain_day (mkday "2021-07-06" (PyInt 32) (PyInt 68)) = true
  /\ generate_summary [mkday "2021-07-06" (PyInt 32) (PyInt 68)]
     = Ok (summary_text 1
             (celsius (min_f (mkday "2021-07-06" (PyInt 32) (PyInt 68))))
             (human (date_str (mkday "2021-07-06" (PyInt 32) (PyInt 68))))
             (celsius (max_f (mkday "2021-07-06" (PyInt 32) (PyInt 68))))
             (human (date_str (mkday "2021-07-06" (PyInt 32) (PyInt 68))))
             (celsius (min_f (mkday "2021-07-06" (PyInt 32) (PyInt 68))))
             (celsius (max_f (mkday "2021-07-06" (PyInt 32) (PyInt 68))))).
Proof.
  split; [vm_compute; reflexivity |].
  apply generate_summary_single_day. vm_compute. reflexivity.
Defined.
